(** * PyPDF2 (jeansch fork): reader, writer, page composition, security handler

    A shallow embedding of the parts of [reader.py], [writer.py],
    [page_object.py] and [destination.py] that the specification's claims
    are about, and the theorems that settle them.

    Python 2 [str] values are byte strings: they are modelled as
    [list ascii].  Python integers are [Z].  Exceptions are the [Raise]
    branch of [result].  The object layer of [generic.py] is not part of
    the sources at hand; wherever a function of it is called, it is taken
    as a section variable, and a small concrete object model (module
    [Generic]) instantiates it for examples. *)

From Stdlib Require Import ZArith List Ascii String Lia Bool.
From stdpp Require Import gmap strings list.

Set Warnings "-register-all".
Local Open Scope Z_scope.

(** ** Byte strings and exceptions *)

Abbreviation bytes := (list ascii).

(** [b_] of [utils]: the byte string of a literal. *)
Definition b_ (s : string) : bytes := list_ascii_of_string s.

Definition LF : ascii := ascii_of_nat 10.
Definition CR : ascii := ascii_of_nat 13.
Definition SP : ascii := ascii_of_nat 32.
Definition DQUOTE : ascii := ascii_of_nat 34.

Inductive PyError : Type :=
| PdfReadError (msg : string)
| PageSizeNotDefinedError
| NotImplementedError (msg : string)
| PyException (msg : string)
| ValueError
| KeyError (key : string)
| IndexError
| UnboundLocalError (name : string)
| TypeError
| AttributeError
| ZeroDivisionError
| AssertionError
| StructError.

(** The outcome of a call: a value, an exception, or, for the loops that
    are run on fuel here, the fuel running out before the loop ended. *)
Inductive result (A : Type) : Type :=
| Ok (a : A)
| Raise (e : PyError)
| OutOfFuel.
Arguments Ok {A} a.
Arguments Raise {A} e.
Arguments OutOfFuel {A}.

#[global] Instance result_ret : MRet result := fun A a => Ok a.
#[global] Instance result_bind : MBind result := fun A B k r =>
  match r with
  | Ok a => k a
  | Raise e => Raise e
  | OutOfFuel => OutOfFuel
  end.

(** [d[key]] of a Python dict held as a finite map. *)
Definition getitem {V} (d : gmap string V) (key : string) : result V :=
  match d !! key with
  | Some v => Ok v
  | None => Raise (KeyError key)
  end.

(** [d.setdefault(key, value)], for its effect on [d]. *)
Definition setdefault {V} (key : string) (value : V) (d : gmap string V)
  : gmap string V :=
  match d !! key with
  | Some _ => d
  | None => <[key := value]> d
  end.

(** ** The object model (spec section 3)

    Modelled from the spec: the tagged value variants of [generic.py],
    which is not among the sources.  A real number keeps the decimal
    literal it was built from, a stream its decoded data.  A rectangle
    is the array of four numbers of a page box, a content stream the
    decoded stream of [page_object.py] with its list of operations: an
    operation is a pair of operands and operator, or an inline image
    with its settings and data. *)
Inductive Operation (Obj : Type) : Type :=
| Op (operands : list Obj) (operator : bytes)
| InlineImage (settings : Obj) (data : bytes).
Arguments Op {Obj} operands operator.
Arguments InlineImage {Obj} settings data.

Inductive PdfObject : Type :=
| NullObject
| BooleanObject (b : bool)
| NumberObject (z : Z)
| FloatObject (literal : string)
| NameObject (name : string)
| ByteStringObject (raw : bytes)
| TextStringObject (text : string) (original_bytes : bytes)
| ArrayObject (items : list PdfObject)
| RectangleObject (llx lly urx ury : PdfObject)
| DictionaryObject (entries : gmap string PdfObject)
| StreamObject (entries : gmap string PdfObject) (_data : bytes)
| ContentStream (operations : list (Operation PdfObject))
| IndirectObject (idnum generation : Z).

(** [obj == "literal"]: names and strings are [str] (or [unicode])
    subclasses and compare by their text; nothing else equals a string. *)
Definition eq_str (obj : PdfObject) (s : string) : bool :=
  match obj with
  | NameObject n => String.eqb n s
  | TextStringObject t _ => String.eqb t s
  | ByteStringObject r => if decide (r = b_ s) then true else false
  | _ => false
  end.

(** ** Collaborators

    The digest of [hashlib], the cipher of [utils], the key algorithms
    of [algorithms.py] (PDF 1.7 algorithms 33 to 35) and the string
    constructor of [generic.py] are called by the code below and are not
    part of it. *)
Class Primitives : Type := {
  md5 : bytes -> bytes;
  RC4_encrypt : bytes -> bytes -> bytes;
  _alg33_1 : bytes -> Z -> Z -> bytes;
  _alg34 : bytes -> bytes -> Z -> bytes -> bytes * bytes;
  _alg35 : bytes -> Z -> Z -> bytes -> Z -> bytes -> bool -> bytes * bytes;
  createStringObject : bytes -> PdfObject
}.

(** [struct.pack("<i", n)]: the four bytes of a 32-bit signed integer,
    least significant first; [struct.error] outside that range. *)
Definition byte_of (n : Z) : ascii := ascii_of_N (Z.to_N (n mod 256)).

Definition pack_i (n : Z) : result bytes :=
  if (- 2 ^ 31 <=? n) && (n <? 2 ^ 31) then
    Ok [byte_of n; byte_of (Z.shiftr n 8); byte_of (Z.shiftr n 16);
        byte_of (Z.shiftr n 24)]
  else Raise StructError.

(** [chr(ord(c) ^ i)] *)
Definition xor_byte (c : ascii) (i : Z) : ascii :=
  ascii_of_N (N.lxor (N_of_ascii c) (Z.to_N i)).

(** ** destination.py *)

Module Destination.

(** A [Destination] is a [DictionaryObject]; its entries. *)
Abbreviation t := (gmap string PdfObject).

Definition unknown (typ : PdfObject) : PyError :=
  PdfReadError "Unknown Destination Type".

(** [Destination.__init__(self, title, page, typ, *args)].  A tuple
    assignment from [args] raises [ValueError] when the number of
    elements differs. *)
Definition __init__ (title page typ : PdfObject) (args : list PdfObject)
  : result t :=
  let self : t :=
    <["/Type" := typ]> (<["/Page" := page]> (<["/Title" := title]> ∅)) in
  if eq_str typ "/XYZ" then
    match args with
    | [a_left; a_top; a_zoom] =>
        Ok (<["/Zoom" := a_zoom]> (<["/Top" := a_top]>
           (<["/Left" := a_left]> self)))
    | _ => Raise ValueError
    end
  else if eq_str typ "/FitR" then
    match args with
    | [a_left; a_bottom; a_right; a_top] =>
        Ok (<["/Top" := a_top]> (<["/Right" := a_right]>
           (<["/Bottom" := a_bottom]> (<["/Left" := a_left]> self))))
    | _ => Raise ValueError
    end
  else if eq_str typ "/FitH" || eq_str typ "FitBH" then
    match args with
    | [a_top] => Ok (<["/Top" := a_top]> self)
    | _ => Raise ValueError
    end
  else if eq_str typ "/FitV" || eq_str typ "FitBV" then
    match args with
    | [a_left] => Ok (<["/Left" := a_left]> self)
    | _ => Raise ValueError
    end
  else if eq_str typ "/Fit" || eq_str typ "FitB" then
    Ok self
  else Raise (unknown typ).

(** The table of spec section 6: the number of tail operands of each
    fit type, [None] for a fit type outside the set. *)
Definition tail_operands (typ : string) : option nat :=
  if String.eqb typ "/XYZ" then Some 3%nat
  else if String.eqb typ "/FitR" then Some 4%nat
  else if String.eqb typ "/FitH" then Some 1%nat
  else if String.eqb typ "/FitBH" then Some 1%nat
  else if String.eqb typ "/FitV" then Some 1%nat
  else if String.eqb typ "/FitBV" then Some 1%nat
  else if String.eqb typ "/Fit" then Some 0%nat
  else if String.eqb typ "/FitB" then Some 0%nat
  else None.

Definition succeeds (r : result t) : bool :=
  match r with Ok _ => true | _ => false end.

End Destination.

(** ** reader.py *)

Module Reader.

(** *** Cross-reference sections and the trailer (PdfFileReader.read)

    What [read] finds at a [startxref] offset, after the object layer
    has parsed it: a classical table with its trailer dictionary, a
    cross-reference stream with its stream dictionary, or neither, in
    which case [tmp.find("xref")] is the position of the keyword in the
    20 bytes around the offset, if any.  The table entries themselves
    fill [self.xref] and do not touch the trailer; they are left out. *)
Inductive XrefSection : Type :=
| ClassicTable (newTrailer : gmap string PdfObject)
| XRefStream (xrefstream : gmap string PdfObject)
| BadXrefChar (xref_loc : option Z).

(** [for key, value in newTrailer.items(): self.trailer.setdefault(key, value)] *)
Definition merge_classic (newTrailer trailer : gmap string PdfObject)
  : gmap string PdfObject :=
  map_fold (fun key value t => setdefault key value t) trailer newTrailer.

Definition trailerKeys : list string := ["/Root"; "/Encrypt"; "/Info"; "/ID"]%string.

(** [for key in trailerKeys:
       if key in xrefstream and key not in self.trailer:
           self.trailer[NameObject(key)] = xrefstream.raw_get(key)] *)
Definition merge_xrefstream (xrefstream trailer : gmap string PdfObject)
  : gmap string PdfObject :=
  foldl (fun t key =>
           match xrefstream !! key, t !! key with
           | Some raw, None => <[key := raw]> t
           | _, _ => t
           end) trailer trailerKeys.

(** The offset held by a [/Prev] entry; [stream.seek] refuses anything
    but an integer. *)
Definition as_offset (obj : PdfObject) : result Z :=
  match obj with
  | NumberObject z => Ok z
  | _ => Raise TypeError
  end.

(** The [while 1] loop of [read].  [xref_at] is the file seen through
    the parser; a [/Prev] chain that never ends keeps the Python loop
    running, and the fuel runs out. *)
Fixpoint read_xrefs (fuel : nat) (xref_at : Z -> XrefSection)
    (startxref : Z) (trailer : gmap string PdfObject)
  : result (gmap string PdfObject) :=
  match fuel with
  | O => OutOfFuel
  | S fuel' =>
      match xref_at startxref with
      | ClassicTable newTrailer =>
          let trailer := merge_classic newTrailer trailer in
          match newTrailer !! "/Prev" with
          | Some prev =>
              match as_offset prev with
              | Ok startxref => read_xrefs fuel' xref_at startxref trailer
              | Raise e => Raise e
              | OutOfFuel => OutOfFuel
              end
          | None => Ok trailer
          end
      | XRefStream xrefstream =>
          match xrefstream !! "/Type" with
          | None => Raise (KeyError "/Type")
          | Some ty =>
              if eq_str ty "/XRef" then
                let trailer := merge_xrefstream xrefstream trailer in
                match xrefstream !! "/Prev" with
                | Some prev =>
                    match as_offset prev with
                    | Ok startxref => read_xrefs fuel' xref_at startxref trailer
                    | Raise e => Raise e
                    | OutOfFuel => OutOfFuel
                    end
                | None => Ok trailer
                end
              else Raise AssertionError
          end
      | BadXrefChar (Some xref_loc) =>
          read_xrefs fuel' xref_at (startxref - (10 - xref_loc)) trailer
      | BadXrefChar None => Raise AssertionError
      end
  end.

(** What a section offers to the merged trailer under a key. *)
Definition offers (sec : XrefSection) (key : string) : option PdfObject :=
  match sec with
  | ClassicTable newTrailer => newTrailer !! key
  | XRefStream xrefstream =>
      if bool_decide (key ∈ trailerKeys) then xrefstream !! key else None
  | BadXrefChar _ => None
  end.

(** First occurrence wins (spec 4.D step 3): the value of [key] in the
    merged trailer, for the sections in the order they are read. *)
Fixpoint first_occurrence (key : string) (chain : list XrefSection)
  : option PdfObject :=
  match chain with
  | [] => None
  | sec :: chain' =>
      match offers sec key with
      | Some v => Some v
      | None => first_occurrence key chain'
      end
  end.

(** [follows xref_at startxref chain]: starting at [startxref] and
    following [/Prev], the sections met are [chain], and the last one
    has no [/Prev]. *)
Inductive follows (xref_at : Z -> XrefSection) : Z -> list XrefSection -> Prop :=
| follows_classic_last startxref d :
    xref_at startxref = ClassicTable d -> d !! "/Prev" = None ->
    follows xref_at startxref [ClassicTable d]
| follows_classic_prev startxref d prev chain :
    xref_at startxref = ClassicTable d ->
    d !! "/Prev" = Some (NumberObject prev) ->
    follows xref_at prev chain ->
    follows xref_at startxref (ClassicTable d :: chain)
| follows_stream_last startxref d ty :
    xref_at startxref = XRefStream d ->
    d !! "/Type" = Some ty -> eq_str ty "/XRef" = true ->
    d !! "/Prev" = None ->
    follows xref_at startxref [XRefStream d]
| follows_stream_prev startxref d ty prev chain :
    xref_at startxref = XRefStream d ->
    d !! "/Type" = Some ty -> eq_str ty "/XRef" = true ->
    d !! "/Prev" = Some (NumberObject prev) ->
    follows xref_at prev chain ->
    follows xref_at startxref (XRefStream d :: chain)
| follows_realign startxref xref_loc chain :
    xref_at startxref = BadXrefChar (Some xref_loc) ->
    follows xref_at (startxref - (10 - xref_loc)) chain ->
    follows xref_at startxref (BadXrefChar (Some xref_loc) :: chain).

(** *** The security handler *)

(** The encryption dictionary [trailer['/Encrypt'].getObject()].  The
    entries the PDF reference requires of the Standard handler are
    fields; [/Length] and [/EncryptMetadata] are optional there and
    may be absent. *)
Record EncryptDict : Type := {
  Filter : PdfObject;
  V : Z;
  R : Z;
  Length : option Z;
  O : bytes;
  U : bytes;
  P : Z;
  EncryptMetadata : option bool
}.

(** The part of a [PdfFileReader] the security handler works on:
    the [/Encrypt] entry of the trailer (absent for a document in the
    clear), the first element of the trailer's [/ID], the attribute
    [_decryption_key] (unset until a password matched) and the
    override switch. *)
Record PdfFileReader : Type := {
  Encrypt : option EncryptDict;
  id1_entry : bytes;
  _decryption_key : option bytes;
  _override_encryption : bool
}.

Definition set_decryption_key (self : PdfFileReader) (key : bytes) :=
  {| Encrypt := Encrypt self; id1_entry := id1_entry self;
     _decryption_key := Some key;
     _override_encryption := _override_encryption self |}.

Definition set_override (self : PdfFileReader) (b : bool) :=
  {| Encrypt := Encrypt self; id1_entry := id1_entry self;
     _decryption_key := _decryption_key self;
     _override_encryption := b |}.

(** [getIsEncrypted]: ["/Encrypt" in self.trailer] *)
Definition getIsEncrypted (self : PdfFileReader) : bool :=
  match Encrypt self with Some _ => true | None => false end.

Definition trailer_Encrypt (self : PdfFileReader) : result EncryptDict :=
  match Encrypt self with
  | Some encrypt => Ok encrypt
  | None => Raise (KeyError "/Encrypt")
  end.

(** [encrypt["/Length"]] *)
Definition getLength (encrypt : EncryptDict) : result Z :=
  match Length encrypt with
  | Some l => Ok l
  | None => Raise (KeyError "/Length")
  end.

Section Security.
Context `{Primitives}.

(** [_authenticateUserPassword]: with neither branch taken, [U] is
    read before it was ever bound. *)
Definition _authenticateUserPassword (self : PdfFileReader)
    (password : bytes) : result (bool * bytes) :=
  encrypt ← trailer_Encrypt self;
  let rev := R encrypt in
  let owner_entry := O encrypt in
  let p_entry := P encrypt in
  let real_U := U encrypt in
  if rev =? 2 then
    let '(U, key) := _alg34 password owner_entry p_entry (id1_entry self) in
    Ok (bool_decide (U = real_U), key)
  else if rev >=? 3 then
    length ← getLength encrypt;
    let '(U, key) :=
      _alg35 password rev (length / 8) owner_entry p_entry (id1_entry self)
             (default false (EncryptMetadata encrypt)) in
    Ok (bool_decide (take 16 U = take 16 real_U), key)
  else Raise (UnboundLocalError "U").

(** "The password authenticates as the user password", and [key] is
    the key derived on the way. *)
Definition authenticates (self : PdfFileReader) (password key : bytes) : Prop :=
  _authenticateUserPassword self password = Ok (true, key).

(** [range(19, -1, -1)] *)
Definition rounds_19_down_to_0 : list Z :=
  [19; 18; 17; 16; 15; 14; 13; 12; 11; 10; 9; 8; 7; 6; 5; 4; 3; 2; 1; 0].

(** The [else] branch of [_decrypt] up to [userpass]: the user
    password recovered from [/O] with the candidate taken as the
    owner password. *)
Definition recover_userpass (encrypt : EncryptDict) (password : bytes)
  : result bytes :=
  let rev := R encrypt in
  keylen ← (if rev =? 2 then Ok 5
            else length ← getLength encrypt; Ok (length / 8));
  let key := _alg33_1 password rev keylen in
  let real_O := O encrypt in
  if rev =? 2 then Ok (RC4_encrypt key real_O)
  else
    Ok (foldl (fun val i =>
                 let new_key := map (fun c => xor_byte c i) key in
                 RC4_encrypt new_key val)
              real_O rounds_19_down_to_0).

(** [_decrypt]: the return code and the reader afterwards. *)
Definition _decrypt (self : PdfFileReader) (password : bytes)
  : result (Z * PdfFileReader) :=
  encrypt ← trailer_Encrypt self;
  if negb (eq_str (Filter encrypt) "/Standard") then
    Raise (NotImplementedError
             "only Standard PDF encryption handler is available")
  else if negb ((V encrypt =? 1) || (V encrypt =? 2)) then
    Raise (NotImplementedError "only algorithm code 1 and 2 are supported")
  else
    '(user_password, key) ← _authenticateUserPassword self password;
    if user_password : bool then
      Ok (1, set_decryption_key self key)
    else
      userpass ← recover_userpass encrypt password;
      '(owner_password, key) ← _authenticateUserPassword self userpass;
      if owner_password : bool then
        Ok (2, set_decryption_key self key)
      else Ok (0, self).

(** [decrypt]: [_decrypt] under the override switch, which the
    [finally] clause clears whether or not an exception passes. *)
Definition decrypt (self : PdfFileReader) (password : bytes)
  : result Z * PdfFileReader :=
  let self := set_override self true in
  match _decrypt self password with
  | Ok (code, self) => (Ok code, set_override self false)
  | Raise e => (Raise e, set_override self false)
  | OutOfFuel => (OutOfFuel, set_override self false)
  end.

(** *** Per-object decryption (PdfFileReader.getObject) *)

(** The key built in [getObject] for the reference
    [(idnum, generation)]. *)
Definition object_key (_decryption_key : bytes) (idnum generation : Z)
  : result bytes :=
  p1 ← pack_i idnum;
  let pack1 := take 3 p1 in
  p2 ← pack_i generation;
  let pack2 := take 2 p2 in
  let key := _decryption_key ++ pack1 ++ pack2 in
  if negb (length key =? length _decryption_key + 5)%nat then
    Raise AssertionError
  else
    let md5_hash := md5 key in
    Ok (take (Nat.min 16 (length _decryption_key + 5)) md5_hash).

(** [_decryptObject]: strings and stream data are deciphered,
    dictionaries and arrays are walked; a stream is tested before a
    dictionary, being one. *)
Fixpoint _decryptObject (obj : PdfObject) (key : bytes) : PdfObject :=
  match obj with
  | ByteStringObject raw => createStringObject (RC4_encrypt key raw)
  | TextStringObject _ raw => createStringObject (RC4_encrypt key raw)
  | StreamObject entries _data => StreamObject entries (RC4_encrypt key _data)
  | DictionaryObject entries =>
      DictionaryObject ((fun value => _decryptObject value key) <$> entries)
  | ArrayObject items =>
      ArrayObject (map (fun item => _decryptObject item key) items)
  | _ => obj
  end.

(** The end of [getObject], from [retval = readObject(...)] on: what
    is cached and returned for the object just parsed. *)
Definition getObject_decrypt (self : PdfFileReader) (idnum generation : Z)
    (retval : PdfObject) : result PdfObject :=
  if negb (_override_encryption self) && getIsEncrypted self then
    match _decryption_key self with
    | None => Raise (PyException "file has not been decrypted")
    | Some _decryption_key =>
        key ← object_key _decryption_key idnum generation;
        Ok (_decryptObject retval key)
    end
  else Ok retval.

End Security.

End Reader.

(** ** The per-object key of the specification (section 4.I) *)

(** The low [n] bytes of [z], least significant first. *)
Fixpoint low_bytes (n : nat) (z : Z) : bytes :=
  match n with
  | O => []
  | S n' => byte_of z :: low_bytes n' (z / 256)
  end.

(** Append the low three bytes of the id and the low two bytes of the
    generation to [K], digest, truncate to [min(16, len(K) + 5)] bytes. *)
Definition per_object_key `{Primitives} (K : bytes) (id gen : Z) : bytes :=
  take (Nat.min 16 (length K + 5)) (md5 (K ++ low_bytes 3 id ++ low_bytes 2 gen)).

(** ** The object layer and the numbers of Python

    [generic.py] and [utils.py] are not among the sources.  What the
    code below calls from them is gathered here: the object an indirect
    reference stands for in its owning document, serialization, the object parser on the bytes left of a
    stream (returning the bytes left after the object), inequality of
    objects, the delimiter characters, and the union of two [/ProcSet]
    arrays taken as sets. *)
Class ObjectLayer : Type := {
  resolve : Z -> Z -> result PdfObject;
  writeToStream : PdfObject -> option bytes -> bytes;
  readObject : bytes -> result (PdfObject * bytes);
  obj_ne : PdfObject -> PdfObject -> bool;
  delimiterCharacters : list ascii;
  ProcSet_union : PdfObject -> PdfObject -> result PdfObject
}.

(** [obj.getObject()]: an indirect reference is resolved, any other
    object is itself. *)
Definition getObject `{ObjectLayer} (obj : PdfObject) : result PdfObject :=
  match obj with
  | IndirectObject idnum generation => resolve idnum generation
  | _ => Ok obj
  end.

(** [d[key]] of a [DictionaryObject]: the entry, dereferenced;
    [d.raw_get(key)] is [getitem]. *)
Definition dict_getitem `{ObjectLayer} (d : gmap string PdfObject)
    (key : string) : result PdfObject :=
  raw ← getitem d key; getObject raw.

(** The entries of an object used as a dictionary. *)
Definition as_dict (obj : PdfObject) : result (gmap string PdfObject) :=
  match obj with
  | DictionaryObject entries => Ok entries
  | StreamObject entries _ => Ok entries
  | _ => Raise TypeError
  end.

(** [d.keys()], in the order the dictionary yields them. *)
Definition dict_keys (d : gmap string PdfObject) : list string :=
  (map_to_list d).*1.

(** The numbers of Python ([int], [float], [Decimal]) and their
    arithmetic, which may raise ([ZeroDivisionError], [TypeError] on
    mixed operands); [str_] is [str(x)], [number_of] the numeric value
    of a numeric object, [float_] is [float(obj)]; [getWidth] and
    [getHeight] are the methods of a rectangle. *)
Class Numbers : Type := {
  number : Type;
  of_Z : Z -> number;
  str_ : number -> string;
  number_of : PdfObject -> result number;
  float_ : PdfObject -> result number;
  sub : number -> number -> result number;
  mul : number -> number -> result number;
  div : number -> number -> result number;
  getWidth : PdfObject -> result number;
  getHeight : PdfObject -> result number
}.

(** [FloatObject(value)]: the decimal built from [str(value)]. *)
Definition FloatObject_ `{Numbers} (value : number) : PdfObject :=
  FloatObject (str_ value).

(** [RectangleObject(arr)].  Modelled from the spec: a page box is an
    array of four numbers; anything else is refused. *)
Definition RectangleObject_ (arr : PdfObject) : result PdfObject :=
  match arr with
  | ArrayObject [a; b; c; d] => Ok (RectangleObject a b c d)
  | RectangleObject a b c d => Ok (RectangleObject a b c d)
  | ArrayObject _ => Raise AssertionError
  | _ => Raise TypeError
  end.

(** ** Characters *)

(** [c.isspace()] and [c.isalpha()] of a one-byte [str]. *)
Definition isspace (c : ascii) : bool :=
  let n := nat_of_ascii c in
  (n =? 32)%nat || ((9 <=? n)%nat && (n <=? 13)%nat).

Definition isalpha (c : ascii) : bool :=
  let n := nat_of_ascii c in
  ((65 <=? n)%nat && (n <=? 90)%nat) || ((97 <=? n)%nat && (n <=? 122)%nat).

(** Modelled from the spec: the whitespace of the low-level tokenizer
    ([utils.WHITESPACES], spec 4.B), taken to be the white-space
    characters of PDF: NUL, TAB, LF, FF, CR and SP. *)
Definition is_whitespace (c : ascii) : bool :=
  let n := nat_of_ascii c in
  (n =? 0)%nat || (n =? 9)%nat || (n =? 10)%nat || (n =? 12)%nat
  || (n =? 13)%nat || (n =? 32)%nat.

(** Modelled from the spec: [utils.readNonWhitespace(stream)] reads up
    to and including the next byte that is not whitespace and returns
    it, or the empty string at the end of the stream.  The second
    component is what is left of the stream. *)
Fixpoint readNonWhitespace (stream : bytes) : option ascii * bytes :=
  match stream with
  | [] => (None, [])
  | c :: rest => if is_whitespace c then readNonWhitespace rest else (Some c, rest)
  end.

(** What is left to read after [stream.seek(-1, 1)] at the end of
    [data]: its last byte. *)
Definition back_from_end (data : bytes) : bytes :=
  match last data with
  | Some c => [c]
  | None => []
  end.

(** [tok = readNonWhitespace(stream); stream.seek(-1, 1)] *)
Definition peekNonWhitespace (data stream : bytes) : option ascii * bytes :=
  match readNonWhitespace stream with
  | (Some c, rest) => (Some c, c :: rest)
  | (None, _) => (None, back_from_end data)
  end.

(** ** page_object.py: the content stream *)

Module ContentStreamOps.
Section Tokenizer.
Context `{ObjectLayer}.

(** The inner loop that gathers an operator: bytes up to, and not
    including, the next space or delimiter, or up to the end. *)
Fixpoint read_operator (stream : bytes) : bytes * bytes :=
  match stream with
  | [] => ([], [])
  | tok :: rest =>
      if isspace tok || bool_decide (tok ∈ delimiterCharacters)
      then ([], stream)
      else let '(operator, rest') := read_operator rest in
           (tok :: operator, rest')
  end.

(** [while peek not in ('\r', '\n'): peek = stream.read(1)]; at the
    end of the stream [read] keeps returning the empty string and
    the loop does not end. *)
Fixpoint skip_comment (stream : bytes) : result bytes :=
  match stream with
  | [] => OutOfFuel
  | c :: rest =>
      if bool_decide (c = CR) || bool_decide (c = LF) then Ok rest
      else skip_comment rest
  end.

(** [settings[key] = value]: the dictionaries of this model are
    keyed by the text of a name. *)
Definition settings_key (key : PdfObject) : result string :=
  match key with
  | NameObject name => Ok name
  | _ => Raise TypeError
  end.

(** The first loop of [_readInlineImage]: the settings up to [ID]. *)
Fixpoint read_settings (fuel : nat) (data stream : bytes)
    (settings : gmap string PdfObject)
  : result (gmap string PdfObject * bytes) :=
  match fuel with
  | O => OutOfFuel
  | S fuel' =>
      let '(tok, stream) := peekNonWhitespace data stream in
      if bool_decide (tok = Some "I"%char) then Ok (settings, stream)
      else
        '(key, stream) ← readObject stream;
        let '(_, stream) := peekNonWhitespace data stream in
        '(value, stream) ← readObject stream;
        name ← settings_key key;
        read_settings fuel' data stream (<[name := value]> settings)
  end.

(** The second loop: the image bytes up to the first [EI].  At the
    end of the stream the loop does not end. *)
Fixpoint read_image_data (stream : bytes) : result (bytes * bytes) :=
  match stream with
  | [] => OutOfFuel
  | tok :: rest =>
      if bool_decide (tok = "E"%char) then
        match rest with
        | [] => OutOfFuel
        | next :: rest' =>
            if bool_decide (next = "I"%char) then Ok ([], rest')
            else '(data, rest'') ← read_image_data rest;
                 Ok (tok :: data, rest'')
        end
      else '(data, rest'') ← read_image_data rest;
           Ok (tok :: data, rest'')
  end.

Definition _readInlineImage (fuel : nat) (data stream : bytes)
  : result (Operation PdfObject * bytes) :=
  '(settings, stream) ← read_settings fuel data stream ∅;
  let tmp := take 3 stream in
  let stream := drop 3 stream in
  if negb (bool_decide (take 2 tmp = b_ "ID")) then Raise AssertionError
  else
    '(image, stream) ← read_image_data stream;
    let '(_, stream) := peekNonWhitespace data stream in
    Ok (InlineImage (DictionaryObject settings) image, stream).

(** [__parseContentStream]: the operations read from [stream] on,
    with the operands gathered so far.  Operands left over at the
    end of the stream are dropped. *)
Fixpoint parseContentStream (fuel : nat) (data stream : bytes)
    (operands : list PdfObject) : result (list (Operation PdfObject)) :=
  match fuel with
  | O => OutOfFuel
  | S fuel' =>
      match readNonWhitespace stream with
      | (None, _) => Ok []
      | (Some peek, rest) =>
          let stream := peek :: rest in
          if isalpha peek || bool_decide (peek = "'"%char)
             || bool_decide (peek = DQUOTE) then
            let '(operator, stream) := read_operator stream in
            if bool_decide (operator = b_ "BI") then
              if negb (bool_decide (operands = [])) then Raise AssertionError
              else
                '(ii, stream) ← _readInlineImage fuel' data stream;
                operations ← parseContentStream fuel' data stream operands;
                Ok (ii :: operations)
            else
              operations ← parseContentStream fuel' data stream [];
              Ok (Op operands operator :: operations)
          else if bool_decide (peek = "%"%char) then
            stream ← skip_comment stream;
            parseContentStream fuel' data stream operands
          else
            '(obj, stream) ← readObject stream;
            parseContentStream fuel' data stream (operands ++ [obj])
      end
  end.

(** [dicttext.getvalue()[2:-2]] *)
Definition slice_2_minus2 (text : bytes) : bytes :=
  take (length text - 2 - 2) (drop 2 text).

(** The bytes [_getData] writes for one operation. *)
Definition write_operation (operation : Operation PdfObject) : bytes :=
  match operation with
  | InlineImage settings image =>
      b_ "BI" ++ slice_2_minus2 (writeToStream settings None)
         ++ b_ "ID " ++ image ++ b_ "EI" ++ [LF]
  | Op operands operator =>
      concat (map (fun op => writeToStream op None ++ [SP]) operands)
        ++ operator ++ [LF]
  end.

(** [ContentStream._getData] *)
Definition _getData (operations : list (Operation PdfObject)) : bytes :=
  concat (map write_operation operations).

(** [obj.getData()]: the decoded data of a stream; a content stream
    answers with [_getData]. *)
Definition getData (obj : PdfObject) : result bytes :=
  match obj with
  | StreamObject _ _data => Ok _data
  | ContentStream operations => Ok (_getData operations)
  | _ => Raise AttributeError
  end.

(** [data = ""; for s in stream: data += s.getObject().getData()] *)
Fixpoint cat_streams (items : list PdfObject) : result bytes :=
  match items with
  | [] => Ok []
  | s :: items' =>
      o ← getObject s;
      d ← getData o;
      rest ← cat_streams items';
      Ok (d ++ rest)
  end.

(** [ContentStream.__init__(self, stream, pdf)]: the operations of
    the new content stream. *)
Definition __init__ (fuel : nat) (stream : PdfObject)
  : result (list (Operation PdfObject)) :=
  stream ← getObject stream;
  data ← match stream with
         | ArrayObject items => cat_streams items
         | _ => getData stream
         end;
  parseContentStream fuel data data [].

(** *** What the tokenizer reads back

    The bytes of an operand as they stand in a content stream: they
    begin with a byte that is no whitespace and starts neither an
    operator nor a comment. *)
Definition starts_operand (text : bytes) : Prop :=
  exists c tail,
    text = c :: tail
    /\ is_whitespace c = false
    /\ isalpha c = false
    /\ c <> "'"%char /\ c <> DQUOTE /\ c <> "%"%char.

(** [reads_back op op']: written and followed by a space, the operand
    [op] is read by the object parser as [op'], up to that space, and
    [op'] is written as [op] was. *)
Definition reads_back (op op' : PdfObject) : Prop :=
  starts_operand (writeToStream op None)
  /\ writeToStream op' None = writeToStream op None
  /\ forall rest,
       readObject (writeToStream op None ++ SP :: rest) = Ok (op', SP :: rest).

(** An operator as the tokenizer gathers one: a letter or a quote, then
    bytes that are neither space nor delimiter; [BI] opens an inline
    image instead. *)
Definition plain_operator (operator : bytes) : Prop :=
  (exists c tail,
      operator = c :: tail
      /\ (isalpha c || bool_decide (c = "'"%char) || bool_decide (c = DQUOTE)) = true)
  /\ Forall (fun tok => isspace tok = false /\ tok ∉ delimiterCharacters) operator
  /\ operator <> b_ "BI".

(** [operation_reads_back operation operation']: written out, the
    operation is read by the tokenizer as [operation']: operand by
    operand, and the operator without the whitespace it may begin
    with.  An inline image is left out. *)
Definition operation_reads_back (operation operation' : Operation PdfObject) : Prop :=
  match operation, operation' with
  | Op operands operator, Op operands' operator' =>
      Forall2 reads_back operands operands'
      /\ exists blank,
           operator = blank ++ operator'
           /\ Forall (fun c => is_whitespace c = true) blank
           /\ plain_operator operator'
  | _, _ => False
  end.

(** An operation that is read back as itself. *)
Definition plain_operation (operation : Operation PdfObject) : Prop :=
  operation_reads_back operation operation.

(** The turns of the tokenizer's loop that a list of plain operations
    takes: one for each operand and one for each operator. *)
Definition turns (operations : list (Operation PdfObject)) : nat :=
  foldr (fun operation n =>
           match operation with
           | Op operands _ => (length operands + 1 + n)%nat
           | InlineImage _ _ => S n
           end) 0%nat operations.

End Tokenizer.
End ContentStreamOps.

(** ** rectangle.py *)

Module Rectangle.
Section Accessors.
Context `{ObjectLayer}.

Definition is_RectangleObject (obj : PdfObject) : bool :=
  match obj with RectangleObject _ _ _ _ => true | _ => false end.

(** The [for d in defaults] loop: the first fallback box present. *)
Fixpoint first_default (self : gmap string PdfObject) (defaults : list string)
  : option PdfObject :=
  match defaults with
  | [] => None
  | d :: defaults' =>
      match self !! d with
      | Some retval => Some retval
      | None => first_default self defaults'
      end
  end.

(** [getRectangle(self, name, defaults)]: the rectangle, and the page
    after [setRectangle] has stored it under [name]. *)
Definition getRectangle (self : gmap string PdfObject) (name : string)
    (defaults : list string) : result (PdfObject * gmap string PdfObject) :=
  match self !! name with
  | Some (RectangleObject a b c d) => Ok (RectangleObject a b c d, self)
  | found =>
      let retval := match found with
                    | Some retval => Some retval
                    | None => first_default self defaults
                    end in
      retval ← match retval with
               | Some (IndirectObject idnum generation) =>
                   resolve idnum generation
               | Some retval => Ok retval
               | None => Ok NullObject
               end;
      retval ← RectangleObject_ retval;
      Ok (retval, <[name := retval]> self)
  end.

(** The property [mediaBox] of a page, read and assigned. *)
Definition mediaBox (self : gmap string PdfObject) :=
  getRectangle self "/MediaBox" [].

Definition set_mediaBox (self : gmap string PdfObject) (value : PdfObject) :=
  <["/MediaBox" := value]> self.

(** [getLowerLeft_x], [getLowerLeft_y], [getUpperRight_x],
    [getUpperRight_y]: the elements 0 to 3 of the rectangle. *)
Definition getLowerLeft_x (r : PdfObject) : result PdfObject :=
  match r with RectangleObject a _ _ _ => Ok a | _ => Raise AttributeError end.
Definition getLowerLeft_y (r : PdfObject) : result PdfObject :=
  match r with RectangleObject _ b _ _ => Ok b | _ => Raise AttributeError end.
Definition getUpperRight_x (r : PdfObject) : result PdfObject :=
  match r with RectangleObject _ _ c _ => Ok c | _ => Raise AttributeError end.
Definition getUpperRight_y (r : PdfObject) : result PdfObject :=
  match r with RectangleObject _ _ _ d => Ok d | _ => Raise AttributeError end.

End Accessors.
End Rectangle.

(** ** page_object.py: the page *)

Module PageObject.
Import ContentStreamOps.

Section Page.
Context `{ObjectLayer} `{Numbers}.

(** A page is a dictionary. *)
Abbreviation page := (gmap string PdfObject).

(** One turn of the loop of [_mergeResources] over the keys of the
    second page's category. *)
Definition merge_key (page2Res : gmap string PdfObject)
    (acc : gmap string PdfObject * gmap string PdfObject) (key : string)
  : result (gmap string PdfObject * gmap string PdfObject) :=
  let '(newRes, renameRes) := acc in
  match newRes !! key with
  | Some raw =>
      mine ← getObject raw;
      theirs ← dict_getitem page2Res key;
      if obj_ne mine theirs then
        let newname := (key +:+ "renamed")%string in
        value ← dict_getitem page2Res key;
        Ok (<[newname := value]> newRes,
            <[key := NameObject newname]> renameRes)
      else Ok (newRes, renameRes)
  | None =>
      raw ← getitem page2Res key;
      Ok (<[key := raw]> newRes, renameRes)
  end.

Fixpoint merge_keys (page2Res : gmap string PdfObject) (keys : list string)
    (acc : gmap string PdfObject * gmap string PdfObject)
  : result (gmap string PdfObject * gmap string PdfObject) :=
  match keys with
  | [] => Ok acc
  | key :: keys' =>
      acc ← merge_key page2Res acc key;
      merge_keys page2Res keys' acc
  end.

(** [res.get(resource, DictionaryObject()).getObject()] *)
Definition category (res : gmap string PdfObject) (resource : string)
  : result (gmap string PdfObject) :=
  obj ← getObject (default (DictionaryObject ∅) (res !! resource));
  as_dict obj.

(** [_mergeResources(res1, res2, resource)]: the merged category and
    the renamings. *)
Definition _mergeResources (res1 res2 : gmap string PdfObject)
    (resource : string)
  : result (gmap string PdfObject * gmap string PdfObject) :=
  newRes ← category res1 resource;
  page2Res ← category res2 resource;
  merge_keys page2Res (dict_keys page2Res) (newRes, ∅).

(** [rename.get(op, op)] on the operands that are names. *)
Definition rename_operand (rename : gmap string PdfObject) (op : PdfObject)
  : PdfObject :=
  match op with
  | NameObject name => default op (rename !! name)
  | _ => op
  end.

(** The loop of [_contentStreamRename] on one operation; for an
    inline image [operands] is the Python dictionary of settings
    and data, and [operands[0]] is no key of it. *)
Definition rename_operation (rename : gmap string PdfObject)
    (operation : Operation PdfObject) : result (Operation PdfObject) :=
  match operation with
  | Op operands operator => Ok (Op (map (rename_operand rename) operands) operator)
  | InlineImage _ _ => Raise (KeyError "0")
  end.

Fixpoint rename_operations (rename : gmap string PdfObject)
    (operations : list (Operation PdfObject))
  : result (list (Operation PdfObject)) :=
  match operations with
  | [] => Ok []
  | operation :: operations' =>
      operation ← rename_operation rename operation;
      operations' ← rename_operations rename operations';
      Ok (operation :: operations')
  end.


Definition _contentStreamRename (fuel : nat) (stream : PdfObject)
    (rename : gmap string PdfObject) : result PdfObject :=
  if bool_decide (rename = ∅) then Ok stream
  else
    operations ← __init__ fuel stream;
    operations ← rename_operations rename operations;
    Ok (ContentStream operations).

Definition _pushPopGS (fuel : nat) (contents : PdfObject) : result PdfObject :=
  operations ← __init__ fuel contents;
  Ok (ContentStream (Op [] (b_ "q") :: operations ++ [Op [] (b_ "Q")])).

(** The operator is written [" cm"], with a space, in the source. *)
Definition _addTransformationMatrix (fuel : nat) (contents : PdfObject)
    (ctm : list number) : result PdfObject :=
  match ctm with
  | [a; b; c; d; e; f] =>
      operations ← __init__ fuel contents;
      Ok (ContentStream
            (Op [FloatObject_ a; FloatObject_ b; FloatObject_ c;
                 FloatObject_ d; FloatObject_ e; FloatObject_ f]
                (b_ " cm") :: operations))
  | _ => Raise ValueError
  end.

Definition getContents (self : page) : result (option PdfObject) :=
  match self !! "/Contents" with
  | Some raw => contents ← getObject raw; Ok (Some contents)
  | None => Ok None
  end.

Definition resource_names : list string :=
  ["/ExtGState"; "/Font"; "/XObject"; "/ColorSpace"; "/Pattern";
   "/Shading"; "/Properties"]%string.

(** The loop of [_mergePage] over the resource categories. *)
Fixpoint merge_categories (originalResources page2Resources : gmap string PdfObject)
    (names : list string)
    (acc : gmap string PdfObject * gmap string PdfObject)
  : result (gmap string PdfObject * gmap string PdfObject) :=
  match names with
  | [] => Ok acc
  | res :: names' =>
      let '(newResources, rename) := acc in
      '(new, newrename) ← _mergeResources originalResources page2Resources res;
      let acc := if bool_decide (new = ∅) then (newResources, rename)
                 else (<[res := DictionaryObject new]> newResources,
                       newrename ∪ rename) in
      merge_categories originalResources page2Resources names' acc
  end.

(** [res.get("/ProcSet", ArrayObject()).getObject()] *)
Definition ProcSet (res : gmap string PdfObject) : result PdfObject :=
  getObject (default (ArrayObject []) (res !! "/ProcSet")).

(** The first part of [_mergePage]: the merged resources, [/ProcSet]
    included, and the renamings. *)
Definition merged_resources (self page2 : page)
  : result (gmap string PdfObject * gmap string PdfObject) :=
  originalResources ← dict_getitem self "/Resources";
  originalResources ← as_dict originalResources;
  page2Resources ← dict_getitem page2 "/Resources";
  page2Resources ← as_dict page2Resources;
  '(newResources, rename) ←
    merge_categories originalResources page2Resources resource_names (∅, ∅);
  procset1 ← ProcSet originalResources;
  procset2 ← ProcSet page2Resources;
  procset ← ProcSet_union procset1 procset2;
  Ok (<["/ProcSet" := procset]> newResources, rename).

(** [_mergePage(self, page2, page2transformation)], with [expand]
    false as in every call below: the page afterwards. *)
Definition _mergePage (fuel : nat) (self page2 : page)
    (page2transformation : option (PdfObject -> result PdfObject))
  : result page :=
  '(newResources, rename) ← merged_resources self page2;
  originalContent ← getContents self;
  newContentArray ← match originalContent with
                    | Some originalContent =>
                        c ← _pushPopGS fuel originalContent; Ok [c]
                    | None => Ok []
                    end;
  page2Content ← getContents page2;
  newContentArray ← match page2Content with
                    | Some page2Content =>
                        page2Content ← match page2transformation with
                                       | Some transform => transform page2Content
                                       | None => Ok page2Content
                                       end;
                        page2Content ← _contentStreamRename fuel page2Content rename;
                        page2Content ← _pushPopGS fuel page2Content;
                        Ok (newContentArray ++ [page2Content])
                    | None => Ok newContentArray
                    end;
  operations ← __init__ fuel (ArrayObject newContentArray);
  Ok (<["/Resources" := DictionaryObject newResources]>
        (<["/Contents" := ContentStream operations]> self)).


Definition mergeTransformedPage (fuel : nat) (self page2 : page)
    (ctm : list number) : result page :=
  _mergePage fuel self page2
    (Some (fun page2Content => _addTransformationMatrix fuel page2Content ctm)).

Definition mergeScaledPage (fuel : nat) (self page2 : page) (factor : number)
  : result page :=
  mergeTransformedPage fuel self page2
    [factor; of_Z 0; of_Z 0; factor; of_Z 0; of_Z 0].

(** [addTransformation(self, ctm)] *)
Definition addTransformation (fuel : nat) (self : page) (ctm : list number)
  : result page :=
  originalContent ← getContents self;
  match originalContent with
  | Some originalContent =>
      newContent ← _addTransformationMatrix fuel originalContent ctm;
      newContent ← _pushPopGS fuel newContent;
      Ok (<["/Contents" := newContent]> self)
  | None => Ok self
  end.

(** [float(self.mediaBox.getX()) * s], the page box being read, and
    stored on first reading, on the way. *)
Definition scaled_corner (self : page)
    (getX : PdfObject -> result PdfObject) (s : number)
  : result (number * page) :=
  '(box, self) ← Rectangle.mediaBox self;
  x ← getX box;
  x ← float_ x;
  x ← mul x s;
  Ok (x, self).

(** [scale(self, sx, sy)] *)
Definition scale (fuel : nat) (self : page) (sx sy : number) : result page :=
  self ← addTransformation fuel self [sx; of_Z 0; of_Z 0; sy; of_Z 0; of_Z 0];
  '(x0, self) ← scaled_corner self Rectangle.getLowerLeft_x sx;
  '(y0, self) ← scaled_corner self Rectangle.getLowerLeft_y sy;
  '(x1, self) ← scaled_corner self Rectangle.getUpperRight_x sx;
  '(y1, self) ← scaled_corner self Rectangle.getUpperRight_y sy;
  box ← RectangleObject_ (ArrayObject [FloatObject_ x0; FloatObject_ y0;
                                        FloatObject_ x1; FloatObject_ y1]);
  Ok (Rectangle.set_mediaBox self box).

(** [a - b] for two corners read from [self.mediaBox]. *)
Definition corner_difference (self : page)
    (getA getB : PdfObject -> result PdfObject) : result (number * page) :=
  '(box, self) ← Rectangle.mediaBox self;
  a ← getA box;
  '(box, self) ← Rectangle.mediaBox self;
  b ← getB box;
  a ← number_of a;
  b ← number_of b;
  d ← sub a b;
  Ok (d, self).

(** [scaleTo(self, width, height)] *)
Definition scaleTo (fuel : nat) (self : page) (width height : number)
  : result page :=
  '(dx, self) ← corner_difference self Rectangle.getUpperRight_x
                                       Rectangle.getLowerLeft_x;
  sx ← div width dx;
  '(dy, self) ← corner_difference self Rectangle.getUpperRight_y
                                       Rectangle.getLowerLeft_x;
  sy ← div height dy;
  scale fuel self sx sy.

(** What is read back from the page: the data of its [/Contents]. *)
Definition contents_data (self : page) : result bytes :=
  contents ← dict_getitem self "/Contents";
  getData contents.

End Page.
End PageObject.

(** ** Decimal text of integers *)

Definition digit (n : Z) : ascii := ascii_of_N (Z.to_N (48 + n)).

Fixpoint digits (fuel : nat) (n : Z) : bytes :=
  match fuel with
  | O => []
  | S fuel' =>
      if n <? 10 then [digit n]
      else digits fuel' (n / 10) ++ [digit (n mod 10)]
  end.

(** [str(n)] of an integer. *)
Definition str_int (n : Z) : bytes :=
  if n <? 0 then "-"%char :: digits (S (Z.to_nat (Z.log2 (- n)))) (- n)
  else digits (S (Z.to_nat (Z.log2 n))) n.

(** ["%0<width>d" % n] for [n] not negative: zeros on the left up to
    the width, never a digit dropped. *)
Definition zero_padded (width : nat) (n : Z) : bytes :=
  let text := str_int n in
  replicate (width - length text) "0"%char ++ text.

(** The number of places at which [pattern] occurs in [text]. *)
Fixpoint occurrences (pattern text : bytes) : nat :=
  match text with
  | [] => if bool_decide (pattern = []) then 1%nat else 0%nat
  | _ :: text' =>
      ((if bool_decide (take (length pattern) text = pattern) then 1 else 0)
       + occurrences pattern text')%nat
  end.

(** Python list operations with an integer index. *)
Definition list_insert_at {A} (l : list A) (index : Z) (x : A) : list A :=
  let n := Z.of_nat (length l) in
  let i := if index <? 0 then Z.max 0 (index + n) else Z.min index n in
  take (Z.to_nat i) l ++ x :: drop (Z.to_nat i) l.

Definition list_index {A} (l : list A) (index : Z) : result A :=
  let n := Z.of_nat (length l) in
  let i := if index <? 0 then index + n else index in
  if (i <? 0) || (n <=? i) then Raise IndexError
  else match l !! Z.to_nat i with
       | Some x => Ok x
       | None => Raise IndexError
       end.

(** ** writer.py *)

Module Writer.

(** The attributes of a [PdfFileWriter]: the owned objects, where
    [None] is the placeholder of the sweep; [_ID], [_encrypt] (the id
    of the encryption dictionary) and [_encrypt_key], present once
    [encrypt] was called.  [_pages], [_info] and [_root] are the
    references to the objects 1, 2 and 3 made by [__init__]. *)
Record PdfFileWriter : Type := {
  _objects : list (option PdfObject);
  _ID : option PdfObject;
  _encrypt : option Z;
  _encrypt_key : bytes
}.

Definition _pages : PdfObject := IndirectObject 1 0.
Definition _info : PdfObject := IndirectObject 2 0.
Definition _root : PdfObject := IndirectObject 3 0.

Definition with_objects (self : PdfFileWriter) (objects : list (option PdfObject)) :=
  {| _objects := objects; _ID := _ID self; _encrypt := _encrypt self;
     _encrypt_key := _encrypt_key self |}.

Section WriterOps.
Context `{Primitives} `{ObjectLayer} `{Numbers}.

Definition __init__ : PdfFileWriter :=
  let pages := DictionaryObject
    (<["/Type" := NameObject "/Pages"]>
       (<["/Count" := NumberObject 0]> (<["/Kids" := ArrayObject []]> ∅))) in
  let info := DictionaryObject
    (<["/Producer" :=
         createStringObject (b_ "Python PDF Library - http://pybrary.net/pyPdf/")]> ∅) in
  let root := DictionaryObject
    (<["/Type" := NameObject "/Catalog"]> (<["/Pages" := _pages]> ∅)) in
  {| _objects := [Some pages; Some info; Some root];
     _ID := None; _encrypt := None; _encrypt_key := [] |}.

(** [_addObject]: the writer afterwards and the new reference. *)
Definition _addObject (self : PdfFileWriter) (obj : PdfObject)
  : PdfFileWriter * PdfObject :=
  let objects := _objects self ++ [Some obj] in
  (with_objects self objects, IndirectObject (Z.of_nat (length objects)) 0).

(** [getObject(self, ido)]: [self._objects[ido.idnum - 1]] *)
Definition getObject (self : PdfFileWriter) (ido : PdfObject)
  : result (option PdfObject) :=
  match ido with
  | IndirectObject idnum _ => list_index (_objects self) (idnum - 1)
  | _ => Raise AttributeError
  end.

(** The pages root, as [self.getObject(self._pages)] gives it. *)
Definition pages_root (self : PdfFileWriter) : result (gmap string PdfObject) :=
  pages ← getObject self _pages;
  match pages with
  | Some pages => as_dict pages
  | None => Raise TypeError
  end.

Definition as_array (obj : PdfObject) : result (list PdfObject) :=
  match obj with
  | ArrayObject items => Ok items
  | _ => Raise AttributeError
  end.

Definition as_int (obj : PdfObject) : result Z :=
  match obj with
  | NumberObject z => Ok z
  | _ => Raise TypeError
  end.

(** [_addPage(self, page, action)].  The root is changed in place:
    [action] on the list under [/Kids], then [/Count]. *)
Definition _addPage (self : PdfFileWriter) (page : gmap string PdfObject)
    (action : list PdfObject -> PdfObject -> list PdfObject)
  : result PdfFileWriter :=
  ty ← dict_getitem page "/Type";
  if negb (eq_str ty "/Page") then Raise AssertionError
  else
    let page := <["/Parent" := _pages]> page in
    let '(self, page) := _addObject self (DictionaryObject page) in
    pages ← pages_root self;
    kids ← getitem pages "/Kids";
    kids ← as_array kids;
    let pages := <["/Kids" := ArrayObject (action kids page)]> pages in
    count ← dict_getitem pages "/Count";
    count ← as_int count;
    let pages := <["/Count" := NumberObject (count + 1)]> pages in
    Ok (with_objects self (<[0%nat := Some (DictionaryObject pages)]> (_objects self))).

Definition addPage (self : PdfFileWriter) (page : gmap string PdfObject) :=
  _addPage self page (fun l p => l ++ [p]).

Definition insertPage (self : PdfFileWriter) (page : gmap string PdfObject)
    (index : Z) :=
  _addPage self page (fun l p => list_insert_at l index p).

(** [getNumPages]: [int(pages["/Count"])] *)
Definition getNumPages (self : PdfFileWriter) : result Z :=
  pages ← pages_root self;
  count ← dict_getitem pages "/Count";
  as_int count.

(** [getPage(pageNumber)], with the id the page is owned under. *)
Definition getPage (self : PdfFileWriter) (pageNumber : Z)
  : result (Z * gmap string PdfObject) :=
  pages ← pages_root self;
  kids ← dict_getitem pages "/Kids";
  kids ← as_array kids;
  kid ← list_index kids pageNumber;
  page ← getObject self kid;
  match kid, page with
  | IndirectObject idnum _, Some page => page ← as_dict page; Ok (idnum, page)
  | _, _ => Raise AttributeError
  end.

(** [page.mediaBox.getWidth()] and [page.mediaBox.getHeight()] of
    the page numbered [pageNumber]; each reading of [mediaBox] may
    store the rectangle on the page, which the writer owns. *)
Definition page_size (self : PdfFileWriter) (pageNumber : Z)
  : result (number * number * PdfFileWriter) :=
  '(idnum, page) ← getPage self pageNumber;
  '(box, page) ← Rectangle.mediaBox page;
  width ← getWidth box;
  '(box, page) ← Rectangle.mediaBox page;
  height ← getHeight box;
  Ok (width, height,
      with_objects self
        (<[Z.to_nat (idnum - 1) := Some (DictionaryObject page)]> (_objects self))).

(** [PageObject.createBlankPage(pdf, width, height)] with the writer
    as [pdf]. *)
Definition createBlankPage (self : PdfFileWriter) (width height : option number)
  : result (gmap string PdfObject * PdfFileWriter) :=
  let page : gmap string PdfObject :=
    <["/Resources" := DictionaryObject ∅]>
      (<["/Parent" := NullObject]> (<["/Type" := NameObject "/Page"]> ∅)) in
  '(width, height, self) ←
    match width, height with
    | Some width, Some height => Ok (width, height, self)
    | _, _ =>
        n ← getNumPages self;
        if 0 <? n then page_size self (n - 1)
        else Raise PageSizeNotDefinedError
    end;
  box ← RectangleObject_ (ArrayObject [NumberObject 0; NumberObject 0;
                                        FloatObject_ width; FloatObject_ height]);
  Ok (<["/MediaBox" := box]> page, self).

Definition addBlankPage (self : PdfFileWriter) (width height : option number)
  : result PdfFileWriter :=
  '(page, self) ← createBlankPage self width height;
  addPage self page.

(** [insertBlankPage]: [width is None or height is None and
    (self.getNumPages() - 1) >= index] groups as [or (and)]. *)
Definition insertBlankPage (self : PdfFileWriter) (width height : option number)
    (index : Z) : result PdfFileWriter :=
  use_old ← match width with
            | None => Ok true
            | Some _ =>
                match height with
                | None => n ← getNumPages self; Ok (index <=? n - 1)
                | Some _ => Ok false
                end
            end;
  '(width, height, self) ←
    (if use_old : bool then
       '(w, h, self) ← page_size self index; Ok (Some w, Some h, self)
     else Ok (width, height, self));
  '(page, self) ← createBlankPage self width height;
  insertPage self page index.

(** A call of one of the four methods that add a page, and a sequence of
    calls, which ends at the first exception. *)
Inductive Call : Type :=
| AddPage (page : gmap string PdfObject)
| InsertPage (page : gmap string PdfObject) (index : Z)
| AddBlankPage (width height : option number)
| InsertBlankPage (width height : option number) (index : Z).

Definition call (self : PdfFileWriter) (c : Call) : result PdfFileWriter :=
  match c with
  | AddPage page => addPage self page
  | InsertPage page index => insertPage self page index
  | AddBlankPage width height => addBlankPage self width height
  | InsertBlankPage width height index => insertBlankPage self width height index
  end.

Fixpoint calls (self : PdfFileWriter) (cs : list Call) : result PdfFileWriter :=
  match cs with
  | [] => Ok self
  | c :: cs' => self ← call self c; calls self cs'
  end.

(** The state of the page tree: the pages root is the first owned
    object, [kids] is its [/Kids] array and its [/Count] is their
    number; every kid is a reference to an owned object other than the
    root. *)
Definition page_tree (self : PdfFileWriter) (kids : list PdfObject) : Prop :=
  exists (root : gmap string PdfObject) (others : list (option PdfObject)),
    _objects self = Some (DictionaryObject root) :: others
    /\ root !! "/Kids" = Some (ArrayObject kids)
    /\ root !! "/Count" = Some (NumberObject (Z.of_nat (length kids)))
    /\ Forall (fun kid => exists idnum,
                   kid = IndirectObject idnum 0
                   /\ 1 < idnum <= Z.of_nat (length (_objects self))) kids.

(** *** write: the emission *)

(** The key handed to [writeToStream] for the object at index [i]:
    none when the writer is not encrypting or the object is the
    encryption dictionary. *)
Definition object_key (self : PdfFileWriter) (i : nat) : result (option bytes) :=
  let idnum := Z.of_nat i + 1 in
  match _encrypt self with
  | Some encrypt_idnum =>
      if negb (idnum =? encrypt_idnum) then
        p1 ← pack_i (Z.of_nat i + 1);
        let pack1 := take 3 p1 in
        p2 ← pack_i 0;
        let pack2 := take 2 p2 in
        let key := _encrypt_key self ++ pack1 ++ pack2 in
        if negb (length key =? length (_encrypt_key self) + 5)%nat then
          Raise AssertionError
        else
          let md5_hash := md5 key in
          Ok (Some (take (Nat.min 16 (length (_encrypt_key self) + 5)) md5_hash))
      else Ok None
  | None => Ok None
  end.

(** The bytes written for the object at index [i]: the header line,
    then, unless the entry is a placeholder, the object and
    [endobj]. *)
Definition object_bytes (i : nat) (obj : option PdfObject) (key : option bytes)
  : bytes :=
  str_int (Z.of_nat i + 1) ++ b_ " 0 obj" ++ [LF]
    ++ match obj with
       | Some obj => writeToStream obj key ++ [LF] ++ b_ "endobj" ++ [LF]
       | None => []
       end.

(** The loop [for i in range(len(self._objects))], from index [i]
    on: the stream and [object_positions] afterwards. *)
Fixpoint write_objects (self : PdfFileWriter) (objects : list (option PdfObject))
    (i : nat) (stream : bytes) (object_positions : list Z)
  : result (bytes * list Z) :=
  match objects with
  | [] => Ok (stream, object_positions)
  | obj :: objects' =>
      let object_positions := object_positions ++ [Z.of_nat (length stream)] in
      key ← object_key self i;
      let stream := stream ++ object_bytes i obj key in
      write_objects self objects' (S i) stream object_positions
  end.

(** ["%010d %05d n \n" % (offset, 0)] and the free entry. *)
Definition xref_entry (offset generation : Z) (flag : ascii) : bytes :=
  zero_padded 10 offset ++ [SP] ++ zero_padded 5 generation
    ++ [SP; flag; SP; LF].

Definition xref_table (n : nat) (object_positions : list Z) : bytes :=
  b_ "xref" ++ [LF]
    ++ b_ "0 " ++ str_int (Z.of_nat n + 1) ++ [LF]
    ++ xref_entry 0 65535 "f"%char
    ++ concat (map (fun offset => xref_entry offset 0 "n"%char) object_positions).

Definition trailer_dict (self : PdfFileWriter) : PdfObject :=
  let trailer : gmap string PdfObject :=
    <["/Info" := _info]>
      (<["/Root" := _root]>
         (<["/Size" := NumberObject (Z.of_nat (length (_objects self)) + 1)]> ∅)) in
  let trailer := match _ID self with
                 | Some id => <["/ID" := id]> trailer
                 | None => trailer
                 end in
  let trailer := match _encrypt self with
                 | Some idnum => <["/Encrypt" := IndirectObject idnum 0]> trailer
                 | None => trailer
                 end in
  DictionaryObject trailer.

(** [write(self, stream)] from ["# Begin writing"] on, the sweep of
    the indirect references having left [self._objects] as they are
    here; [stream] is what the stream holds before, and the results
    are what it holds afterwards, [object_positions] and
    [xref_location]. *)
Definition write (self : PdfFileWriter) (stream : bytes)
  : result (bytes * list Z * Z) :=
  let stream := stream ++ b_ "%PDF-1.3" ++ [LF] in
  '(stream, object_positions) ← write_objects self (_objects self) 0 stream [];
  let xref_location := Z.of_nat (length stream) in
  let stream := stream ++ xref_table (length (_objects self)) object_positions in
  let stream := stream ++ b_ "trailer" ++ [LF] in
  let stream := stream ++ writeToStream (trailer_dict self) None in
  let stream := stream ++ [LF] ++ b_ "startxref" ++ [LF]
                  ++ str_int xref_location ++ [LF] ++ b_ "%%EOF" ++ [LF] in
  Ok (stream, object_positions, xref_location).

End WriterOps.
End Writer.

(** ** A concrete object layer for the examples

    Modelled from the spec: an instance of the object layer of
    [generic.py] and [utils.py], which are not among the sources:
    serialization as in spec 4.A (a real number is written as the
    literal it holds), the delimiters of spec 4.A with the solidus, and
    of the object parser of spec 4.C the two cases the examples need,
    names and numbers.  The digest, the cipher and the key algorithms
    are small stand-ins that compute, not the real ones. *)
Module Generic.

Definition delimiters : bytes := b_ "()<>[]{}/%".

Definition sum_bytes (l : bytes) : N :=
  foldr (fun c acc => (N_of_ascii c + acc)%N) 0%N l.

(** A stand-in for RC4: every byte is xored with a mask drawn from the
    key and the position, so that applying it twice gives the data
    back. *)
Definition key_byte (key : bytes) (j : nat) : N :=
  N_of_ascii (nth (j mod length key) key "000"%char).

Definition xor_cipher (key data : bytes) : bytes :=
  imap (fun j c =>
          let a := key_byte key j in
          let b := key_byte key (S j) in
          ascii_of_N (N.lxor (N_of_ascii c) ((a * a + 3 * b + 1) mod 256)%N))
       data.

(** A stand-in for MD5: sixteen bytes drawn from the input. *)
Definition fold_digest (data : bytes) : bytes :=
  let s := sum_bytes data in
  map (fun i => ascii_of_N ((s * (2 * N.of_nat i + 1) + N.of_nat (length data)) mod 256)%N)
      (seq 0 16).

#[global] Instance primitives : Primitives := {|
  md5 := fold_digest;
  RC4_encrypt := xor_cipher;
  _alg33_1 := fun password rev keylen => take (Z.to_nat keylen) (fold_digest password);
  _alg34 := fun password owner_entry p_entry id1_entry =>
              (xor_cipher password id1_entry, take 5 (fold_digest password));
  _alg35 := fun password rev keylen owner_entry p_entry id1_entry metadata =>
              (xor_cipher password (id1_entry ++ owner_entry),
               take (Z.to_nat keylen) (fold_digest password));
  createStringObject := ByteStringObject
|}.

Definition hex_digit (n : N) : ascii :=
  if (n <? 10)%N then ascii_of_N (48 + n) else ascii_of_N (87 + n).

Definition hex_of (data : bytes) : bytes :=
  flat_map (fun c => let n := N_of_ascii c in
                     [hex_digit (n / 16); hex_digit (n mod 16)]) data.

Definition printable (c : ascii) : bool :=
  let n := nat_of_ascii c in (32 <=? n)%nat && (n <=? 126)%nat.

Definition escape (c : ascii) : bytes :=
  if bool_decide (c = "\"%char) || bool_decide (c = "("%char)
     || bool_decide (c = ")"%char)
  then ["\"%char; c] else [c].

Definition write_string (key : option bytes) (raw : bytes) : bytes :=
  let raw := match key with
             | Some key => xor_cipher key raw
             | None => raw
             end in
  if forallb printable raw then b_ "(" ++ flat_map escape raw ++ b_ ")"
  else b_ "<" ++ hex_of raw ++ b_ ">".

Fixpoint write (key : option bytes) (obj : PdfObject) : bytes :=
  match obj with
  | NullObject => b_ "null"
  | BooleanObject b => if b then b_ "true" else b_ "false"
  | NumberObject z => str_int z
  | FloatObject literal => b_ literal
  | NameObject name => b_ name
  | ByteStringObject raw => write_string key raw
  | TextStringObject _ raw => write_string key raw
  | ArrayObject items =>
      b_ "[" ++ flat_map (fun item => [SP] ++ write key item) items ++ b_ " ]"
  | RectangleObject a b c d =>
      b_ "[" ++ [SP] ++ write key a ++ [SP] ++ write key b ++ [SP]
         ++ write key c ++ [SP] ++ write key d ++ b_ " ]"
  | DictionaryObject entries =>
      b_ "<<" ++ [LF]
        ++ map_fold (fun k v acc => b_ k ++ [SP] ++ write key v ++ [LF] ++ acc)
             [] entries
        ++ b_ ">>"
  | StreamObject entries data =>
      let data := match key with
                  | Some key => xor_cipher key data
                  | None => data
                  end in
      b_ "<<" ++ [LF]
        ++ map_fold (fun k v acc =>
                       if bool_decide (k = "/Length"%string) then acc
                       else b_ k ++ [SP] ++ write key v ++ [LF] ++ acc)
             [] entries
        ++ b_ "/Length " ++ str_int (Z.of_nat (length data)) ++ [LF]
        ++ b_ ">>" ++ [LF] ++ b_ "stream" ++ [LF] ++ data ++ [LF] ++ b_ "endstream"
  | ContentStream operations =>
      let data :=
        flat_map
          (fun operation =>
             match operation with
             | Op operands operator =>
                 flat_map (fun op => write None op ++ [SP]) operands
                   ++ operator ++ [LF]
             | InlineImage settings image =>
                 b_ "BI" ++ take (length (write None settings) - 2 - 2)
                                 (drop 2 (write None settings))
                    ++ b_ "ID " ++ image ++ b_ "EI" ++ [LF]
             end) operations in
      let data := match key with
                  | Some key => xor_cipher key data
                  | None => data
                  end in
      b_ "<<" ++ [LF] ++ b_ "/Length " ++ str_int (Z.of_nat (length data)) ++ [LF]
        ++ b_ ">>" ++ [LF] ++ b_ "stream" ++ [LF] ++ data ++ [LF] ++ b_ "endstream"
  | IndirectObject idnum generation =>
      str_int idnum ++ [SP] ++ str_int generation ++ b_ " R"
  end.

(** The bytes of a token: up to the next whitespace or delimiter. *)
Fixpoint read_token (stream : bytes) : bytes * bytes :=
  match stream with
  | [] => ([], [])
  | c :: rest =>
      if is_whitespace c || bool_decide (c ∈ delimiters) then ([], stream)
      else let '(tok, rest') := read_token rest in (c :: tok, rest')
  end.

Definition is_digit (c : ascii) : bool :=
  let n := nat_of_ascii c in (48 <=? n)%nat && (n <=? 57)%nat.

Definition digits_value (tok : bytes) : Z :=
  foldl (fun acc c => 10 * acc + (Z.of_nat (nat_of_ascii c) - 48)) 0 tok.

(** A number token: an optional sign, digits, at most one point. *)
Definition read_number (tok : bytes) : result PdfObject :=
  let '(sign, body) := match tok with
                       | c :: body =>
                           if bool_decide (c = "-"%char) then (-1, body)
                           else if bool_decide (c = "+"%char) then (1, body)
                           else (1, tok)
                       | [] => (1, tok)
                       end in
  if bool_decide (body = []) then Raise (PdfReadError "number expected")
  else if forallb is_digit body then Ok (NumberObject (sign * digits_value body))
  else if forallb (fun c => is_digit c || bool_decide (c = "."%char)) body
          && bool_decide (length (filter (fun c => c = "."%char) body) = 1%nat)
  then Ok (FloatObject (string_of_list_ascii tok))
  else Raise (PdfReadError "number expected").

Definition read (stream : bytes) : result (PdfObject * bytes) :=
  match stream with
  | [] => Raise (PdfReadError "stream has ended unexpectedly")
  | c :: rest =>
      if bool_decide (c = "/"%char) then
        let '(tok, rest') := read_token rest in
        Ok (NameObject (string_of_list_ascii (c :: tok)), rest')
      else
        let '(tok, rest') := read_token stream in
        obj ← read_number tok; Ok (obj, rest')
  end.

(** Equality of objects by structure; references by id and
    generation. *)
Fixpoint eqb (a b : PdfObject) {struct a} : bool :=
  match a, b with
  | NullObject, NullObject => true
  | BooleanObject x, BooleanObject y => Bool.eqb x y
  | NumberObject x, NumberObject y => x =? y
  | FloatObject x, FloatObject y => String.eqb x y
  | NameObject x, NameObject y => String.eqb x y
  | ByteStringObject x, ByteStringObject y => bool_decide (x = y)
  | TextStringObject x _, TextStringObject y _ => String.eqb x y
  | ArrayObject l1, ArrayObject l2 =>
      (fix go (l1 l2 : list PdfObject) {struct l1} : bool :=
         match l1, l2 with
         | [], [] => true
         | x :: l1, y :: l2 => eqb x y && go l1 l2
         | _, _ => false
         end) l1 l2
  | RectangleObject a1 b1 c1 d1, RectangleObject a2 b2 c2 d2 =>
      eqb a1 a2 && eqb b1 b2 && eqb c1 c2 && eqb d1 d2
  | DictionaryObject d1, DictionaryObject d2 =>
      bool_decide (dom d1 = dom d2)
      && map_fold (fun k v acc =>
                     acc && match d2 !! k with
                            | Some w => eqb v w
                            | None => false
                            end) true d1
  | IndirectObject i1 g1, IndirectObject i2 g2 => (i1 =? i2) && (g1 =? g2)
  | _, _ => false
  end.

(** The union of two arrays as sets, in some order. *)
Definition union (a b : PdfObject) : result PdfObject :=
  match a, b with
  | ArrayObject l1, ArrayObject l2 =>
      Ok (ArrayObject
            (l1 ++ filter (fun y => forallb (fun x => negb (eqb x y)) l1 = true) l2))
  | _, _ => Raise TypeError
  end.

(** The object layer over a document whose indirect objects are
    [store]. *)
Definition layer (store : Z -> Z -> result PdfObject) : ObjectLayer := {|
  resolve := store;
  writeToStream := fun obj key => write key obj;
  readObject := read;
  obj_ne := fun a b => negb (eqb a b);
  delimiterCharacters := delimiters;
  ProcSet_union := union
|}.

(** A document without indirect objects. *)
Definition no_objects : Z -> Z -> result PdfObject :=
  fun _ _ => Raise AttributeError.

(** Decimal numbers: [(m, s)] stands for [m / 10^s]. *)
Definition align (a b : Z * nat) : Z * Z * nat :=
  let '(m1, s1) := a in
  let '(m2, s2) := b in
  (m1 * 10 ^ Z.of_nat (s2 - s1), m2 * 10 ^ Z.of_nat (s1 - s2), Nat.max s1 s2).

Fixpoint normalize (fuel : nat) (m : Z) (s : nat) : Z * nat :=
  match fuel, s with
  | S fuel', S s' => if m mod 10 =? 0 then normalize fuel' (m / 10) s' else (m, s)
  | _, _ => (m, s)
  end.

Definition decimal_text (a : Z * nat) : bytes :=
  let '(m, s) := a in
  match s with
  | O => str_int m
  | _ =>
      let p := 10 ^ Z.of_nat s in
      (if m <? 0 then ["-"%char] else [])
        ++ str_int (Z.abs m / p) ++ ["."%char]
        ++ replicate (s - length (str_int (Z.abs m mod p))) "0"%char
        ++ str_int (Z.abs m mod p)
  end.

Fixpoint before_point (body : bytes) : bytes :=
  match body with
  | [] => []
  | c :: rest => if bool_decide (c = "."%char) then [] else c :: before_point rest
  end.

Definition decimal_of_text (text : bytes) : result (Z * nat) :=
  let '(sign, body) := match text with
                       | c :: body =>
                           if bool_decide (c = "-"%char) then (-1, body)
                           else (1, text)
                       | [] => (1, text)
                       end in
  let whole := before_point body in
  let frac := drop (S (length whole)) body in
  if forallb is_digit (whole ++ frac) && negb (bool_decide (whole ++ frac = []))
  then Ok (sign * digits_value (whole ++ frac), length frac)
  else Raise TypeError.

Definition value_of (obj : PdfObject) : result (Z * nat) :=
  match obj with
  | NumberObject z => Ok (z, O)
  | FloatObject literal => decimal_of_text (b_ literal)
  | _ => Raise TypeError
  end.

#[global] Instance numbers : Numbers := {|
  number := Z * nat;
  of_Z := fun z => (z, O);
  str_ := fun a => string_of_list_ascii (decimal_text a);
  number_of := value_of;
  float_ := value_of;
  sub := fun a b => let '(x, y, s) := align a b in Ok (x - y, s);
  mul := fun a b => Ok (fst a * fst b, (snd a + snd b)%nat);
  div := fun a b =>
           let '(x, y, _) := align a b in
           if y =? 0 then Raise ZeroDivisionError
           else Ok (normalize 6 (x * 10 ^ 6 / y) 6);
  getWidth := fun box =>
                match box with
                | RectangleObject a _ c _ =>
                    a ← value_of a; c ← value_of c;
                    let '(x, y, s) := align c a in Ok (x - y, s)
                | _ => Raise AttributeError
                end;
  getHeight := fun box =>
                 match box with
                 | RectangleObject _ b _ d =>
                     b ← value_of b; d ← value_of d;
                     let '(x, y, s) := align d b in Ok (x - y, s)
                 | _ => Raise AttributeError
                 end
|}.

End Generic.

(** ** Documents for the examples *)

Module Examples.
Import Generic.

(** A file with two revisions: at the tail, at offset 900, a classical
    table whose trailer points back to a cross-reference stream at
    offset 100. *)
Definition trailer_900 : gmap string PdfObject :=
  <["/Root" := IndirectObject 1 0]>
    (<["/Size" := NumberObject 10]> (<["/Prev" := NumberObject 100]> ∅)).

Definition xrefstream_100 : gmap string PdfObject :=
  <["/Type" := NameObject "/XRef"]>
    (<["/Root" := IndirectObject 7 0]>
       (<["/Info" := IndirectObject 3 0]> (<["/Size" := NumberObject 5]> ∅))).

Definition xref_at (offset : Z) : Reader.XrefSection :=
  if offset =? 900 then Reader.ClassicTable trailer_900
  else if offset =? 100 then Reader.XRefStream xrefstream_100
  else Reader.BadXrefChar None.

(** Scenario S4 on the stand-in algorithms: user password [foo],
    owner password [bar], V=2, R=3, 128 bits.  [/O] hides the user
    password under the key of the owner password. *)
Definition owner_entry : bytes :=
  foldl (fun val i =>
           RC4_encrypt (map (fun c => xor_byte c i) (_alg33_1 (b_ "bar") 3 16)) val)
        (b_ "foo") Reader.rounds_19_down_to_0.

Definition encrypt_S4 : Reader.EncryptDict := {|
  Reader.Filter := NameObject "/Standard";
  Reader.V := 2;
  Reader.R := 3;
  Reader.Length := Some 128;
  Reader.O := owner_entry;
  Reader.U := fst (_alg35 (b_ "foo") 3 16 owner_entry (-1) (b_ "id") false);
  Reader.P := -1;
  Reader.EncryptMetadata := None
|}.

Definition reader_S4 : Reader.PdfFileReader := {|
  Reader.Encrypt := Some encrypt_S4;
  Reader.id1_entry := b_ "id";
  Reader._decryption_key := None;
  Reader._override_encryption := false
|}.

(** A document of the Standard handler with V=1 and R=3 and, as the
    PDF reference allows for V=1, no [/Length]. *)
Definition encrypt_no_length : Reader.EncryptDict := {|
  Reader.Filter := NameObject "/Standard";
  Reader.V := 1;
  Reader.R := 3;
  Reader.Length := None;
  Reader.O := owner_entry;
  Reader.U := b_ "anything";
  Reader.P := -1;
  Reader.EncryptMetadata := None
|}.

Definition reader_no_length : Reader.PdfFileReader := {|
  Reader.Encrypt := Some encrypt_no_length;
  Reader.id1_entry := b_ "id";
  Reader._decryption_key := None;
  Reader._override_encryption := false
|}.

(** The reader of S4 once the user password matched, and a writer
    that encrypts with the same key; its encryption dictionary is the
    object 4. *)
Definition document_key : bytes := take 16 (fold_digest (b_ "foo")).

Definition reader_decrypted : Reader.PdfFileReader :=
  Reader.set_decryption_key reader_S4 document_key.

#[global] Instance layer0 : ObjectLayer := layer no_objects.

Definition writer0 : Writer.PdfFileWriter := Writer.__init__.

Definition writer_encrypted : Writer.PdfFileWriter := {|
  Writer._objects := Writer._objects writer0 ++ [Some (DictionaryObject ∅)];
  Writer._ID := Some (ArrayObject [ByteStringObject (b_ "id");
                                   ByteStringObject (b_ "id2")]);
  Writer._encrypt := Some 4;
  Writer._encrypt_key := document_key
|}.

(** Four calls on a new writer: a blank Letter page, a page from
    elsewhere inserted in front, a blank page of the size of the last
    one, and a blank page of the size of the page at index 1 inserted
    there. *)
Definition foreign_page : gmap string PdfObject :=
  <["/Type" := NameObject "/Page"]> (<["/Resources" := DictionaryObject ∅]> ∅).

Definition four_calls : list Writer.Call :=
  [Writer.AddBlankPage (Some (612, 0%nat)) (Some (792, 0%nat));
   Writer.InsertPage foreign_page 0;
   Writer.AddBlankPage None None;
   Writer.InsertBlankPage None None 1].

(** Two pages with fonts: the second page names its fonts through
    indirect references into its document, where object 5 is one font
    and object 6 another; the first page has its own [/F2]. *)
Definition font (name : string) : PdfObject :=
  DictionaryObject (<["/Type" := NameObject "/Font"]>
                      (<["/BaseFont" := NameObject name]> ∅)).

Definition font_store (idnum generation : Z) : result PdfObject :=
  if (idnum =? 5) && (generation =? 0) then Ok (font "/Helvetica")
  else if (idnum =? 6) && (generation =? 0) then Ok (font "/Courier")
  else Raise AttributeError.

Definition layer_fonts : ObjectLayer := layer font_store.

Definition resources1 : gmap string PdfObject :=
  <["/Font" := DictionaryObject (<["/F2" := font "/Times-Roman"]> ∅)]> ∅.

Definition fonts2 : gmap string PdfObject :=
  <["/F1" := IndirectObject 5 0]> (<["/F2" := IndirectObject 6 0]> ∅).

Definition resources2 : gmap string PdfObject :=
  <["/Font" := DictionaryObject fonts2]> ∅.

(** A page without contents whose media box does not start at the
    origin. *)
Definition page_10_20 : gmap string PdfObject :=
  <["/Type" := NameObject "/Page"]>
    (<["/MediaBox" := RectangleObject (NumberObject 10) (NumberObject 20)
                                      (NumberObject 110) (NumberObject 220)]> ∅).

(** A page that draws a line, with the font [/F2] of [resources1]; a
    page that sets the font [/F2] of [resources2], another font; a
    page whose content already scales by one half. *)
Definition page_line : gmap string PdfObject :=
  <["/Type" := NameObject "/Page"]>
    (<["/Resources" := DictionaryObject resources1]>
       (<["/Contents" :=
            StreamObject ∅ (b_ "0 0 m" ++ [LF] ++ b_ "10 10 l" ++ [LF]
                              ++ b_ "S" ++ [LF])]> ∅)).

Definition page_text : gmap string PdfObject :=
  <["/Type" := NameObject "/Page"]>
    (<["/Resources" := DictionaryObject resources2]>
       (<["/Contents" := StreamObject ∅ (b_ "/F2 12 Tf" ++ [LF])]> ∅)).


Definition value_or {A} (d : A) (r : result A) : A :=
  match r with Ok a => a | _ => d end.

(** The blank page [createBlankPage] makes. *)
Definition blank_page : gmap string PdfObject :=
  fst (value_or (∅, Writer.__init__)
         (Writer.createBlankPage Writer.__init__
            (Some (612, 0%nat)) (Some (792, 0%nat)))).

Definition writer_four : Writer.PdfFileWriter :=
  value_or Writer.__init__ (Writer.calls Writer.__init__ four_calls).

End Examples.


(** ** reader.py: cross-reference streams *)

Module CrossReference.

(** The value of a byte string read as a big-endian number. *)
Definition be_value (d : bytes) : Z :=
  foldl (fun acc c => 256 * acc + Z.of_N (N_of_ascii c)) 0 d.

(** [struct.unpack(">q", d)[0]]: eight bytes, most significant first,
    two's complement; [struct.error] for any other length. *)
Definition unpack_q (d : bytes) : result Z :=
  if bool_decide (length d = 8%nat) then
    let u := be_value d in
    Ok (if u <? 2 ^ 63 then u else u - 2 ^ 64)
  else Raise StructError.

(** [convertToInt(d, size)] *)
Definition convertToInt (d : bytes) (size : Z) : result Z :=
  if 8 <? size then Raise (PdfReadError "invalid size in convertToInt")
  else
    let d := replicate 8 (ascii_of_nat 0) ++ d in
    let d := drop (length d - 8) d in
    unpack_q d.

(** The bytes of [n] on [k] bytes, most significant first. *)
Definition big_endian (k : nat) (n : Z) : bytes := rev (low_bytes k n).

(** [_pairs(self, array)], a generator: the pairs it yields and how it
    ends, by running off the end of the loop or by an exception.  The
    loop tests its condition after the first [yield]. *)
Fixpoint _pairs {A} (fuel : nat) (array : list A) (i : nat)
  : list (A * A) * result unit :=
  match fuel with
  | O => ([], OutOfFuel)
  | S fuel' =>
      match array !! i, array !! (i + 1)%nat with
      | Some a, Some b =>
          let i := (i + 2)%nat in
          if (length array <=? i + 1)%nat then ([(a, b)], Ok ())
          else let '(ps, r) := _pairs fuel' array i in ((a, b) :: ps, r)
      | _, _ => ([], Raise IndexError)
      end
  end.

(** The local variables of [read] that the loop over a cross-reference
    stream assigns and reads; a variable not yet assigned is [None].
    They keep their values from one entry to the next and from one
    stream to the next. *)
Record Locals : Type := {
  xref_type : option Z;
  byte_offset : option Z;
  generation : option Z;
  objstr_num : option Z;
  obstr_idx : option Z
}.

(** [self.xref], from generation to id to offset, and
    [self.xref_objStm], from id to object stream and index in it. *)
Record Tables : Type := {
  xref : gmap Z (gmap Z Z);
  xref_objStm : gmap Z (Z * Z)
}.

Definition local (name : string) (v : option Z) : result Z :=
  match v with
  | Some z => Ok z
  | None => Raise (UnboundLocalError name)
  end.

(** [streamData.read(n)] of a [StringIO]: [n] bytes, fewer at the
    end, all that is left for a negative [n]. *)
Definition read_n (n : Z) (stream : bytes) : bytes * bytes :=
  if n <? 0 then (stream, [])
  else (take (Z.to_nat n) stream, drop (Z.to_nat n) stream).

(** One turn of [for i in range(len(entrySizes))]. *)
Definition read_field (i : nat) (di : Z) (l : Locals) : result Locals :=
  match i with
  | 0%nat =>
      Ok {| xref_type := Some di; byte_offset := byte_offset l;
            generation := generation l; objstr_num := objstr_num l;
            obstr_idx := obstr_idx l |}
  | 1%nat =>
      t ← local "xref_type" (xref_type l);
      if t =? 0 then Ok l
      else if t =? 1 then
        Ok {| xref_type := xref_type l; byte_offset := Some di;
              generation := generation l; objstr_num := objstr_num l;
              obstr_idx := obstr_idx l |}
      else if t =? 2 then
        Ok {| xref_type := xref_type l; byte_offset := byte_offset l;
              generation := generation l; objstr_num := Some di;
              obstr_idx := obstr_idx l |}
      else Ok l
  | 2%nat =>
      t ← local "xref_type" (xref_type l);
      if t =? 0 then Ok l
      else if t =? 1 then
        Ok {| xref_type := xref_type l; byte_offset := byte_offset l;
              generation := Some di; objstr_num := objstr_num l;
              obstr_idx := obstr_idx l |}
      else if t =? 2 then
        Ok {| xref_type := xref_type l; byte_offset := byte_offset l;
              generation := generation l; objstr_num := objstr_num l;
              obstr_idx := Some di |}
      else Ok l
  | _ => Ok l
  end.

Fixpoint read_fields (entrySizes : list Z) (i : nat) (stream : bytes)
    (l : Locals) : result (bytes * Locals) :=
  match entrySizes with
  | [] => Ok (stream, l)
  | w :: entrySizes' =>
      let '(d, stream) := read_n w stream in
      di ← convertToInt d w;
      l ← read_field i di l;
      read_fields entrySizes' (S i) stream l
  end.

(** What an entry does to the tables once its fields are read. *)
Definition record_entry (num : Z) (l : Locals) (t : Tables) : result Tables :=
  ty ← local "xref_type" (xref_type l);
  if ty =? 0 then Ok t
  else if ty =? 1 then
    gen ← local "generation" (generation l);
    let table := default ∅ (xref t !! gen) in
    match table !! num with
    | Some _ =>
        Ok {| xref := <[gen := table]> (xref t); xref_objStm := xref_objStm t |}
    | None =>
        off ← local "byte_offset" (byte_offset l);
        Ok {| xref := <[gen := <[num := off]> table]> (xref t);
              xref_objStm := xref_objStm t |}
    end
  else if ty =? 2 then
    match xref_objStm t !! num with
    | Some _ => Ok t
    | None =>
        a ← local "objstr_num" (objstr_num l);
        b ← local "obstr_idx" (obstr_idx l);
        Ok {| xref := xref t; xref_objStm := <[num := (a, b)]> (xref_objStm t) |}
    end
  else Ok t.

(** [while cnt < size], for the [n] turns it takes. *)
Fixpoint read_subsection (n : nat) (entrySizes : list Z) (num : Z)
    (stream : bytes) (l : Locals) (t : Tables)
  : result (bytes * Locals * Tables) :=
  match n with
  | O => Ok (stream, l, t)
  | S n' =>
      '(stream, l) ← read_fields entrySizes 0 stream l;
      t ← record_entry num l t;
      read_subsection n' entrySizes (num + 1) stream l t
  end.

Fixpoint read_subsections (pairs : list (Z * Z)) (entrySizes : list Z)
    (stream : bytes) (l : Locals) (t : Tables)
  : result (bytes * Locals * Tables) :=
  match pairs with
  | [] => Ok (stream, l, t)
  | (num, size) :: pairs' =>
      '(stream, l, t) ← read_subsection (Z.to_nat size) entrySizes num stream l t;
      read_subsections pairs' entrySizes stream l t
  end.

(** The loop [for num, size in self._pairs(idx_pairs)] of [read] over
    the decoded data of a cross-reference stream, [idx_pairs] and
    [entrySizes] being the integers of [/Index] and [/W]: what is left
    of the data, the local variables and the tables afterwards. *)
Definition read_entries (idx_pairs entrySizes : list Z) (stream : bytes)
    (l : Locals) (t : Tables) : result (bytes * Locals * Tables) :=
  let '(pairs, ending) := _pairs (S (length idx_pairs)) idx_pairs 0 in
  r ← read_subsections pairs entrySizes stream l t;
  _ ← ending;
  Ok r.

(** [self.xref[generation][idnum]], as [getObject] looks an offset up. *)
Definition xref_offset (t : Tables) (gen idnum : Z) : option Z :=
  table ← xref t !! gen; table !! idnum.

(** A stream of three entries of widths 1, 2 and 1: a free entry, the
    offset 258 of an object in generation 0, and a place in the object
    stream 5; and tables that know object 1 already. *)
Definition three_entries : bytes :=
  map ascii_of_nat [0; 0; 0; 255; 1; 1; 2; 0; 2; 0; 5; 1]%nat.

Definition no_locals : Locals :=
  {| xref_type := None; byte_offset := None; generation := Some 0;
     objstr_num := None; obstr_idx := None |}.

Definition known_tables : Tables :=
  {| xref := {[ 0 := {[ 1 := 999 ]} ]}; xref_objStm := ∅ |}.

End CrossReference.

(** ** reader.py: the end of the file *)

Module EndOfFile.

(** The stream is a [StringIO], as [PdfFileReader.__init__] makes one
    of a file name: [read(1)] gives the byte at the position, or
    nothing at the end; [seek] stops at the beginning. *)
Definition read1 (buf : bytes) (pos : Z) : option ascii * Z :=
  let newpos := Z.min (pos + 1) (Z.of_nat (length buf)) in
  (if pos <? newpos then buf !! Z.to_nat pos else None, newpos).

(** [stream.seek(offset, 1)] and [stream.seek(offset, 2)] *)
Definition seek_cur (pos offset : Z) : Z := Z.max 0 (pos + offset).
Definition seek_end (buf : bytes) (offset : Z) : Z :=
  Z.max 0 (Z.of_nat (length buf) + offset).

(** [x == b_('\n') or x == b_('\r')] *)
Definition is_eol (x : option ascii) : bool :=
  bool_decide (x = Some LF) || bool_decide (x = Some CR).

(** The inner loop of [readNextEndLine], [while x == '\n' or x ==
    '\r'], entered with such an [x]: the position and [crlf]
    afterwards. *)
Fixpoint end_of_line_run (fuel : nat) (buf : bytes) (pos : Z) (crlf : bool)
  : result (Z * bool) :=
  match fuel with
  | O => OutOfFuel
  | S fuel' =>
      let '(x, pos) := read1 buf pos in
      let '(pos, crlf) :=
        if is_eol x then (seek_cur pos (-1), true) else (pos, crlf) in
      let pos := seek_cur pos (-2) in
      if is_eol x then end_of_line_run fuel' buf pos crlf
      else Ok (pos, crlf)
  end.

(** [readNextEndLine(self, stream)]: the line gathered backwards from
    the position, and the position afterwards. *)
Fixpoint readNextEndLine (fuel : nat) (buf : bytes) (pos : Z) (line : bytes)
  : result (bytes * Z) :=
  match fuel with
  | O => OutOfFuel
  | S fuel' =>
      let '(x, pos) := read1 buf pos in
      let pos := seek_cur pos (-2) in
      if is_eol x then
        '(pos, crlf) ← end_of_line_run fuel' buf pos false;
        Ok (line, seek_cur pos (if crlf : bool then 2 else 1))
      else
        readNextEndLine fuel' buf pos (option_list x ++ line)
  end.

(** [line = b_(''); while not line: line = self.readNextEndLine(stream)] *)
Fixpoint last_line (turns fuel : nat) (buf : bytes) (pos : Z)
  : result (bytes * Z) :=
  match turns with
  | O => OutOfFuel
  | S turns' =>
      '(line, pos) ← readNextEndLine fuel buf pos [];
      if bool_decide (line = []) then last_line turns' fuel buf pos
      else Ok (line, pos)
  end.

Section Start.
(** Python's [int] of a [str]. *)
Variable int_ : bytes -> result Z.

(** The beginning of [read(self, stream)], up to the table being
    read: the offset [startxref] found at the end of the file. *)
Definition read_startxref (fuel : nat) (buf : bytes) : result Z :=
  let pos := seek_end buf (-1) in
  '(line, pos) ← last_line fuel fuel buf pos;
  if negb (bool_decide (take 5 line = b_ "%%EOF")) then
    Raise (PdfReadError "EOF marker not found")
  else
    '(line, pos) ← readNextEndLine fuel buf pos [];
    startxref ← int_ line;
    '(line, pos) ← readNextEndLine fuel buf pos [];
    if negb (bool_decide (take 9 line = b_ "startxref")) then
      Raise (PdfReadError "startxref not found")
    else Ok startxref.

End Start.

(** A decimal reader for the examples: digits only. *)
Definition decimal (text : bytes) : result Z :=
  if forallb Generic.is_digit text && negb (bool_decide (text = []))
  then Ok (Generic.digits_value text)
  else Raise ValueError.

(** The file a new writer writes into an empty stream. *)
Definition written : bytes :=
  match Writer.write Examples.writer0 [] with
  | Ok (out, _, _) => out
  | _ => []
  end.

End EndOfFile.

(** ** page_object.py: rotation, text, boxes *)

Module Rotation.
Section Rotate.

(** [NumberObject(currentAngle + angle)] for a [/Rotate] entry that is
    a real number: the sum is a decimal, and the integer made of it. *)
Variable decimal_plus : string -> Z -> result Z.

(** [_rotate(self, angle)]: [self.get("/Rotate", 0)] is the entry as
    it stands in the dictionary; anything but a number refuses the
    addition. *)
Definition _rotate (self : gmap string PdfObject) (angle : Z)
  : result (gmap string PdfObject) :=
  sum ← match self !! "/Rotate" with
        | None => Ok (0 + angle)
        | Some (NumberObject currentAngle) => Ok (currentAngle + angle)
        | Some (FloatObject literal) => decimal_plus literal angle
        | Some _ => Raise TypeError
        end;
  Ok (<["/Rotate" := NumberObject sum]> self).

Definition rotateClockwise (self : gmap string PdfObject) (angle : Z)
  : result (gmap string PdfObject) :=
  if negb (angle mod 90 =? 0) then Raise AssertionError
  else _rotate self angle.

Definition rotateCounterClockwise (self : gmap string PdfObject) (angle : Z)
  : result (gmap string PdfObject) :=
  if negb (angle mod 90 =? 0) then Raise AssertionError
  else _rotate self (- angle).

(** One call of [rotateClockwise] after the other. *)
Fixpoint rotations (self : gmap string PdfObject) (angles : list Z)
  : result (gmap string PdfObject) :=
  match angles with
  | [] => Ok self
  | angle :: angles' =>
      self ← rotateClockwise self angle;
      rotations self angles'
  end.

End Rotate.

(** No real numbers in the examples. *)
Definition no_decimals : string -> Z -> result Z := fun _ _ => Raise TypeError.

End Rotation.

Module Text.
Import ContentStreamOps.
Section Extract.
Context `{ObjectLayer}.

(** [if isinstance(_text, TextStringObject): text += _text] *)
Definition text_of (obj : PdfObject) : string :=
  match obj with
  | TextStringObject text _ => text
  | _ => EmptyString
  end.

(** The operand of [TJ]: [for i in operands[0]: if isinstance(i,
    TextStringObject): text += i].  The elements of an array are
    objects; the characters of a string and the keys of a dictionary
    are no text string objects; the other objects cannot be iterated
    over. *)
Definition TJ_text (obj : PdfObject) : result string :=
  match obj with
  | ArrayObject items => Ok (foldr (fun i text => text_of i +:+ text) EmptyString items)
  | RectangleObject a b c d =>
      Ok (text_of a +:+ text_of b +:+ text_of c +:+ text_of d)
  | NameObject _ | ByteStringObject _ | TextStringObject _ _ => Ok EmptyString
  | DictionaryObject _ | StreamObject _ _ | ContentStream _ => Ok EmptyString
  | NullObject | BooleanObject _ | NumberObject _ | FloatObject _
  | IndirectObject _ _ => Raise TypeError
  end.

Definition newline : string := String LF EmptyString.

(** One turn of the loop of [extractText]; for an inline image the
    operator is ["INLINE IMAGE"]. *)
Definition extract_operation (text : string) (operation : Operation PdfObject)
  : result string :=
  match operation with
  | InlineImage _ _ => Ok text
  | Op operands operator =>
      if bool_decide (operator = b_ "Tj") then
        _text ← list_index operands 0;
        Ok (text +:+ text_of _text)
      else if bool_decide (operator = b_ "T*") then
        Ok (text +:+ newline)
      else if bool_decide (operator = b_ "'") then
        let text := text +:+ newline in
        _text ← list_index operands 0;
        Ok (text +:+ text_of _text)
      else if bool_decide (operator = [DQUOTE]) then
        _text ← list_index operands 2;
        match _text with
        | TextStringObject t _ => Ok (text +:+ newline +:+ t)
        | _ => Ok text
        end
      else if bool_decide (operator = b_ "TJ") then
        first ← list_index operands 0;
        shown ← TJ_text first;
        Ok (text +:+ shown)
      else Ok text
  end.

Fixpoint extract_operations (text : string)
    (operations : list (Operation PdfObject)) : result string :=
  match operations with
  | [] => Ok text
  | operation :: operations' =>
      text ← extract_operation text operation;
      extract_operations text operations'
  end.

(** [extractText(self)] *)
Definition extractText (fuel : nat) (self : gmap string PdfObject)
  : result string :=
  content ← dict_getitem self "/Contents";
  content ← getObject content;
  operations ← match content with
                | ContentStream operations => Ok operations
                | _ => __init__ fuel content
                end;
  extract_operations EmptyString operations.

(** What a list of operations shows, when every [Tj] has a text
    string for its operand and no other text operator occurs. *)
Definition shown_by_Tj (operations : list (Operation PdfObject)) : string :=
  foldr (fun operation text =>
           match operation with
           | Op (TextStringObject t _ :: _) operator =>
               if bool_decide (operator = b_ "Tj") then t +:+ text else text
           | _ => text
           end) EmptyString operations.

(** An operation that shows no text, or shows the text string that is
    its first operand with [Tj]. *)
Definition Tj_or_silent (operation : Operation PdfObject) : Prop :=
  match operation with
  | InlineImage _ _ => True
  | Op operands operator =>
      (operator = b_ "Tj" /\ exists t raw rest, operands = TextStringObject t raw :: rest)
      \/ (operator <> b_ "Tj" /\ operator <> b_ "T*" /\ operator <> b_ "'"
          /\ operator <> [DQUOTE] /\ operator <> b_ "TJ")
  end.

(** [ContentStream._setData(self, value)]: [__parseContentStream]
    appends what it reads to [self.operations]. *)
Definition _setData (fuel : nat) (operations : list (Operation PdfObject))
    (value : bytes) : result (list (Operation PdfObject)) :=
  read ← parseContentStream fuel value value [];
  Ok (operations ++ read).

End Extract.

(** A page that shows two strings, with a path and an inline image
    between them. *)
Definition page_hello : gmap string PdfObject :=
  <["/Contents" :=
      ContentStream
        [Op [] (b_ "BT");
         Op [TextStringObject "Hello" (b_ "Hello")] (b_ "Tj");
         Op [NumberObject 0; NumberObject 0] (b_ "m");
         InlineImage (DictionaryObject ∅) (b_ "xyz");
         Op [TextStringObject ", world" (b_ ", world")] (b_ "Tj");
         Op [] (b_ "ET")]]>
    (<["/Type" := NameObject "/Page"]> ∅).

(** The box of a Letter page. *)
Definition letter_box : PdfObject :=
  RectangleObject (NumberObject 0) (NumberObject 0)
    (NumberObject 612) (NumberObject 792).

End Text.

Module Boxes.
Section Accessors.
Context `{ObjectLayer}.

(** The properties made by [createRectangleAccessor(name, fallback)]:
    reading is [getRectangle]; assigning is [setRectangle]; [del] is
    [deleteRectangle]. *)
Definition cropBox (self : gmap string PdfObject) :=
  Rectangle.getRectangle self "/CropBox" ["/MediaBox"%string].
Definition bleedBox (self : gmap string PdfObject) :=
  Rectangle.getRectangle self "/BleedBox" ["/CropBox"; "/MediaBox"]%string.
Definition trimBox (self : gmap string PdfObject) :=
  Rectangle.getRectangle self "/TrimBox" ["/CropBox"; "/MediaBox"]%string.
Definition artBox (self : gmap string PdfObject) :=
  Rectangle.getRectangle self "/ArtBox" ["/CropBox"; "/MediaBox"]%string.

(** [setRectangle(self, name, value)] *)
Definition setRectangle (self : gmap string PdfObject) (name : string)
    (value : PdfObject) : gmap string PdfObject :=
  <[name := value]> self.

(** [deleteRectangle(self, name)]: [del self[name]] *)
Definition deleteRectangle (self : gmap string PdfObject) (name : string)
  : result (gmap string PdfObject) :=
  match self !! name with
  | Some _ => Ok (delete name self)
  | None => Raise (KeyError name)
  end.

End Accessors.

(** The example page after its crop box was read once. *)
Definition page_read : gmap string PdfObject :=
  <["/CropBox" := RectangleObject (NumberObject 10) (NumberObject 20)
                    (NumberObject 110) (NumberObject 220)]> Examples.page_10_20.

End Boxes.


(** ** writer.py: encryption *)

Module WriterSecurity.
Section Encrypt.
Context `{Primitives}.

(** [_alg33(owner_pwd, user_pwd, rev, keylen)] of [algorithms.py],
    which computes the [/O] entry. *)
Variable _alg33 : bytes -> bytes -> Z -> Z -> bytes.

(** [encrypt(self, user_pwd, owner_pwd, use_128bit)].  The two
    identifiers are digests of [repr(time.time())] and
    [repr(random.random())], which are [now] and [random] here. *)
Definition encrypt (self : Writer.PdfFileWriter) (user_pwd : bytes)
    (owner_pwd : option bytes) (use_128bit : bool) (now random : bytes)
  : Writer.PdfFileWriter :=
  let owner_pwd := default user_pwd owner_pwd in
  let '(V, rev, keylen) :=
    if use_128bit then (2, 3, 128 / 8) else (1, 2, 40 / 8) in
  let P := -1 in
  let O := _alg33 owner_pwd user_pwd rev keylen in
  let ID_1 := md5 now in
  let ID_2 := md5 random in
  let ID := ArrayObject [ByteStringObject ID_1; ByteStringObject ID_2] in
  let '(U, key) :=
    if rev =? 2 then _alg34 user_pwd O P ID_1
    else _alg35 user_pwd rev keylen O P ID_1 false in
  let encrypt : gmap string PdfObject :=
    <["/V" := NumberObject V]> (<["/Filter" := NameObject "/Standard"]> ∅) in
  let encrypt :=
    if V =? 2 then <["/Length" := NumberObject (keylen * 8)]> encrypt
    else encrypt in
  let encrypt :=
    <["/P" := NumberObject P]>
      (<["/U" := ByteStringObject U]>
         (<["/O" := ByteStringObject O]>
            (<["/R" := NumberObject rev]> encrypt))) in
  let objects := Writer._objects self ++ [Some (DictionaryObject encrypt)] in
  {| Writer._objects := objects;
     Writer._ID := Some ID;
     Writer._encrypt := Some (Z.of_nat (length objects));
     Writer._encrypt_key := key |}.

End Encrypt.

(** The encryption dictionary as the security handler of the reader
    takes it: the entries it reads, [/Length] and [/EncryptMetadata]
    where they are present. *)
Definition as_EncryptDict (d : gmap string PdfObject) : option Reader.EncryptDict :=
  match d !! "/Filter", d !! "/V", d !! "/R", d !! "/O", d !! "/U", d !! "/P" with
  | Some filter, Some (NumberObject v), Some (NumberObject r),
    Some (ByteStringObject o), Some (ByteStringObject u), Some (NumberObject p) =>
      Some {| Reader.Filter := filter; Reader.V := v; Reader.R := r;
              Reader.Length := match d !! "/Length" with
                               | Some (NumberObject l) => Some l
                               | _ => None
                               end;
              Reader.O := o; Reader.U := u; Reader.P := p;
              Reader.EncryptMetadata :=
                match d !! "/EncryptMetadata" with
                | Some (BooleanObject b) => Some b
                | _ => None
                end |}
  | _, _, _, _, _, _ => None
  end.

(** A reader that has read the trailer of what the writer wrote: the
    encryption dictionary and the first identifier. *)
Definition reader_of (d : gmap string PdfObject) (ID : PdfObject)
  : option Reader.PdfFileReader :=
  match as_EncryptDict d, ID with
  | Some e, ArrayObject (ByteStringObject id1 :: _) =>
      Some {| Reader.Encrypt := Some e; Reader.id1_entry := id1;
              Reader._decryption_key := None;
              Reader._override_encryption := false |}
  | _, _ => None
  end.

End WriterSecurity.

(** ** reader.py: the page tree and the destinations *)

Module PageTree.
Section Flatten.
Context `{ObjectLayer}.

Definition inheritablePageAttributes : list string :=
  ["/Resources"; "/MediaBox"; "/CropBox"; "/Rotate"]%string.

(** [obj[key]] asks for a dictionary: an object that is none refuses
    the subscript. *)
Definition entries_of (obj : PdfObject) : result (gmap string PdfObject) :=
  match obj with
  | DictionaryObject entries => Ok entries
  | StreamObject entries _ => Ok entries
  | ContentStream _ => Ok ∅
  | _ => Raise TypeError
  end.

(** [for attr in inheritablePageAttributes:
       if attr in pages: inherit[attr] = pages[attr]] *)
Fixpoint gather (pages : gmap string PdfObject) (attrs : list string)
    (inherit : gmap string PdfObject) : result (gmap string PdfObject) :=
  match attrs with
  | [] => Ok inherit
  | attr :: attrs' =>
      match pages !! attr with
      | Some _ =>
          value ← dict_getitem pages attr;
          gather pages attrs' (<[attr := value]> inherit)
      | None => gather pages attrs' inherit
      end
  end.

(** [for attr, value in inherit.items():
       if attr not in pages: pages[attr] = value] *)
Definition inherited (inherit pages : gmap string PdfObject)
  : gmap string PdfObject :=
  map_fold (fun attr value pages => setdefault attr value pages) pages inherit.

(** [for page in pages["/Kids"]]: the elements of an array; of a
    dictionary, its keys; the characters of a string are no objects
    and have no [getObject]; the other objects cannot be iterated
    over. *)
Definition iterate (obj : PdfObject) : result (list PdfObject) :=
  match obj with
  | ArrayObject items => Ok items
  | RectangleObject a b c d => Ok [a; b; c; d]
  | DictionaryObject entries => Ok (NameObject <$> dict_keys entries)
  | StreamObject entries _ => Ok (NameObject <$> dict_keys entries)
  | ContentStream _ => Ok []
  | NameObject name =>
      if bool_decide (name = EmptyString) then Ok [] else Raise AttributeError
  | TextStringObject text _ =>
      if bool_decide (text = EmptyString) then Ok [] else Raise AttributeError
  | ByteStringObject raw =>
      if bool_decide (raw = []) then Ok [] else Raise AttributeError
  | _ => Raise TypeError
  end.

(** A page of [self.flattenedPages]: its entries and the reference it
    was reached through, if any. *)
Definition FlatPage : Type := gmap string PdfObject * option PdfObject.

(** [for page in pages["/Kids"]: ... self._flatten(page.getObject(),
    inherit, **addt)], with the recursive call as [visit]. *)
Fixpoint kids_loop
    (visit : PdfObject -> gmap string PdfObject -> option PdfObject ->
             list FlatPage -> result (gmap string PdfObject * list FlatPage))
    (kids : list PdfObject) (inherit : gmap string PdfObject)
    (flattenedPages : list FlatPage)
  : result (gmap string PdfObject * list FlatPage) :=
  match kids with
  | [] => Ok (inherit, flattenedPages)
  | page :: kids' =>
      let addt := match page with
                  | IndirectObject _ _ => Some page
                  | _ => None
                  end in
      node ← getObject page;
      '(inherit, flattenedPages) ← visit node inherit addt flattenedPages;
      kids_loop visit kids' inherit flattenedPages
  end.

(** [_flatten(self, pages, inherit, indirectRef)] for a node that is
    given: the dictionary [inherit], which is one and the same object
    in all the calls and is changed in place, and
    [self.flattenedPages] afterwards.  The page dictionary is
    completed in place as well; the pages are modelled as they are
    copied into [self.flattenedPages], the change to the object read
    from the file is not kept.  A tree that refers to itself takes
    Python beyond its recursion limit, and the fuel runs out. *)
Fixpoint _flatten (fuel : nat) (pages : PdfObject)
    (inherit : gmap string PdfObject) (indirectRef : option PdfObject)
    (flattenedPages : list FlatPage)
  : result (gmap string PdfObject * list FlatPage) :=
  match fuel with
  | O => OutOfFuel
  | S fuel' =>
      pages ← entries_of pages;
      t ← dict_getitem pages "/Type";
      if eq_str t "/Pages" then
        inherit ← gather pages inheritablePageAttributes inherit;
        kids ← dict_getitem pages "/Kids";
        kids ← iterate kids;
        kids_loop (_flatten fuel') kids inherit flattenedPages
      else if eq_str t "/Page" then
        Ok (inherit, flattenedPages ++ [(inherited inherit pages, indirectRef)])
      else Ok (inherit, flattenedPages)
  end.

(** [_flatten(self)] called without arguments, on the trailer. *)
Definition flatten (fuel : nat) (trailer : gmap string PdfObject)
  : result (list FlatPage) :=
  catalog ← dict_getitem trailer "/Root";
  catalog ← getObject catalog;
  catalog ← entries_of catalog;
  pages ← dict_getitem catalog "/Pages";
  pages ← getObject pages;
  '(_, flattenedPages) ← _flatten fuel pages ∅ None [];
  Ok flattenedPages.

(** [getNumPages] and [getPage] of a reader that is not encrypted,
    with [self.flattenedPages] before and after. *)
Definition getNumPages (fuel : nat) (trailer : gmap string PdfObject)
    (flattenedPages : option (list FlatPage))
  : result (Z * list FlatPage) :=
  flattenedPages ← match flattenedPages with
                    | Some flattenedPages => Ok flattenedPages
                    | None => flatten fuel trailer
                    end;
  Ok (Z.of_nat (length flattenedPages), flattenedPages).

Definition getPage (fuel : nat) (trailer : gmap string PdfObject)
    (flattenedPages : option (list FlatPage)) (pageNumber : Z)
  : result (FlatPage * list FlatPage) :=
  flattenedPages ← match flattenedPages with
                    | Some flattenedPages => Ok flattenedPages
                    | None => flatten fuel trailer
                    end;
  page ← list_index flattenedPages pageNumber;
  Ok (page, flattenedPages).



End Flatten.

(** A document whose root of pages (object 1) holds a node of pages
    that turns its pages by 90 degrees and has none, and after it a
    page without a rotation of its own; object 4 is another root, of
    one level, for the same page. *)
Definition leaky_store (idnum generation : Z) : result PdfObject :=
  if idnum =? 1 then
    Ok (DictionaryObject
          (<["/Type" := NameObject "/Pages"]>
             (<["/Kids" := ArrayObject [IndirectObject 2 0; IndirectObject 3 0]]> ∅)))
  else if idnum =? 2 then
    Ok (DictionaryObject
          (<["/Type" := NameObject "/Pages"]>
             (<["/Rotate" := NumberObject 90]>
                (<["/Kids" := ArrayObject []]> ∅))))
  else if idnum =? 3 then
    Ok (DictionaryObject
          (<["/Type" := NameObject "/Page"]>
             (<["/MediaBox" := Text.letter_box]> ∅)))
  else if idnum =? 4 then
    Ok (DictionaryObject
          (<["/Type" := NameObject "/Pages"]>
             (<["/Rotate" := NumberObject 180]>
                (<["/Kids" := ArrayObject [IndirectObject 3 0]]> ∅))))
  else Raise AttributeError.

Definition leaky_layer : ObjectLayer := Generic.layer leaky_store.



End PageTree.

Module Outline.

(** The read-only properties of a [Destination]: [self.get(key)]. *)
Definition title (self : Destination.t) : option PdfObject := self !! "/Title".
Definition page (self : Destination.t) : option PdfObject := self !! "/Page".
Definition typ (self : Destination.t) : option PdfObject := self !! "/Type".
Definition zoom (self : Destination.t) : option PdfObject := self !! "/Zoom".
Definition left (self : Destination.t) : option PdfObject := self !! "/Left".
Definition right (self : Destination.t) : option PdfObject := self !! "/Right".
Definition top (self : Destination.t) : option PdfObject := self !! "/Top".
Definition bottom (self : Destination.t) : option PdfObject := self !! "/Bottom".

(** [_buildDestination(self, title, array)] for an array:
    [page, typ = array[0:2]] needs two elements. *)
Definition _buildDestination (title : PdfObject) (array : list PdfObject)
  : result Destination.t :=
  match take 2 array with
  | [page; typ] => Destination.__init__ title page typ (drop 2 array)
  | _ => Raise ValueError
  end.

End Outline.

(** * Theorems *)

(** The fit types written with a slash throughout in the constructor are
    accepted with the operands of the table. *)
Lemma Destination_slash_types_accepted (title page : PdfObject) (typ : string)
    (args : list PdfObject) (n : nat) :
  typ ∈ ["/XYZ"; "/FitR"; "/FitH"; "/FitV"; "/Fit"]%string ->
  Destination.tail_operands typ = Some n ->
  length args = n ->
  Destination.succeeds
    (Destination.__init__ title page (NameObject typ) args) = true.
Proof.
  intros Hin Htab Hlen.
  repeat (apply elem_of_cons in Hin as [-> | Hin]);
    try (apply elem_of_nil in Hin; contradiction);
    cbn in Htab; injection Htab as <-;
    repeat (destruct args as [| ? args]; try discriminate Hlen);
    reflexivity.
Qed.

(** C2 (code defect): the fit types [/FitB], [/FitBH] and [/FitBV] of the
    table, given exactly their tail operands, are refused with the
    malformed-PDF error, because the constructor compares against
    ["FitB"], ["FitBH"] and ["FitBV"] without the leading slash; the
    unprefixed spellings, which are outside the set, are accepted. *)
Theorem C2_FitB_family_rejected (title page top left : PdfObject) :
  Destination.__init__ title page (NameObject "/FitB") []
    = Raise (PdfReadError "Unknown Destination Type")
  /\ Destination.__init__ title page (NameObject "/FitBH") [top]
    = Raise (PdfReadError "Unknown Destination Type")
  /\ Destination.__init__ title page (NameObject "/FitBV") [left]
    = Raise (PdfReadError "Unknown Destination Type")
  /\ Destination.tail_operands "/FitB" = Some 0%nat
  /\ Destination.tail_operands "FitB" = None
  /\ Destination.succeeds
       (Destination.__init__ title page (NameObject "FitB") []) = true.
Proof. repeat split; reflexivity. Qed.

(** *** The trailer merge *)

Lemma setdefault_lookup {V} (key k : string) (value : V) (d : gmap string V) :
  setdefault key value d !! k
  = match d !! k with
    | Some v => Some v
    | None => if decide (key = k) then Some value else None
    end.
Proof.
  unfold setdefault. destruct (d !! key) as [w|] eqn:Hkey.
  - destruct (d !! k) eqn:Hk; [done|].
    case_decide; [congruence | done].
  - rewrite lookup_insert. case_decide as Heq.
    + subst k. by rewrite Hkey.
    + by destruct (d !! k).
Qed.

Lemma merge_classic_lookup (newTrailer trailer : gmap string PdfObject) (k : string) :
  Reader.merge_classic newTrailer trailer !! k
  = match trailer !! k with
    | Some v => Some v
    | None => newTrailer !! k
    end.
Proof.
  unfold Reader.merge_classic.
  induction newTrailer as [| key value m Hfresh Hfold IH] using map_first_key_ind.
  - rewrite map_fold_empty. by destruct (trailer !! k).
  - rewrite map_fold_insert_first_key by done.
    rewrite setdefault_lookup, IH.
    destruct (trailer !! k) as [v|]; [done|].
    rewrite lookup_insert. case_decide as Heq.
    + subst k. by rewrite Hfresh.
    + by destruct (m !! k).
Qed.

Lemma merge_keys_lookup (keys : list string)
    (xrefstream trailer : gmap string PdfObject) (k : string) :
  foldl (fun t key =>
           match xrefstream !! key, t !! key with
           | Some raw, None => <[key := raw]> t
           | _, _ => t
           end) trailer keys !! k
  = match trailer !! k with
    | Some v => Some v
    | None => if bool_decide (k ∈ keys) then xrefstream !! k else None
    end.
Proof.
  revert trailer. induction keys as [| key keys IH]; intros trailer; simpl.
  - by destruct (trailer !! k).
  - rewrite IH. clear IH.
    destruct (decide (k = key)) as [-> | Hne].
    + rewrite (bool_decide_eq_true_2 (key ∈ key :: keys)) by apply list_elem_of_here.
      destruct (xrefstream !! key) as [raw|] eqn:Hx, (trailer !! key) as [v|] eqn:Ht;
        rewrite ?lookup_insert_eq, ?Ht; try done.
      destruct (bool_decide (key ∈ keys)); done.
    + assert (bool_decide (k ∈ key :: keys) = bool_decide (k ∈ keys)) as ->.
      { apply bool_decide_ext. rewrite elem_of_cons.
        split; [intros [Heq | Hin]; [contradiction | exact Hin] | by right]. }
      destruct (xrefstream !! key) as [raw|], (trailer !! key) as [v|];
        rewrite ?lookup_insert_ne by done; done.
Qed.

Lemma merge_xrefstream_lookup (xrefstream trailer : gmap string PdfObject) (k : string) :
  Reader.merge_xrefstream xrefstream trailer !! k
  = match trailer !! k with
    | Some v => Some v
    | None => Reader.offers (Reader.XRefStream xrefstream) k
    end.
Proof. apply merge_keys_lookup. Qed.

(** Reading on from a trailer already merged: what is there stays, and
    the sections still to come fill the keys not yet present, the first
    one that offers a key giving its value. *)
Lemma read_xrefs_follows xref_at startxref chain :
  Reader.follows xref_at startxref chain ->
  forall (fuel : nat) (trailer : gmap string PdfObject),
    (length chain <= fuel)%nat ->
    exists merged,
      Reader.read_xrefs fuel xref_at startxref trailer = Ok merged
      /\ forall k, merged !! k
                   = match trailer !! k with
                     | Some v => Some v
                     | None => Reader.first_occurrence k chain
                     end.
Proof.
  induction 1 as [s d Hat Hprev | s d prev chain Hat Hprev _ IH
                 | s d ty Hat Hty Hxref Hprev
                 | s d ty prev chain Hat Hty Hxref Hprev _ IH
                 | s loc chain Hat _ IH];
    intros [| fuel] trailer Hfuel; simpl in Hfuel; try lia;
    simpl; rewrite Hat; rewrite ?Hty, ?Hxref, ?Hprev; simpl.
  - eexists; split; [reflexivity|]. intros k.
    rewrite merge_classic_lookup. by destruct (trailer !! k), (d !! k).
  - destruct (IH fuel (Reader.merge_classic d trailer)) as (m & -> & Hm); [lia|].
    eexists; split; [reflexivity|]. intros k.
    rewrite Hm, merge_classic_lookup. by destruct (trailer !! k), (d !! k).
  - eexists; split; [reflexivity|]. intros k.
    rewrite merge_xrefstream_lookup. simpl.
    destruct (trailer !! k); [done|]. by case_bool_decide; [destruct (d !! k)|].
  - destruct (IH fuel (Reader.merge_xrefstream d trailer)) as (m & -> & Hm); [lia|].
    eexists; split; [reflexivity|]. intros k.
    rewrite Hm, merge_xrefstream_lookup. simpl.
    destruct (trailer !! k); [done|]. by case_bool_decide; [destruct (d !! k)|].
  - destruct (IH fuel trailer) as (m & -> & Hm); [lia|].
    eexists; split; [reflexivity|]. done.
Qed.

(** C1: reading a document whose [/Prev] chain, followed from the tail of
    the file, consists of the sections [chain], [read] returns, and for
    every key the merged trailer holds the value of the earliest-read
    section that offers it: a classical table offers every key of its
    trailer, a cross-reference stream only [/Root], [/Encrypt], [/Info]
    and [/ID]; a section read later contributes only keys not yet
    present. *)
Theorem C1_trailer_first_occurrence_wins
    (xref_at : Z -> Reader.XrefSection) (startxref : Z)
    (chain : list Reader.XrefSection) (fuel : nat) :
  Reader.follows xref_at startxref chain ->
  (length chain <= fuel)%nat ->
  exists merged : gmap string PdfObject,
    Reader.read_xrefs fuel xref_at startxref ∅ = Ok merged
    /\ forall key, merged !! key = Reader.first_occurrence key chain.
Proof.
  intros Hchain Hfuel.
  destruct (read_xrefs_follows _ _ _ Hchain fuel ∅ Hfuel) as (m & Hm & Hk).
  exists m. split; [done|]. intros k. rewrite Hk. by rewrite lookup_empty.
Qed.

Lemma C1_trailer_first_occurrence_wins_witness :
  exists merged : gmap string PdfObject,
    Reader.read_xrefs 2 Examples.xref_at 900 ∅ = Ok merged
    /\ forall key,
         merged !! key
         = Reader.first_occurrence key
             [Reader.ClassicTable Examples.trailer_900;
              Reader.XRefStream Examples.xrefstream_100].
Proof.
  apply (C1_trailer_first_occurrence_wins Examples.xref_at 900
           [Reader.ClassicTable Examples.trailer_900;
            Reader.XRefStream Examples.xrefstream_100] 2).
  - apply (Reader.follows_classic_prev _ 900 Examples.trailer_900 100);
      [reflexivity | reflexivity |].
    apply (Reader.follows_stream_last _ 100 Examples.xrefstream_100
             (NameObject "/XRef")); reflexivity.
  - simpl. lia.
Defined.

(** The tail-most trailer keeps [/Root] and [/Size]; the stream read
    after it adds [/Info], and not its [/Size]. *)
Example two_revisions_merged :
  exists merged : gmap string PdfObject,
    Reader.read_xrefs 2 Examples.xref_at 900 ∅ = Ok merged
    /\ merged !! "/Root" = Some (IndirectObject 1 0)
    /\ merged !! "/Info" = Some (IndirectObject 3 0)
    /\ merged !! "/Size" = Some (NumberObject 10).
Proof. eexists. split; [reflexivity|]. vm_compute. auto. Qed.

(** *** The security handler *)

Section SecurityTheorems.
Context `{Primitives}.

Lemma authenticate_ignores_switch self b password :
  Reader._authenticateUserPassword (Reader.set_override self b) password
  = Reader._authenticateUserPassword self password.
Proof. reflexivity. Qed.

(** With the entries of a revision the handler knows, authentication
    returns. *)
Lemma authenticate_returns self encrypt password :
  Reader.Encrypt self = Some encrypt ->
  Reader.R encrypt = 2
  \/ (3 <= Reader.R encrypt /\ is_Some (Reader.Length encrypt)) ->
  exists ok key, Reader._authenticateUserPassword self password = Ok (ok, key).
Proof.
  intros He Hrev.
  unfold Reader._authenticateUserPassword, Reader.trailer_Encrypt.
  rewrite He. simpl.
  destruct Hrev as [-> | [Hge [l Hl]]]; simpl.
  - destruct (_alg34 _ _ _ _); eauto.
  - destruct (Reader.R encrypt =? 2) eqn:E2.
    + destruct (_alg34 _ _ _ _); eauto.
    + assert ((Reader.R encrypt >=? 3) = true) as -> by lia.
      unfold Reader.getLength. rewrite Hl. simpl.
      destruct (_alg35 _ _ _ _ _ _ _); eauto.
Qed.

Lemma recover_returns encrypt password :
  Reader.R encrypt = 2
  \/ (3 <= Reader.R encrypt /\ is_Some (Reader.Length encrypt)) ->
  exists userpass, Reader.recover_userpass encrypt password = Ok userpass.
Proof.
  intros Hrev. unfold Reader.recover_userpass.
  destruct Hrev as [-> | [Hge [l Hl]]]; simpl; [eauto|].
  destruct (Reader.R encrypt =? 2) eqn:E2; simpl; [eauto|].
  unfold Reader.getLength. rewrite Hl. simpl. eauto.
Qed.

(** C3, amended: for a document of the Standard handler with V in
    {1, 2} whose revision is 2, or is 3 or more with [/Length] present,
    [decrypt(password)] returns; it returns 1 exactly when the password
    authenticates as the user password, 2 exactly when it does not and
    the user password recovered from [/O], the candidate taken as
    owner password, authenticates, and 0 otherwise; after 1 or 2 the
    derived key is the decryption key, after 0 the key attribute is as
    before; the override switch is off again. *)
Theorem C3_decrypt_return_codes (self : Reader.PdfFileReader)
    (encrypt : Reader.EncryptDict) (password : bytes) :
  Reader.Encrypt self = Some encrypt ->
  eq_str (Reader.Filter encrypt) "/Standard" = true ->
  Reader.V encrypt = 1 \/ Reader.V encrypt = 2 ->
  Reader.R encrypt = 2
  \/ (3 <= Reader.R encrypt /\ is_Some (Reader.Length encrypt)) ->
  exists (code : Z) (self' : Reader.PdfFileReader) (userpass : bytes),
    Reader.decrypt self password = (Ok code, self')
    /\ Reader.recover_userpass encrypt password = Ok userpass
    /\ Reader._override_encryption self' = false
    /\ (code = 1 <-> exists key, Reader.authenticates self password key)
    /\ (code = 2 <->
        (~ exists key, Reader.authenticates self password key)
        /\ exists key, Reader.authenticates self userpass key)
    /\ (code = 0 <->
        (~ exists key, Reader.authenticates self password key)
        /\ ~ exists key, Reader.authenticates self userpass key)
    /\ (forall key, Reader.authenticates self password key ->
          Reader._decryption_key self' = Some key)
    /\ (forall key, code = 2 -> Reader.authenticates self userpass key ->
          Reader._decryption_key self' = Some key)
    /\ (code = 0 ->
          Reader._decryption_key self' = Reader._decryption_key self).
Proof.
  intros He Hfilter HV Hrev.
  destruct (authenticate_returns self encrypt password He Hrev) as (ok1 & k1 & H1).
  destruct (recover_returns encrypt password Hrev) as (userpass & Hu).
  destruct (authenticate_returns self encrypt userpass He Hrev) as (ok2 & k2 & H2).
  assert (HVb : ((Reader.V encrypt =? 1) || (Reader.V encrypt =? 2)) = true)
    by (destruct HV as [-> | ->]; reflexivity).
  unfold Reader.decrypt, Reader._decrypt, Reader.trailer_Encrypt,
    Reader.authenticates.
  simpl. rewrite He. simpl. rewrite Hfilter, HVb. simpl.
  rewrite !authenticate_ignores_switch, H1. simpl.
  destruct ok1.
  - exists 1, (Reader.set_override
                 (Reader.set_decryption_key (Reader.set_override self true) k1)
                 false), userpass.
    split_and!; try done.
    + split; [eauto | done].
    + split; [done | intros [Hno _]; exfalso; eauto].
    + split; [done | intros [Hno _]; exfalso; eauto].
    + intros key Hk. simpl. congruence.
  - rewrite Hu. simpl. rewrite !authenticate_ignores_switch, H2. simpl.
    destruct ok2.
    + exists 2, (Reader.set_override
                   (Reader.set_decryption_key (Reader.set_override self true) k2)
                   false), userpass.
      split_and!; try done.
      * split; [done | intros [key Hk]; congruence].
      * split; [intros _; split; [intros [key Hk]; congruence | eauto] | done].
      * split; [done | intros [_ Hno]; exfalso; eauto].
      * intros key _ Hk. simpl. congruence.
    + exists 0, (Reader.set_override (Reader.set_override self true) false), userpass.
      split_and!; try done.
      * split; [done | intros [key Hk]; congruence].
      * split; [done | intros [_ [key Hk]]; congruence].
      * split; [intros _; split; intros [key Hk]; congruence | done].
Qed.

End SecurityTheorems.

(** Scenario S4 on the stand-in algorithms. *)
Example S4_user_password :
  fst (Reader.decrypt Examples.reader_S4 (b_ "foo")) = Ok 1.
Proof. vm_compute. reflexivity. Qed.

Example S4_owner_password :
  fst (Reader.decrypt Examples.reader_S4 (b_ "bar")) = Ok 2.
Proof. vm_compute. reflexivity. Qed.

Example S4_wrong_password :
  Reader.decrypt Examples.reader_S4 (b_ "baz") = (Ok 0, Examples.reader_S4).
Proof. vm_compute. reflexivity. Qed.

Lemma C3_decrypt_return_codes_witness :
  exists (code : Z) (self' : Reader.PdfFileReader) (userpass : bytes),
    Reader.decrypt Examples.reader_S4 (b_ "bar") = (Ok code, self')
    /\ Reader.recover_userpass Examples.encrypt_S4 (b_ "bar") = Ok userpass
    /\ Reader._override_encryption self' = false
    /\ (code = 1 <->
        exists key, Reader.authenticates Examples.reader_S4 (b_ "bar") key)
    /\ (code = 2 <->
        (~ exists key, Reader.authenticates Examples.reader_S4 (b_ "bar") key)
        /\ exists key, Reader.authenticates Examples.reader_S4 userpass key)
    /\ (code = 0 <->
        (~ exists key, Reader.authenticates Examples.reader_S4 (b_ "bar") key)
        /\ ~ exists key, Reader.authenticates Examples.reader_S4 userpass key)
    /\ (forall key, Reader.authenticates Examples.reader_S4 (b_ "bar") key ->
          Reader._decryption_key self' = Some key)
    /\ (forall key, code = 2 ->
          Reader.authenticates Examples.reader_S4 userpass key ->
          Reader._decryption_key self' = Some key)
    /\ (code = 0 ->
          Reader._decryption_key self'
          = Reader._decryption_key Examples.reader_S4).
Proof.
  apply (C3_decrypt_return_codes Examples.reader_S4 Examples.encrypt_S4 (b_ "bar")).
  - reflexivity.
  - reflexivity.
  - right. reflexivity.
  - right. split; [simpl; lia | eexists; reflexivity].
Defined.

(** C3 as stated fails: a document of the Standard handler with V=1 and
    R=3 carries no [/Length], and [decrypt] raises [KeyError] where the
    claim has it return a code. *)
Lemma C3_counterexample_no_length :
  eq_str (Reader.Filter Examples.encrypt_no_length) "/Standard" = true
  /\ Reader.V Examples.encrypt_no_length = 1
  /\ fst (Reader.decrypt Examples.reader_no_length (b_ "foo"))
     = Raise (KeyError "/Length")
  /\ ~ exists code : Z,
         fst (Reader.decrypt Examples.reader_no_length (b_ "foo")) = Ok code.
Proof.
  split_and!; try reflexivity.
  intros [code Hcode]. vm_compute in Hcode. discriminate Hcode.
Qed.

(** *** The per-object key *)

Lemma pack_i_low (n : Z) :
  - 2 ^ 31 <= n < 2 ^ 31 ->
  exists packed, pack_i n = Ok packed
                 /\ take 3 packed = low_bytes 3 n
                 /\ take 2 packed = low_bytes 2 n
                 /\ length packed = 4%nat.
Proof.
  intros Hn. unfold pack_i.
  assert (((- 2 ^ 31 <=? n) && (n <? 2 ^ 31)) = true) as -> by lia.
  eexists. split; [reflexivity|].
  rewrite !Z.shiftr_div_pow2 by lia.
  change (2 ^ 8) with 256. change (2 ^ 16) with (256 * 256).
  rewrite <- (Z.div_div n 256 256) by lia.
  split_and!; reflexivity.
Qed.

Section KeyTheorems.
Context `{Primitives}.

Lemma reader_object_key (K : bytes) (idnum generation : Z) :
  - 2 ^ 31 <= idnum < 2 ^ 31 ->
  - 2 ^ 31 <= generation < 2 ^ 31 ->
  Reader.object_key K idnum generation = Ok (per_object_key K idnum generation).
Proof.
  intros Hid Hgen. unfold Reader.object_key, per_object_key.
  destruct (pack_i_low idnum Hid) as (p1 & -> & H3 & _ & _).
  destruct (pack_i_low generation Hgen) as (p2 & -> & _ & H2 & _).
  simpl. rewrite H3, H2.
  assert ((length (K ++ low_bytes 3 idnum ++ low_bytes 2 generation)
           =? length K + 5)%nat = true) as ->.
  { apply Nat.eqb_eq. rewrite !length_app. simpl. lia. }
  reflexivity.
Qed.

(** C8: for an object [(idnum, generation)] read from an encrypted
    document whose key is [K], and for the object written at index [i]
    (id [i + 1], generation 0) by a writer that encrypts with [K], the
    key used is the digest of [K] followed by the low three bytes of
    the id and the low two bytes of the generation, least significant
    first, cut to [min(16, len(K) + 5)] bytes: the reader deciphers
    the object with it, and the writer hands it to the serialization of
    every object but the encryption dictionary.  Ids and generations
    are 32-bit integers, as [struct.pack] requires. *)
Theorem C8_per_object_key (K : bytes) (idnum generation : Z)
    (self : Reader.PdfFileReader) (retval : PdfObject)
    (writer : Writer.PdfFileWriter) (i : nat) (encrypt_idnum : Z) :
  - 2 ^ 31 <= idnum < 2 ^ 31 ->
  - 2 ^ 31 <= generation < 2 ^ 31 ->
  Reader._override_encryption self = false ->
  Reader.getIsEncrypted self = true ->
  Reader._decryption_key self = Some K ->
  Z.of_nat i + 1 < 2 ^ 31 ->
  Writer._encrypt writer = Some encrypt_idnum ->
  Writer._encrypt_key writer = K ->
  Z.of_nat i + 1 <> encrypt_idnum ->
  Reader.object_key K idnum generation = Ok (per_object_key K idnum generation)
  /\ Reader.getObject_decrypt self idnum generation retval
     = Ok (Reader._decryptObject retval (per_object_key K idnum generation))
  /\ Writer.object_key writer i = Ok (Some (per_object_key K (Z.of_nat i + 1) 0)).
Proof.
  intros Hid Hgen Hsw Henc Hkey Hi Hwe Hwk Hne.
  split; [by apply reader_object_key|]. split.
  - unfold Reader.getObject_decrypt.
    rewrite Hsw, Henc, Hkey. simpl.
    by rewrite reader_object_key.
  - unfold Writer.object_key. rewrite Hwe, Hwk.
    assert (negb (Z.of_nat i + 1 =? encrypt_idnum) = true) as -> by lia.
    pose proof (reader_object_key K (Z.of_nat i + 1) 0) as Hk.
    unfold Reader.object_key in Hk.
    destruct (pack_i (Z.of_nat i + 1)) as [p1 | e |] eqn:Hp1; simpl in *;
      [| assert (Hbad : Raise e = Ok (per_object_key K (Z.of_nat i + 1) 0))
           by (apply Hk; lia); discriminate Hbad
       | assert (Hbad : OutOfFuel = Ok (per_object_key K (Z.of_nat i + 1) 0))
           by (apply Hk; lia); discriminate Hbad].
    specialize (Hk ltac:(lia) ltac:(lia)).
    destruct (negb _); [discriminate Hk|].
    by injection Hk as ->.
Qed.

End KeyTheorems.

Lemma C8_per_object_key_witness :
  Reader.object_key Examples.document_key 7 0
  = Ok (per_object_key Examples.document_key 7 0)
  /\ Reader.getObject_decrypt Examples.reader_decrypted 7 0
       (ByteStringObject (b_ "secret"))
     = Ok (Reader._decryptObject (ByteStringObject (b_ "secret"))
             (per_object_key Examples.document_key 7 0))
  /\ Writer.object_key Examples.writer_encrypted 2
     = Ok (Some (per_object_key Examples.document_key (Z.of_nat 2 + 1) 0)).
Proof.
  apply (C8_per_object_key Examples.document_key 7 0 Examples.reader_decrypted
           (ByteStringObject (b_ "secret")) Examples.writer_encrypted 2 4);
    try reflexivity; try (simpl; lia).
Defined.

(** The encryption dictionary itself is written in the clear. *)
Example encrypt_dictionary_not_rekeyed :
  Writer.object_key Examples.writer_encrypted 3 = Ok None.
Proof. reflexivity. Qed.

(** *** The cross-reference table of the writer *)




Section WriteTheorems.
Context `{Primitives} `{ObjectLayer}.





End WriteTheorems.


(** The file written by a fresh writer, which owns three objects. *)
Example fresh_writer_output :
  exists out,
    Writer.write Examples.writer0 [] = Ok (out, [9; 62; 142], 191)
    /\ drop 191 out
       = b_ "xref" ++ [LF] ++ b_ "0 4" ++ [LF]
           ++ b_ "0000000000 65535 f " ++ [LF]
           ++ b_ "0000000009 00000 n " ++ [LF]
           ++ b_ "0000000062 00000 n " ++ [LF]
           ++ b_ "0000000142 00000 n " ++ [LF]
           ++ b_ "trailer" ++ [LF]
           ++ writeToStream (Writer.trailer_dict Examples.writer0) None
           ++ [LF] ++ b_ "startxref" ++ [LF] ++ b_ "191" ++ [LF]
           ++ b_ "%%EOF" ++ [LF].
Proof. eexists. split; vm_compute; reflexivity. Qed.


(** *** The page tree of the writer *)

Lemma bind_Ok {A B} (r : result A) (k : A -> result B) (b : B) :
  r ≫= k = Ok b -> exists a, r = Ok a /\ k a = Ok b.
Proof. destruct r; simpl; [eauto | discriminate | discriminate]. Qed.

(** Take a hypothesis [H : r ≫= k = Ok b] apart, again and again. *)
Ltac inv_bind H :=
  let a := fresh "a" in
  let Ha := fresh "Ha" in
  apply bind_Ok in H as (a & Ha & H); simpl in H.

Lemma list_insert_at_length {A} (l : list A) (index : Z) (x : A) :
  length (list_insert_at l index x) = S (length l).
Proof.
  unfold list_insert_at. rewrite length_app. simpl.
  rewrite length_take, length_drop. lia.
Qed.

Lemma list_insert_at_Forall {A} (P : A -> Prop) (l : list A) (index : Z) (x : A) :
  Forall P l -> P x -> Forall P (list_insert_at l index x).
Proof.
  intros Hl Hx. unfold list_insert_at.
  apply Forall_app. split; [by apply Forall_take|].
  constructor; [done | by apply Forall_drop].
Qed.

Lemma list_index_elem {A} (l : list A) (index : Z) (x : A) :
  list_index l index = Ok x -> x ∈ l.
Proof.
  unfold list_index. destruct (_ || _); [discriminate|].
  destruct (l !! _) eqn:E; [|discriminate].
  intros [= <-]. by eapply list_elem_of_lookup_2.
Qed.

Lemma list_index_head {A} (x : A) (l : list A) : list_index (x :: l) 0 = Ok x.
Proof.
  unfold list_index. change (0 <? 0) with false. cbv iota.
  destruct (_ || _) eqn:E; [|reflexivity].
  apply orb_true_iff in E as [E | E]; [discriminate E|].
  apply Z.leb_le in E. rewrite length_cons in E. lia.
Qed.

Section PageTreeTheorems.
Context `{Primitives} `{ObjectLayer} `{Numbers}.

Lemma page_tree_root self kids :
  Writer.page_tree self kids ->
  exists root,
    Writer.pages_root self = Ok root
    /\ root !! "/Kids" = Some (ArrayObject kids)
    /\ root !! "/Count" = Some (NumberObject (Z.of_nat (length kids))).
Proof.
  intros (root & others & Hobjs & Hkids & Hcount & _).
  exists root. split; [|done].
  unfold Writer.pages_root, Writer.getObject, Writer._pages.
  rewrite Hobjs. change (1 - 1) with 0. rewrite list_index_head. reflexivity.
Qed.

Lemma page_tree_getNumPages self kids :
  Writer.page_tree self kids ->
  Writer.getNumPages self = Ok (Z.of_nat (length kids)).
Proof.
  intros Ht. destruct (page_tree_root self kids Ht) as (root & Hr & _ & Hcount).
  unfold Writer.getNumPages. rewrite Hr. simpl.
  unfold dict_getitem, getitem. rewrite Hcount. reflexivity.
Qed.

(** [_addPage] adds one kid, by [action], and one to [/Count]. *)
Lemma _addPage_page_tree self kids page action self' :
  (forall l p, length (action l p) = S (length l)) ->
  (forall (P : PdfObject -> Prop) l p, Forall P l -> P p -> Forall P (action l p)) ->
  Writer.page_tree self kids ->
  Writer._addPage self page action = Ok self' ->
  exists kids', Writer.page_tree self' kids' /\ length kids' = S (length kids).
Proof.
  intros Hlen Hall (root & others & Hobjs & Hkids & Hcount & Hrefs) Hadd.
  unfold Writer._addPage in Hadd.
  inv_bind Hadd. destruct (negb _); [discriminate|].
  unfold Writer._addObject, Writer.pages_root, Writer.getObject, Writer._pages,
    Writer.with_objects in Hadd.
  cbn [Writer._objects] in Hadd. rewrite Hobjs in Hadd.
  change (1 - 1) with 0 in Hadd. rewrite <- app_comm_cons, list_index_head in Hadd.
  simpl in Hadd. unfold getitem in Hadd. rewrite Hkids in Hadd. simpl in Hadd.
  unfold dict_getitem, getitem in Hadd.
  rewrite lookup_insert_ne in Hadd by done. rewrite Hcount in Hadd.
  simpl in Hadd. injection Hadd as <-.
  eexists. split; [|apply Hlen].
  eexists _, _. cbn [Writer._objects]. split; [reflexivity|].
  split; [rewrite lookup_insert_ne by done; apply lookup_insert_eq|].
  split.
  - rewrite lookup_insert_eq, Hlen. do 2 f_equal. lia.
  - apply Hall.
    + eapply Forall_impl; [exact Hrefs|].
      intros kid (idnum & -> & Hid). exists idnum. split; [done|].
      rewrite Hobjs in Hid. rewrite !length_cons, length_app in *. lia.
    + eexists. split; [reflexivity|]. rewrite !length_cons, length_app.
      simpl. lia.
Qed.

Lemma getPage_owned self kids pageNumber idnum page :
  Writer.page_tree self kids ->
  Writer.getPage self pageNumber = Ok (idnum, page) ->
  1 < idnum.
Proof.
  intros Ht Hget.
  destruct (page_tree_root self kids Ht) as (root & Hr & Hkids & _).
  destruct Ht as (_ & _ & _ & _ & _ & Hrefs).
  unfold Writer.getPage in Hget. rewrite Hr in Hget. simpl in Hget.
  unfold dict_getitem, getitem in Hget. rewrite Hkids in Hget. simpl in Hget.
  inv_bind Hget. inv_bind Hget.
  apply list_index_elem in Ha.
  rewrite Forall_forall in Hrefs. destruct (Hrefs _ Ha) as (id' & -> & Hid).
  destruct a0 as [obj|]; [|discriminate].
  inv_bind Hget. injection Hget as <- _. lia.
Qed.

(** Reading the size of an owned page leaves the page tree as it is. *)
Lemma page_size_page_tree self kids pageNumber width height self' :
  Writer.page_tree self kids ->
  Writer.page_size self pageNumber = Ok (width, height, self') ->
  Writer.page_tree self' kids.
Proof.
  intros Ht Hsize. unfold Writer.page_size in Hsize.
  inv_bind Hsize. destruct a as [idnum page].
  pose proof (getPage_owned _ _ _ _ _ Ht Ha) as Hid.
  inv_bind Hsize. destruct a as [box page1].
  inv_bind Hsize. inv_bind Hsize. destruct a0 as [box2 page2].
  inv_bind Hsize. injection Hsize as _ _ <-.
  destruct Ht as (root & others & Hobjs & Hkids & Hcount & Hrefs).
  exists root, (<[Z.to_nat (idnum - 1 - 1) := Some (DictionaryObject page2)]> others).
  cbn [Writer._objects Writer.with_objects]. rewrite Hobjs.
  replace (Z.to_nat (idnum - 1)) with (S (Z.to_nat (idnum - 1 - 1))) by lia.
  split; [reflexivity|]. split; [done|]. split; [done|].
  eapply Forall_impl; [exact Hrefs|].
  intros kid (id' & -> & Hid'). exists id'. split; [done|].
  rewrite Hobjs in Hid'. rewrite length_insert. exact Hid'.
Qed.

Lemma createBlankPage_page_tree self kids width height page self' :
  Writer.page_tree self kids ->
  Writer.createBlankPage self width height = Ok (page, self') ->
  Writer.page_tree self' kids.
Proof.
  intros Ht Hnew. unfold Writer.createBlankPage in Hnew.
  inv_bind Hnew. destruct a as [[w h] self1].
  simpl in Hnew. injection Hnew as _ <-.
  destruct width as [w0|], height as [h0|]; simplify_eq; try done;
    inv_bind Ha; (destruct (0 <? a); [|discriminate]);
    by eapply page_size_page_tree.
Qed.

(** Every call that returns adds exactly one kid and keeps the tree. *)
Lemma call_page_tree self kids c self' :
  Writer.page_tree self kids ->
  Writer.call self c = Ok self' ->
  exists kids', Writer.page_tree self' kids' /\ length kids' = S (length kids).
Proof.
  intros Ht Hcall.
  assert (Happend : forall (l : list PdfObject) p, length (l ++ [p]) = S (length l))
    by (intros; rewrite length_app; simpl; lia).
  assert (Happend' : forall (P : PdfObject -> Prop) l p,
             Forall P l -> P p -> Forall P (l ++ [p]))
    by (intros; apply Forall_app; split; [done | by constructor]).
  destruct c as [page | page index | width height | width height index];
    simpl in Hcall.
  - eapply (_addPage_page_tree self kids page);
      [exact Happend | exact Happend' | exact Ht | exact Hcall].
  - eapply (_addPage_page_tree self kids page); [| | done | exact Hcall].
    + intros. apply list_insert_at_length.
    + intros. by apply list_insert_at_Forall.
  - unfold Writer.addBlankPage in Hcall. inv_bind Hcall. destruct a as [page self1].
    eapply (_addPage_page_tree self1 kids page);
      [exact Happend | exact Happend' | | exact Hcall].
    by eapply createBlankPage_page_tree.
  - unfold Writer.insertBlankPage in Hcall.
    inv_bind Hcall. inv_bind Hcall. destruct a0 as [[w h] self1].
    inv_bind Hcall. destruct a0 as [page self2].
    eapply (_addPage_page_tree self2 kids page); [| | | exact Hcall].
    + intros. apply list_insert_at_length.
    + intros. by apply list_insert_at_Forall.
    + eapply createBlankPage_page_tree; [|exact Ha1].
      destruct a.
      * inv_bind Ha0. destruct a as [[w1 h1] self3].
        injection Ha0 as _ _ <-. by eapply page_size_page_tree.
      * by injection Ha0 as _ _ <-.
Qed.

Lemma init_page_tree : Writer.page_tree Writer.__init__ [].
Proof.
  eexists _, _. split; [reflexivity|].
  split; [rewrite lookup_insert_ne by done; rewrite lookup_insert_ne by done;
          apply lookup_insert_eq|].
  split; [rewrite lookup_insert_ne by done; apply lookup_insert_eq|].
  constructor.
Qed.

Lemma calls_page_tree cs : forall self kids self',
  Writer.page_tree self kids ->
  Writer.calls self cs = Ok self' ->
  exists kids', Writer.page_tree self' kids'
                /\ length kids' = (length kids + length cs)%nat.
Proof.
  induction cs as [| c cs IH]; intros self kids self' Ht Hrun; simpl in Hrun.
  - injection Hrun as <-. exists kids. split; [done | simpl; lia].
  - inv_bind Hrun.
    destruct (call_page_tree _ _ _ _ Ht Ha) as (kids1 & Ht1 & Hlen1).
    destruct (IH _ _ _ Ht1 Hrun) as (kids2 & Ht2 & Hlen2).
    exists kids2. split; [done | simpl; lia].
Qed.

(** C10: after any sequence of [addPage], [insertPage], [addBlankPage]
    and [insertBlankPage] calls on a new writer, each of which returned,
    the [/Count] of the pages root equals the number of elements of its
    [/Kids] array, which is the number of calls, and [getNumPages]
    returns that number. *)
Theorem C10_count_equals_kids (cs : list Writer.Call) (self : Writer.PdfFileWriter) :
  Writer.calls Writer.__init__ cs = Ok self ->
  exists (root : gmap string PdfObject) (kids : list PdfObject),
    Writer.pages_root self = Ok root
    /\ root !! "/Kids" = Some (ArrayObject kids)
    /\ root !! "/Count" = Some (NumberObject (Z.of_nat (length kids)))
    /\ length kids = length cs
    /\ Writer.getNumPages self = Ok (Z.of_nat (length kids)).
Proof.
  intros Hrun.
  destruct (calls_page_tree cs _ _ _ init_page_tree Hrun) as (kids & Ht & Hlen).
  destruct (page_tree_root _ _ Ht) as (root & Hroot & Hkids & Hcount).
  exists root, kids. split_and!; try done.
  by apply page_tree_getNumPages.
Qed.

End PageTreeTheorems.

Lemma C10_count_equals_kids_witness :
  exists (root : gmap string PdfObject) (kids : list PdfObject),
    Writer.pages_root Examples.writer_four = Ok root
    /\ root !! "/Kids" = Some (ArrayObject kids)
    /\ root !! "/Count" = Some (NumberObject (Z.of_nat (length kids)))
    /\ length kids = length Examples.four_calls
    /\ Writer.getNumPages Examples.writer_four = Ok (Z.of_nat (length kids)).
Proof.
  apply (C10_count_equals_kids Examples.four_calls Examples.writer_four).
  vm_compute. reflexivity.
Defined.

(** The kids after the four calls, by the ids the pages are owned
    under, and the count. *)
Example four_calls_kids :
  exists root,
    Writer.pages_root Examples.writer_four = Ok root
    /\ root !! "/Kids"
       = Some (ArrayObject [IndirectObject 5 0; IndirectObject 7 0;
                            IndirectObject 4 0; IndirectObject 6 0])
    /\ root !! "/Count" = Some (NumberObject 4).
Proof. eexists. split; [reflexivity|]. vm_compute. auto. Qed.

(** [list.insert] never fails: an index past the end appends, a negative
    one counts from the end. *)
Example insert_past_the_end : list_insert_at [1; 2; 3] 99 0 = [1; 2; 3; 0].
Proof. reflexivity. Qed.

Example insert_negative : list_insert_at [1; 2; 3] (-1) 0 = [1; 2; 0; 3].
Proof. reflexivity. Qed.

(** A blank page without a size on a writer without pages is refused,
    before anything is added. *)
Example blank_page_needs_a_size :
  Writer.addBlankPage Writer.__init__ None None = Raise PageSizeNotDefinedError.
Proof. reflexivity. Qed.

(** *** Merging resources *)

Section ResourceTheorems.
Context `{ObjectLayer}.





End ResourceTheorems.




(** *** scaleTo *)

Section ScaleTheorems.
Context `{ObjectLayer} `{Numbers}.

Lemma RectangleObject__rectangle (arr box : PdfObject) :
  RectangleObject_ arr = Ok box -> exists a b c d, box = RectangleObject a b c d.
Proof.
  unfold RectangleObject_. intros Hbox.
  destruct arr as [| | | | | | | [| ? [| ? [| ? [| ? [|]]]]] | | | | |];
    simplify_eq; eauto.
Qed.

(** Once read, the media box is a rectangle stored on the page, and
    reading it again changes nothing. *)
Lemma mediaBox_again (self self' : gmap string PdfObject) (box : PdfObject) :
  Rectangle.mediaBox self = Ok (box, self') ->
  Rectangle.mediaBox self' = Ok (box, self').
Proof.
  unfold Rectangle.mediaBox, Rectangle.getRectangle. intros Hbox.
  destruct (self !! "/MediaBox") as [found|] eqn:Hfound;
    [destruct found|];
    try (injection Hbox as <- <-; by rewrite Hfound);
    inv_bind Hbox; inv_bind Hbox; injection Hbox as <- <-;
    destruct (RectangleObject__rectangle _ _ Ha0) as (a1 & b1 & c1 & d1 & ->);
    rewrite lookup_insert_eq; reflexivity.
Qed.

(** C9: [scaleTo(width, height)] computes [sx] as [width] divided by the
    media box's upper-right x minus its lower-left x, and [sy] as
    [height] divided by the upper-right y minus, again, the lower-left
    x (not the lower-left y), and then applies [scale(sx, sy)]. *)
Theorem C9_scaleTo_uses_lower_left_x (fuel : nat)
    (self self' : gmap string PdfObject) (width height : number)
    (llx lly urx ury : PdfObject) (x0 x1 y1 : number) :
  Rectangle.mediaBox self = Ok (RectangleObject llx lly urx ury, self') ->
  number_of llx = Ok x0 ->
  number_of urx = Ok x1 ->
  number_of ury = Ok y1 ->
  PageObject.scaleTo fuel self width height
  = (dx ← sub x1 x0;
     sx ← div width dx;
     dy ← sub y1 x0;
     sy ← div height dy;
     PageObject.scale fuel self' sx sy).
Proof.
  intros Hbox Hllx Hurx Hury.
  pose proof (mediaBox_again _ _ _ Hbox) as Hagain.
  unfold PageObject.scaleTo, PageObject.corner_difference.
  rewrite Hbox. simpl. rewrite Hagain. simpl.
  rewrite Hurx, Hllx. simpl.
  destruct (sub x1 x0) as [dx | e |]; simpl; try reflexivity.
  destruct (div width dx) as [sx | e |]; simpl; try reflexivity.
  rewrite Hagain. simpl. rewrite Hagain. simpl.
  rewrite Hury, Hllx. simpl.
  destruct (sub y1 x0) as [dy | e |]; simpl; try reflexivity.
Qed.

End ScaleTheorems.

(** A page with media box [10 20 110 220] scaled to 200 by 400: the
    horizontal factor is 200 / (110 - 10) = 2, the vertical one
    400 / (220 - 10), a little over 1.9, where 400 / (220 - 20) would
    have been 2. *)
Example scaleTo_10_20 :
  exists page,
    PageObject.scaleTo 0 Examples.page_10_20 (200, 0%nat) (400, 0%nat) = Ok page
    /\ page !! "/MediaBox"
       = Some (RectangleObject (FloatObject "20") (FloatObject "38.095220")
                               (FloatObject "220") (FloatObject "419.047420")).
Proof. eexists. split; [reflexivity|]. vm_compute. reflexivity. Qed.

Lemma C9_scaleTo_uses_lower_left_x_witness :
  PageObject.scaleTo 0 Examples.page_10_20 (200, 0%nat) (400, 0%nat)
  = (dx ← sub (110, 0%nat) (10, 0%nat);
     sx ← div (200, 0%nat) dx;
     dy ← sub (220, 0%nat) (10, 0%nat);
     sy ← div (400, 0%nat) dy;
     PageObject.scale 0 Examples.page_10_20 sx sy).
Proof.
  apply (@C9_scaleTo_uses_lower_left_x Examples.layer0 Generic.numbers
           0 Examples.page_10_20 Examples.page_10_20
           (200, 0%nat) (400, 0%nat)
           (NumberObject 10) (NumberObject 20) (NumberObject 110) (NumberObject 220)
           (10, 0%nat) (110, 0%nat) (220, 0%nat)); reflexivity.
Defined.


(** *** The tokenizer reads back what the serializer writes *)

Lemma operator_start_not_whitespace (c : ascii) :
  (isalpha c || bool_decide (c = "'"%char) || bool_decide (c = DQUOTE)) = true ->
  is_whitespace c = false.
Proof.
  destruct c as [[] [] [] [] [] [] [] []]; vm_compute; intros; congruence.
Qed.

Lemma readNonWhitespace_blank (blank : bytes) (stream : bytes) :
  Forall (fun c => is_whitespace c = true) blank ->
  readNonWhitespace (blank ++ stream) = readNonWhitespace stream.
Proof.
  induction 1 as [| c blank Hc _ IH]; simpl; [done|]. by rewrite Hc.
Qed.

Section TokenizerTheorems.
Context `{ObjectLayer}.
Import ContentStreamOps.

(** Whitespace before the next token costs the loop nothing. *)
Lemma parse_blank (fuel : nat) (data blank stream : bytes) (operands : list PdfObject) :
  Forall (fun c => is_whitespace c = true) blank ->
  parseContentStream fuel data (blank ++ stream) operands
  = parseContentStream fuel data stream operands.
Proof.
  intros Hblank. destruct fuel as [| fuel]; [reflexivity|].
  cbn [parseContentStream]. by rewrite readNonWhitespace_blank.
Qed.

Lemma parse_blank1 (fuel : nat) (data : bytes) (c : ascii) (stream : bytes)
    (operands : list PdfObject) :
  is_whitespace c = true ->
  parseContentStream fuel data (c :: stream) operands
  = parseContentStream fuel data stream operands.
Proof. intros Hc. apply (parse_blank fuel data [c]). by constructor. Qed.

Lemma read_operator_plain (operator : bytes) (c : ascii) (rest : bytes) :
  Forall (fun tok => isspace tok = false /\ tok ∉ delimiterCharacters) operator ->
  isspace c = true ->
  read_operator (operator ++ c :: rest) = (operator, c :: rest).
Proof.
  intros Hop Hc. induction Hop as [| tok operator [Hsp Hdel] _ IH]; simpl.
  - by rewrite Hc.
  - rewrite Hsp, bool_decide_eq_false_2 by done. simpl. by rewrite IH.
Qed.

(** One turn of the loop on an operand. *)
Lemma parse_operand (fuel : nat) (data rest : bytes) (op op' : PdfObject)
    (operands : list PdfObject) :
  reads_back op op' ->
  parseContentStream (S fuel) data (writeToStream op None ++ SP :: rest) operands
  = parseContentStream fuel data (SP :: rest) (operands ++ [op']).
Proof.
  intros ((c & tail & Htext & Hws & Halpha & Hq & Hdq & Hpct) & _ & Hread).
  specialize (Hread rest). rewrite Htext in Hread |- *.
  cbn [parseContentStream]. simpl readNonWhitespace. rewrite Hws.
  rewrite Halpha, !bool_decide_eq_false_2 by done. simpl orb. cbv iota.
  simpl app in Hread. rewrite Hread. rewrite bool_decide_eq_false_2 by done.
  reflexivity.
Qed.

(** One turn of the loop on an operator. *)
Lemma parse_operator (fuel : nat) (data blank operator rest : bytes)
    (operands : list PdfObject) :
  Forall (fun c => is_whitespace c = true) blank ->
  plain_operator operator ->
  parseContentStream (S fuel) data (blank ++ operator ++ LF :: rest) operands
  = (operations ← parseContentStream fuel data rest [];
     Ok (Op operands operator :: operations)).
Proof.
  intros Hblank ((c & tail & Hop & Hstart) & Hplain & Hbi).
  rewrite parse_blank by done.
  cbn [parseContentStream].
  pose proof (operator_start_not_whitespace c Hstart) as Hws.
  rewrite Hop at 1. simpl readNonWhitespace. rewrite Hws, Hstart.
  change (c :: tail ++ LF :: rest) with ((c :: tail) ++ LF :: rest).
  rewrite <- Hop, read_operator_plain by done.
  rewrite bool_decide_eq_false_2 by done.
  by rewrite parse_blank1.
Qed.

(** The turns of the loop on one operation. *)
Lemma parse_operation (data rest : bytes) (operands operands' : list PdfObject)
    (operator operator' : bytes) :
  Forall2 reads_back operands operands' ->
  (exists blank, operator = blank ++ operator'
                 /\ Forall (fun c => is_whitespace c = true) blank
                 /\ plain_operator operator') ->
  forall (fuel : nat) (before : list PdfObject),
    parseContentStream (length operands + S fuel) data
      (write_operation (Op operands operator) ++ rest) before
    = (operations ← parseContentStream fuel data rest [];
       Ok (Op (before ++ operands') operator' :: operations)).
Proof.
  intros Hops (blank & -> & Hblank & Hplain).
  induction Hops as [| op op' operands operands' Hop _ IH]; intros fuel before.
  - simpl. rewrite app_nil_r, <- !app_assoc. by apply parse_operator.
  - cbn [write_operation map concat length Nat.add] in *.
    rewrite <- !app_assoc. simpl app at 1.
    rewrite (parse_operand _ _ _ op op') by done.
    rewrite parse_blank1 by done.
    rewrite <- !app_assoc in IH. rewrite IH, <- app_assoc. reflexivity.
Qed.

(** The whole stream: the tokenizer reads back the operations. *)
Lemma parse_operations (data : bytes)
    (operations operations' : list (Operation PdfObject)) :
  Forall2 operation_reads_back operations operations' ->
  forall fuel : nat,
    (turns operations < fuel)%nat ->
    parseContentStream fuel data (_getData operations) [] = Ok operations'.
Proof.
  induction 1 as [| operation operation' operations operations' Hop _ IH];
    intros fuel Hfuel.
  - destruct fuel; [simpl in Hfuel; lia | reflexivity].
  - destruct operation as [operands operator|]; [|done].
    destruct operation' as [operands' operator'|]; [|done].
    destruct Hop as [Hops Hoperator].
    simpl in Hfuel.
    replace fuel with (length operands + S (fuel - length operands - 1))%nat by lia.
    unfold _getData. cbn [map concat].
    rewrite (parse_operation data _ operands operands' operator operator') by done.
    fold (_getData operations). rewrite IH by lia. reflexivity.
Qed.

Lemma _getData_app (a b : list (Operation PdfObject)) :
  _getData (a ++ b) = _getData a ++ _getData b.
Proof. unfold _getData. by rewrite map_app, concat_app. Qed.







End TokenizerTheorems.


(** *** Merging pages *)

Section MergeTheorems.
Context `{ObjectLayer} `{Numbers}.
Import ContentStreamOps.







Lemma bind_ret {A B} (a : A) (k : A -> result B) : Ok a ≫= k = k a.
Proof. reflexivity. Qed.









End MergeTheorems.

Import ContentStreamOps.

(** *** The examples of merging, on the concrete object layer *)

Lemma letters_not_delimiters (c : ascii) :
  isalpha c = true -> c ∉ Generic.delimiters.
Proof.
  intros Halpha Hin.
  apply (bool_decide_eq_true_2 (c ∈ Generic.delimiters)) in Hin.
  revert Halpha Hin.
  destruct c as [[] [] [] [] [] [] [] []]; vm_compute; congruence.
Qed.

(** Discharge [reads_back] for a concrete operand. *)
Ltac concrete_reads_back :=
  split; [eexists _, _; split; [reflexivity|];
          split_and!; [reflexivity | reflexivity | discriminate ..]
         | split; [reflexivity | intros rest; reflexivity]].

(** Discharge [plain_operator] for a concrete operator. *)
Ltac concrete_operator :=
  split; [eexists _, _; split; reflexivity
         | split; [repeat constructor; try reflexivity;
                   intros Hin;
                   match type of Hin with ?P =>
                     apply (bool_decide_eq_true_2 P) in Hin end;
                   vm_compute in Hin; discriminate Hin
                  | discriminate]].

Ltac concrete_operation :=
  split; [repeat (constructor; [concrete_reads_back|]); constructor
         | exists []; split; [reflexivity|]; split; [constructor|];
           concrete_operator].

Lemma line_operations_plain :
  Forall (@plain_operation (Generic.layer Examples.font_store))
    [Op [NumberObject 0; NumberObject 0] (b_ "m");
     Op [NumberObject 10; NumberObject 10] (b_ "l");
     Op [] (b_ "S")].
Proof. repeat (constructor; [concrete_operation|]). constructor. Qed.





(** Scenario S3 on the concrete object layer. *)
Example S3_scaled_merge :
  @PageObject.mergeScaledPage Examples.layer_fonts Generic.numbers 100
     Examples.page_line Examples.page_text (5, 1%nat)
  ≫= @PageObject.contents_data Examples.layer_fonts
  = Ok (b_ "q" ++ [LF] ++ b_ "0 0 m" ++ [LF] ++ b_ "10 10 l" ++ [LF]
          ++ b_ "S" ++ [LF] ++ b_ "Q" ++ [LF]
          ++ b_ "q" ++ [LF] ++ b_ "0.5 0 0 0.5 0 0 cm" ++ [LF]
          ++ b_ "/F2renamed 12 Tf" ++ [LF] ++ b_ "Q" ++ [LF]).
Proof. vm_compute. reflexivity. Qed.


(** *** Python lists by index *)

Lemma list_index_app_last {A} (l : list A) (x : A) :
  list_index (l ++ [x]) (Z.of_nat (length l)) = Ok x.
Proof.
  unfold list_index. rewrite length_app. simpl length.
  destruct (Z.ltb_spec (Z.of_nat (length l)) 0); [lia|].
  replace ((Z.of_nat (length l) <? 0)
           || (Z.of_nat (length l + 1) <=? Z.of_nat (length l))) with false
    by (symmetry; apply orb_false_iff; split; [lia | apply Z.leb_gt; lia]).
  rewrite Nat2Z.id, lookup_app_r by lia. by rewrite Nat.sub_diag.
Qed.

Lemma list_index_inside {A} (l : list A) (i : nat) (x : A) :
  l !! i = Some x -> list_index l (Z.of_nat i) = Ok x.
Proof.
  intros Hi. pose proof (lookup_lt_Some _ _ _ Hi) as Hlt.
  unfold list_index.
  destruct (Z.ltb_spec (Z.of_nat i) 0); [lia|].
  replace ((Z.of_nat i <? 0) || (Z.of_nat (length l) <=? Z.of_nat i)) with false
    by (symmetry; apply orb_false_iff; split; [lia | apply Z.leb_gt; lia]).
  by rewrite Nat2Z.id, Hi.
Qed.

Lemma list_index_beyond {A} (l : list A) (i : Z) :
  Z.of_nat (length l) <= i -> list_index l i = Raise IndexError.
Proof.
  intros Hi. unfold list_index.
  destruct (Z.ltb_spec i 0); [lia|].
  replace ((i <? 0) || (Z.of_nat (length l) <=? i)) with true; [done|].
  symmetry. apply orb_true_iff. right. by apply Z.leb_le.
Qed.


(** *** Cross-reference streams *)

Lemma be_value_app (a b : bytes) :
  CrossReference.be_value (a ++ b)
  = CrossReference.be_value a * 256 ^ Z.of_nat (length b) + CrossReference.be_value b.
Proof.
  unfold CrossReference.be_value.
  revert a. induction b as [| c b IH] using rev_ind; intros a.
  - rewrite app_nil_r. simpl. lia.
  - rewrite app_assoc, foldl_app. simpl.
    rewrite IH, foldl_app, length_app. simpl.
    replace (Z.of_nat (length b + 1)) with (Z.of_nat (length b) + 1) by lia.
    rewrite Z.pow_add_r by lia. lia.
Qed.

Lemma be_value_zeros (n : nat) :
  CrossReference.be_value (replicate n (ascii_of_nat 0)) = 0.
Proof.
  induction n as [| n IH]; [reflexivity|].
  change (replicate (S n) (ascii_of_nat 0))
    with ([ascii_of_nat 0] ++ replicate n (ascii_of_nat 0)).
  rewrite be_value_app, IH. reflexivity.
Qed.

Lemma byte_of_value (n : Z) : Z.of_N (N_of_ascii (byte_of n)) = n mod 256.
Proof.
  unfold byte_of. rewrite N_ascii_embedding.
  - rewrite Z2N.id; [done|]. apply Z.mod_pos_bound. lia.
  - assert (0 <= n mod 256 < 256) by (apply Z.mod_pos_bound; lia). lia.
Qed.

Lemma low_bytes_length (k : nat) (n : Z) : length (low_bytes k n) = k.
Proof. revert n. induction k as [| k IH]; intros n; simpl; [done | by rewrite IH]. Qed.

Lemma be_value_big_endian (k : nat) (n : Z) :
  CrossReference.be_value (CrossReference.big_endian k n) = n mod 256 ^ Z.of_nat k.
Proof.
  unfold CrossReference.big_endian.
  revert n. induction k as [| k IH]; intros n.
  - simpl. by rewrite Z.mod_1_r.
  - simpl low_bytes. simpl rev. rewrite be_value_app, IH.
    unfold CrossReference.be_value at 1. simpl foldl. rewrite byte_of_value.
    simpl length. rewrite Z.pow_1_r.
    replace (Z.of_nat (S k)) with (1 + Z.of_nat k) by lia.
    rewrite Z.pow_add_r, Z.pow_1_r by lia.
    rewrite Z.rem_mul_r by lia. ring.
Qed.

Lemma be_value_bounds (d : bytes) :
  0 <= CrossReference.be_value d < 256 ^ Z.of_nat (length d).
Proof.
  induction d as [| c d IH] using rev_ind; [vm_compute; split; congruence|].
  rewrite be_value_app, length_app. simpl length.
  replace (CrossReference.be_value [c]) with (Z.of_N (N_of_ascii c))
    by (unfold CrossReference.be_value; simpl; lia).
  assert (Hc : (N_of_ascii c < 256)%N) by apply N_ascii_bounded.
  replace (Z.of_nat (length d + 1)) with (Z.of_nat (length d) + 1) by lia.
  rewrite Z.pow_add_r, !Z.pow_1_r by lia. lia.
Qed.

(** What [convertToInt] returns for a field of at most eight bytes: the
    field is padded with zero bytes on the left. *)
Lemma convertToInt_short (d : bytes) (size : Z) :
  (length d <= 8)%nat -> size <= 8 ->
  CrossReference.convertToInt d size
  = Ok (if CrossReference.be_value d <? 2 ^ 63 then CrossReference.be_value d
        else CrossReference.be_value d - 2 ^ 64).
Proof.
  intros Hlen Hsize. unfold CrossReference.convertToInt.
  destruct (Z.ltb_spec 8 size); [lia|].
  rewrite length_app, length_replicate.
  replace (8 + length d - 8)%nat with (length d) by lia.
  assert (Hd : drop (length d) (replicate 8 (ascii_of_nat 0) ++ d)
               = replicate (8 - length d) (ascii_of_nat 0) ++ d).
  { rewrite drop_app_le by (rewrite length_replicate; lia).
    by rewrite drop_replicate. }
  rewrite Hd. unfold CrossReference.unpack_q.
  rewrite bool_decide_eq_true_2
    by (rewrite length_app, length_replicate; lia).
  by rewrite be_value_app, be_value_zeros.
Qed.

Lemma convertToInt_of_big_endian (k : nat) (n size : Z) :
  (k <= 7)%nat -> 0 <= n < 256 ^ Z.of_nat k -> size <= 8 ->
  CrossReference.convertToInt (CrossReference.big_endian k n) size = Ok n.
Proof.
  intros Hk Hn Hsize.
  assert (Hlen : length (CrossReference.big_endian k n) = k)
    by (unfold CrossReference.big_endian; by rewrite length_rev, low_bytes_length).
  rewrite convertToInt_short by (rewrite ?Hlen; lia).
  rewrite be_value_big_endian, Z.mod_small by lia.
  assert (256 ^ Z.of_nat k <= 256 ^ 7) by (apply Z.pow_le_mono_r; lia).
  destruct (Z.ltb_spec n (2 ^ 63)); [done | lia].
Qed.

(** X1.  A field of up to seven bytes is read as the number it holds, most
    significant byte first: [convertToInt] undoes the big-endian
    encoding, whatever [size] (at most 8) it is handed. *)
Theorem convertToInt_big_endian (k : nat) (n size : Z) :
  (k <= 7)%nat -> 0 <= n < 256 ^ Z.of_nat k -> size <= 8 ->
  CrossReference.convertToInt (CrossReference.big_endian k n) size = Ok n.
Proof. apply convertToInt_of_big_endian. Qed.

Lemma convertToInt_big_endian_witness :
  CrossReference.convertToInt (CrossReference.big_endian 3 66051) 3 = Ok 66051.
Proof. apply (convertToInt_big_endian 3 66051 3); lia. Defined.

(** X2.  An eight-byte field whose first byte has its top bit set is read
    as a negative number: the field is taken as a signed 64-bit
    integer. *)
Theorem convertToInt_eight_bytes_signed (c : ascii) (d : bytes) :
  length d = 7%nat -> (128 <= N_of_ascii c)%N ->
  exists n, CrossReference.convertToInt (c :: d) 8 = Ok n
            /\ n = CrossReference.be_value (c :: d) - 2 ^ 64
            /\ n < 0.
Proof.
  intros Hlen Hc.
  rewrite convertToInt_short by (simpl; lia).
  pose proof (be_value_bounds (c :: d)) as Hb. simpl length in Hb. rewrite Hlen in Hb.
  assert (Hv : CrossReference.be_value (c :: d)
               = Z.of_N (N_of_ascii c) * 256 ^ 7 + CrossReference.be_value d).
  { change (c :: d) with ([c] ++ d). rewrite be_value_app, Hlen.
    unfold CrossReference.be_value at 1. simpl foldl. lia. }
  pose proof (be_value_bounds d) as Hd. rewrite Hlen in Hd.
  destruct (Z.ltb_spec (CrossReference.be_value (c :: d)) (2 ^ 63)) as [Hlt | Hge].
  - exfalso. rewrite Hv in Hlt. lia.
  - eexists. split; [reflexivity|]. split; [done|].
    change (Z.of_nat 8) with 8 in Hb. lia.
Qed.

Lemma convertToInt_eight_bytes_signed_witness :
  exists n, CrossReference.convertToInt
              (ascii_of_nat 255 :: replicate 7 (ascii_of_nat 255)) 8 = Ok n
            /\ n = CrossReference.be_value
                     (ascii_of_nat 255 :: replicate 7 (ascii_of_nat 255)) - 2 ^ 64
            /\ n < 0.
Proof.
  apply (convertToInt_eight_bytes_signed (ascii_of_nat 255)
           (replicate 7 (ascii_of_nat 255))); [reflexivity | vm_compute; discriminate].
Defined.

Lemma _pairs_from {A} (ps : list (A * A)) :
  forall (pre tail : list A) (fuel : nat),
    ps <> [] -> (length tail <= 1)%nat -> (length ps <= fuel)%nat ->
    CrossReference._pairs fuel
      (pre ++ flat_map (fun p : A * A => [p.1; p.2]) ps ++ tail) (length pre)
    = (ps, Ok ()).
Proof.
  induction ps as [| [a b] ps IH]; intros pre tail fuel Hne Htail Hfuel; [done|].
  destruct fuel as [| fuel]; [simpl in Hfuel; lia|].
  change (flat_map (fun p : A * A => [p.1; p.2]) ((a, b) :: ps))
    with ([a; b] ++ flat_map (fun p : A * A => [p.1; p.2]) ps).
  set (rest := flat_map (fun p : A * A => [p.1; p.2]) ps) in *.
  assert (Hrest : length rest = (2 * length ps)%nat).
  { subst rest. clear. induction ps as [| p ps IH]; simpl; [done | lia]. }
  set (array := pre ++ ([a; b] ++ rest) ++ tail).
  assert (Ha : array !! length pre = Some a).
  { subst array. rewrite lookup_app_r by lia. by rewrite Nat.sub_diag. }
  assert (Hb : array !! (length pre + 1)%nat = Some b).
  { subst array. rewrite lookup_app_r by lia.
    by replace (length pre + 1 - length pre)%nat with 1%nat by lia. }
  assert (Hlen : length array = (length pre + 2 + 2 * length ps + length tail)%nat).
  { subst array. rewrite !length_app. simpl. lia. }
  simpl CrossReference._pairs. rewrite Ha, Hb, Hlen.
  destruct ps as [| p ps].
  - rewrite (proj2 (Nat.leb_le _ _)) by (simpl; lia). reflexivity.
  - rewrite (proj2 (Nat.leb_gt _ _)) by (simpl; lia).
    specialize (IH (pre ++ [a; b]) tail fuel).
    rewrite length_app in IH. simpl length in IH.
    replace ((pre ++ [a; b]) ++ rest ++ tail) with array in IH
      by (subst array; by rewrite <- !app_assoc).
    rewrite IH; [reflexivity | done | done | simpl in *; lia].
Qed.

(** X3.  [_pairs] yields the elements of an array two by two; the last
    element of an array of odd length is left out without an error. *)
Theorem _pairs_yields {A} (ps : list (A * A)) (tail : list A) (fuel : nat) :
  ps <> [] -> (length tail <= 1)%nat -> (length ps <= fuel)%nat ->
  CrossReference._pairs fuel
    (flat_map (fun p : A * A => [p.1; p.2]) ps ++ tail) 0
  = (ps, Ok ()).
Proof. intros Hne Htail Hfuel. by apply (_pairs_from ps [] tail fuel). Qed.

Lemma _pairs_yields_witness :
  CrossReference._pairs 2 (flat_map (fun p : Z * Z => [p.1; p.2]) [(0, 3); (7, 2)] ++ [9]) 0
  = ([(0, 3); (7, 2)], Ok ()).
Proof. apply (_pairs_yields [(0, 3); (7, 2)] [9] 2); [done | simpl; lia | simpl; lia]. Defined.

(** X4.  An array of fewer than two elements, the empty one among them,
    makes [_pairs] raise [IndexError] at its first [yield]: the loop
    tests its bound only afterwards. *)
Theorem _pairs_short_raises {A} (array : list A) (fuel : nat) :
  (length array < 2)%nat -> (0 < fuel)%nat ->
  CrossReference._pairs fuel array 0 = ([], Raise IndexError).
Proof.
  intros Hlen Hfuel. destruct fuel as [| fuel]; [lia|].
  destruct array as [| a [| b array]]; simpl in *; [done | done | lia].
Qed.

Lemma _pairs_short_raises_witness :
  CrossReference._pairs 1 (@nil Z) 0 = ([], Raise IndexError).
Proof. apply (_pairs_short_raises (@nil Z) 1); simpl; lia. Defined.

(** *** The entries of a cross-reference stream *)

Lemma record_entry_keeps (num : Z) (l : CrossReference.Locals)
    (t t' : CrossReference.Tables) :
  CrossReference.record_entry num l t = Ok t' ->
  (forall gen idnum off,
      CrossReference.xref_offset t gen idnum = Some off ->
      CrossReference.xref_offset t' gen idnum = Some off)
  /\ (forall idnum v,
         CrossReference.xref_objStm t !! idnum = Some v ->
         CrossReference.xref_objStm t' !! idnum = Some v).
Proof.
  unfold CrossReference.record_entry. intros Hrec.
  inv_bind Hrec.
  destruct (a =? 0); [by injection Hrec as <-|].
  destruct (a =? 1).
  - inv_bind Hrec.
    destruct (default ∅ (CrossReference.xref t !! a0) !! num) as [known|] eqn:Eknown.
    + injection Hrec as <-. split; [|done].
      intros gen idnum off. unfold CrossReference.xref_offset. simpl.
      destruct (decide (a0 = gen)) as [<- | Hne].
      * rewrite lookup_insert_eq. by destruct (CrossReference.xref t !! a0).
      * by rewrite lookup_insert_ne.
    + inv_bind Hrec. injection Hrec as <-. split; [|done].
      intros gen idnum off. unfold CrossReference.xref_offset. simpl.
      destruct (decide (a0 = gen)) as [<- | Hne].
      * rewrite lookup_insert_eq.
        destruct (CrossReference.xref t !! a0) as [table|]; [|done]. simpl in *.
        destruct (decide (num = idnum)) as [<- | Hne'];
          [congruence | by rewrite lookup_insert_ne].
      * by rewrite lookup_insert_ne.
  - destruct (a =? 2); [|by injection Hrec as <-].
    destruct (CrossReference.xref_objStm t !! num) as [known|] eqn:Eknown;
      [by injection Hrec as <-|].
    inv_bind Hrec. inv_bind Hrec. injection Hrec as <-. split; [done|].
    intros idnum v Hv. simpl.
    destruct (decide (num = idnum)) as [<- | Hne];
      [congruence | by rewrite lookup_insert_ne].
Qed.

Lemma read_subsection_keeps (n : nat) (entrySizes : list Z) :
  forall (num : Z) (stream stream' : bytes) (l l' : CrossReference.Locals)
         (t t' : CrossReference.Tables),
    CrossReference.read_subsection n entrySizes num stream l t = Ok (stream', l', t') ->
    (forall gen idnum off,
        CrossReference.xref_offset t gen idnum = Some off ->
        CrossReference.xref_offset t' gen idnum = Some off)
    /\ (forall idnum v,
           CrossReference.xref_objStm t !! idnum = Some v ->
           CrossReference.xref_objStm t' !! idnum = Some v).
Proof.
  induction n as [| n IH]; intros num stream stream' l l' t t' Hread.
  - by injection Hread as _ _ <-.
  - simpl in Hread. inv_bind Hread. destruct a as [stream1 l1]. simpl in Hread.
    inv_bind Hread.
    destruct (record_entry_keeps _ _ _ _ Ha0) as [H1 H2].
    destruct (IH _ _ _ _ _ _ _ Hread) as [H3 H4].
    split; eauto.
Qed.

Lemma read_subsections_keeps (pairs : list (Z * Z)) (entrySizes : list Z) :
  forall (stream stream' : bytes) (l l' : CrossReference.Locals)
         (t t' : CrossReference.Tables),
    CrossReference.read_subsections pairs entrySizes stream l t = Ok (stream', l', t') ->
    (forall gen idnum off,
        CrossReference.xref_offset t gen idnum = Some off ->
        CrossReference.xref_offset t' gen idnum = Some off)
    /\ (forall idnum v,
           CrossReference.xref_objStm t !! idnum = Some v ->
           CrossReference.xref_objStm t' !! idnum = Some v).
Proof.
  induction pairs as [| [num size] pairs IH]; intros stream stream' l l' t t' Hread.
  - by injection Hread as _ _ <-.
  - simpl in Hread. inv_bind Hread. destruct a as [[stream1 l1] t1]. simpl in Hread.
    destruct (read_subsection_keeps _ _ _ _ _ _ _ _ _ Ha) as [H1 H2].
    destruct (IH _ _ _ _ _ _ Hread) as [H3 H4].
    split; eauto.
Qed.

(** X5.  Reading the entries of a cross-reference stream never replaces what
    the tables hold: an offset known for an object and a place known
    in an object stream stay as they are, whatever the stream says
    (the file is read from its newest section backwards). *)
Theorem read_entries_keeps_known (idx_pairs entrySizes : list Z)
    (stream stream' : bytes) (l l' : CrossReference.Locals)
    (t t' : CrossReference.Tables) :
  CrossReference.read_entries idx_pairs entrySizes stream l t = Ok (stream', l', t') ->
  (forall gen idnum off,
      CrossReference.xref_offset t gen idnum = Some off ->
      CrossReference.xref_offset t' gen idnum = Some off)
  /\ (forall idnum v,
         CrossReference.xref_objStm t !! idnum = Some v ->
         CrossReference.xref_objStm t' !! idnum = Some v).
Proof.
  unfold CrossReference.read_entries.
  destruct (CrossReference._pairs _ idx_pairs 0) as [pairs ending].
  intros Hread. inv_bind Hread. destruct a as [[stream1 l1] t1].
  inv_bind Hread. injection Hread as _ _ <-.
  by apply (read_subsections_keeps _ _ _ _ _ _ _ _ Ha).
Qed.

Lemma read_entries_keeps_known_witness :
  (forall gen idnum off,
      CrossReference.xref_offset CrossReference.known_tables gen idnum = Some off ->
      CrossReference.xref_offset
        {| CrossReference.xref := {[ 0 := <[1 := 999]> ∅ ]};
           CrossReference.xref_objStm := {[ 2 := (5, 1) ]} |} gen idnum = Some off)
  /\ (forall idnum v,
         CrossReference.xref_objStm CrossReference.known_tables !! idnum = Some v ->
         CrossReference.xref_objStm
           {| CrossReference.xref := {[ 0 := <[1 := 999]> ∅ ]};
              CrossReference.xref_objStm := {[ 2 := (5, 1) ]} |} !! idnum = Some v).
Proof.
  apply (read_entries_keeps_known [0; 3] [1; 2; 1]
           CrossReference.three_entries []
           CrossReference.no_locals
           {| CrossReference.xref_type := Some 2;
              CrossReference.byte_offset := Some 258;
              CrossReference.generation := Some 0;
              CrossReference.objstr_num := Some 5;
              CrossReference.obstr_idx := Some 1 |}
           CrossReference.known_tables).
  vm_compute. reflexivity.
Defined.

Lemma read_n_app (d rest : bytes) :
  CrossReference.read_n (Z.of_nat (length d)) (d ++ rest) = (d, rest).
Proof.
  unfold CrossReference.read_n.
  destruct (Z.ltb_spec (Z.of_nat (length d)) 0); [lia|].
  rewrite Nat2Z.id. by rewrite take_app_length, drop_app_length.
Qed.

Lemma big_endian_length (k : nat) (n : Z) :
  length (CrossReference.big_endian k n) = k.
Proof. unfold CrossReference.big_endian. by rewrite length_rev, low_bytes_length. Qed.

Lemma read_fields_step (k : nat) (n : Z) (entrySizes : list Z) (i : nat)
    (rest : bytes) (l : CrossReference.Locals) :
  (k <= 7)%nat -> 0 <= n < 256 ^ Z.of_nat k ->
  CrossReference.read_fields (Z.of_nat k :: entrySizes) i
    (CrossReference.big_endian k n ++ rest) l
  = CrossReference.read_field i n l
    ≫= fun l => CrossReference.read_fields entrySizes (S i) rest l.
Proof.
  intros Hk Hn. simpl CrossReference.read_fields.
  pose proof (read_n_app (CrossReference.big_endian k n) rest) as Hr.
  rewrite big_endian_length in Hr. rewrite Hr.
  by rewrite convertToInt_of_big_endian by lia.
Qed.

(** X6.  An entry of type 1 for an object that the tables do not know yet
    records the offset it holds under the generation it holds; for an
    object already known the old offset stays. *)
Theorem type1_entry_recorded (w0 w1 w2 : nat) (offset gen num : Z)
    (rest : bytes) (l : CrossReference.Locals) (t : CrossReference.Tables) :
  (1 <= w0 <= 7)%nat -> (w1 <= 7)%nat -> (w2 <= 7)%nat ->
  0 <= offset < 256 ^ Z.of_nat w1 -> 0 <= gen < 256 ^ Z.of_nat w2 ->
  exists l' t',
    CrossReference.read_subsection 1
      [Z.of_nat w0; Z.of_nat w1; Z.of_nat w2] num
      (CrossReference.big_endian w0 1 ++ CrossReference.big_endian w1 offset
         ++ CrossReference.big_endian w2 gen ++ rest) l t
    = Ok (rest, l', t')
    /\ CrossReference.xref_offset t' gen num
       = Some (default offset (CrossReference.xref_offset t gen num)).
Proof.
  intros Hw0 Hw1 Hw2 Hoff Hgen.
  assert (H1 : 0 <= 1 < 256 ^ Z.of_nat w0).
  { split; [lia|]. apply Z.pow_gt_1; lia. }
  set (l1 := {| CrossReference.xref_type := Some 1;
                CrossReference.byte_offset := Some offset;
                CrossReference.generation := Some gen;
                CrossReference.objstr_num := CrossReference.objstr_num l;
                CrossReference.obstr_idx := CrossReference.obstr_idx l |}).
  assert (Hfields :
            CrossReference.read_fields [Z.of_nat w0; Z.of_nat w1; Z.of_nat w2] 0
              (CrossReference.big_endian w0 1 ++ CrossReference.big_endian w1 offset
                 ++ CrossReference.big_endian w2 gen ++ rest) l
            = Ok (rest, l1)).
  { rewrite read_fields_step by lia. simpl CrossReference.read_field.
    rewrite bind_ret, read_fields_step by lia. simpl CrossReference.read_field.
    rewrite !bind_ret, read_fields_step by lia. reflexivity. }
  exists l1.
  unfold CrossReference.read_subsection. rewrite Hfields, bind_ret.
  cbv beta iota.
  unfold CrossReference.record_entry, CrossReference.xref_offset. simpl.
  destruct (CrossReference.xref t !! gen) as [table|] eqn:Etable; simpl.
  - destruct (table !! num) as [known|] eqn:Eknown; simpl.
    + eexists. split; [reflexivity|]. simpl.
      rewrite lookup_insert_eq. simpl. by rewrite Eknown.
    + eexists. split; [reflexivity|]. simpl.
      rewrite lookup_insert_eq. simpl. by rewrite lookup_insert_eq.
  - rewrite lookup_empty. simpl. eexists. split; [reflexivity|]. simpl.
    rewrite lookup_insert_eq. simpl. by rewrite lookup_insert_eq.
Qed.

Lemma type1_entry_recorded_witness :
  exists l' t',
    CrossReference.read_subsection 1 [Z.of_nat 1; Z.of_nat 2; Z.of_nat 1] 2
      (CrossReference.big_endian 1 1 ++ CrossReference.big_endian 2 258
         ++ CrossReference.big_endian 1 0 ++ [])
      CrossReference.no_locals CrossReference.known_tables
    = Ok ([], l', t')
    /\ CrossReference.xref_offset t' 0 2
       = Some (default 258 (CrossReference.xref_offset CrossReference.known_tables 0 2)).
Proof.
  apply (type1_entry_recorded 1 2 1 258 0 2 [] CrossReference.no_locals
           CrossReference.known_tables); lia.
Defined.

Lemma read_fields_free (entrySizes : list Z) :
  forall (i : nat) (stream stream' : bytes) (l l' : CrossReference.Locals),
    (1 <= i)%nat -> CrossReference.xref_type l = Some 0 ->
    CrossReference.read_fields entrySizes i stream l = Ok (stream', l') ->
    l' = l.
Proof.
  induction entrySizes as [| w entrySizes IH]; intros i stream stream' l l' Hi Hty Hread.
  - by injection Hread as _ <-.
  - simpl in Hread. destruct (CrossReference.read_n w stream) as [d stream1].
    inv_bind Hread. inv_bind Hread.
    assert (a0 = l) as ->.
    { destruct i as [| [| [| i]]]; [lia | | |];
        unfold CrossReference.read_field in Ha0; rewrite ?Hty in Ha0;
        simpl in Ha0; congruence. }
    by apply (IH (S i) stream1 stream' l l'); [lia | |].
Qed.

Lemma read_fields_zero (entrySizes : list Z) (stream : bytes)
    (l : CrossReference.Locals) :
  CrossReference.read_fields (0 :: entrySizes) 0 stream l
  = CrossReference.read_fields entrySizes 1 stream
      {| CrossReference.xref_type := Some 0;
         CrossReference.byte_offset := CrossReference.byte_offset l;
         CrossReference.generation := CrossReference.generation l;
         CrossReference.objstr_num := CrossReference.objstr_num l;
         CrossReference.obstr_idx := CrossReference.obstr_idx l |}.
Proof. reflexivity. Qed.

(** X7.  When the first width of [/W] is 0 the type of every entry is read
    as 0: the entries are taken as free ones and the tables stay as
    they are, whatever the stream holds. *)
Theorem zero_width_type_records_nothing (n : nat) (entrySizes : list Z) :
  forall (num : Z) (stream stream' : bytes) (l l' : CrossReference.Locals)
         (t t' : CrossReference.Tables),
    CrossReference.read_subsection n (0 :: entrySizes) num stream l t
    = Ok (stream', l', t') ->
    t' = t.
Proof.
  induction n as [| n IH]; intros num stream stream' l l' t t' Hread.
  - by injection Hread as _ _ <-.
  - cbn [CrossReference.read_subsection] in Hread.
    rewrite read_fields_zero in Hread.
    apply bind_Ok in Hread as ([stream1 l1] & Ha & Hread). cbv beta iota in Hread.
    apply bind_Ok in Hread as (t1 & Ha0 & Hread).
    pose proof Ha as Hl1.
    apply read_fields_free in Hl1; [| lia | reflexivity]. subst l1.
    unfold CrossReference.record_entry in Ha0. simpl in Ha0.
    injection Ha0 as <-. by apply IH in Hread.
Qed.

Lemma zero_width_type_records_nothing_witness :
  {| CrossReference.xref := {[ 0 := {[ 1 := 999 ]} ]};
     CrossReference.xref_objStm := ∅ |}
  = CrossReference.known_tables.
Proof.
  apply (zero_width_type_records_nothing 2 [2; 1] 0
           (map ascii_of_nat [1; 2; 0; 1; 3; 0]%nat) []
           CrossReference.no_locals
           {| CrossReference.xref_type := Some 0;
              CrossReference.byte_offset := None;
              CrossReference.generation := Some 0;
              CrossReference.objstr_num := None;
              CrossReference.obstr_idx := None |}
           CrossReference.known_tables
           {| CrossReference.xref := {[ 0 := {[ 1 := 999 ]} ]};
              CrossReference.xref_objStm := ∅ |}).
  vm_compute. reflexivity.
Defined.

(** *** The end of the file *)

Lemma read1_at (pre suf : bytes) (c : ascii) :
  EndOfFile.read1 (pre ++ c :: suf) (Z.of_nat (length pre))
  = (Some c, Z.of_nat (length pre) + 1).
Proof.
  unfold EndOfFile.read1. rewrite length_app. simpl length.
  replace (Z.min (Z.of_nat (length pre) + 1) (Z.of_nat (length pre + S (length suf))))
    with (Z.of_nat (length pre) + 1) by lia.
  destruct (Z.ltb_spec (Z.of_nat (length pre)) (Z.of_nat (length pre) + 1)); [|lia].
  rewrite Nat2Z.id, lookup_app_r by lia. by rewrite Nat.sub_diag.
Qed.

(** Going backwards over the bytes of a line. *)
Lemma readNextEndLine_scan (line : bytes) :
  forall (pre suf acc : bytes) (fuel : nat),
    Forall (fun c => EndOfFile.is_eol (Some c) = false) line ->
    (1 <= length pre)%nat ->
    EndOfFile.readNextEndLine (length line + fuel) (pre ++ line ++ suf)
      (Z.of_nat (length pre + length line) - 1) acc
    = EndOfFile.readNextEndLine fuel (pre ++ line ++ suf)
        (Z.of_nat (length pre) - 1) (line ++ acc).
Proof.
  induction line as [| c line IH] using rev_ind; intros pre suf acc fuel Hline Hpre.
  - simpl length. rewrite Nat.add_0_r. reflexivity.
  - apply Forall_app in Hline as [Hline Hc]. apply Forall_inv in Hc.
    rewrite length_app. simpl length.
    replace (length line + 1 + fuel)%nat with (S (length line + fuel)) by lia.
    cbn [EndOfFile.readNextEndLine].
    replace (Z.of_nat (length pre + (length line + 1)) - 1)
      with (Z.of_nat (length (pre ++ line))) by (rewrite length_app; lia).
    replace (pre ++ (line ++ [c]) ++ suf) with ((pre ++ line) ++ c :: suf)
      by (by rewrite <- !app_assoc).
    rewrite read1_at, Hc. cbv beta iota. simpl option_list.
    replace (EndOfFile.seek_cur (Z.of_nat (length (pre ++ line)) + 1) (-2))
      with (Z.of_nat (length pre + length line) - 1)
      by (unfold EndOfFile.seek_cur; rewrite length_app; lia).
    replace ((pre ++ line) ++ c :: suf) with (pre ++ line ++ ([c] ++ suf))
      by (by rewrite <- !app_assoc).
    rewrite IH by done. by rewrite <- !app_assoc.
Qed.

(** Arriving at a line end whose neighbour on the left is no line end. *)
Lemma readNextEndLine_eol (pre suf acc : bytes) (c e : ascii) (fuel : nat) :
  EndOfFile.is_eol (Some e) = true -> EndOfFile.is_eol (Some c) = false ->
  (1 <= length pre)%nat ->
  EndOfFile.readNextEndLine (S (S fuel)) ((pre ++ [c]) ++ e :: suf)
    (Z.of_nat (length (pre ++ [c]))) acc
  = Ok (acc, Z.of_nat (length pre)).
Proof.
  intros He Hc Hpre. cbn [EndOfFile.readNextEndLine].
  rewrite read1_at, He. cbv beta iota.
  replace (EndOfFile.seek_cur (Z.of_nat (length (pre ++ [c])) + 1) (-2))
    with (Z.of_nat (length pre))
    by (unfold EndOfFile.seek_cur; rewrite length_app; simpl; lia).
  cbn [EndOfFile.end_of_line_run].
  replace ((pre ++ [c]) ++ e :: suf) with (pre ++ c :: e :: suf)
    by (by rewrite <- app_assoc).
  rewrite read1_at, Hc. cbv beta iota. rewrite bind_ret. cbv beta iota.
  do 2 f_equal. unfold EndOfFile.seek_cur. lia.
Qed.

(** The inner loop ends wherever it starts, when the file begins with
    two bytes that are no line ends. *)
Lemma end_of_line_run_returns (buf : bytes) (c0 c1 : ascii) (rest : bytes) :
  buf = c0 :: c1 :: rest ->
  EndOfFile.is_eol (Some c0) = false -> EndOfFile.is_eol (Some c1) = false ->
  forall (fuel : nat) (pos : Z) (crlf : bool),
    0 <= pos < Z.of_nat fuel ->
    exists r, EndOfFile.end_of_line_run fuel buf pos crlf = Ok r.
Proof.
  intros Hbuf H0 H1. induction fuel as [| fuel IH]; intros pos crlf Hpos; [lia|].
  cbn [EndOfFile.end_of_line_run].
  destruct (EndOfFile.read1 buf pos) as [x pos'] eqn:Eread.
  destruct (EndOfFile.is_eol x) eqn:Ex; [|eauto].
  assert (Hx : x = buf !! Z.to_nat pos /\ pos' = pos + 1).
  { unfold EndOfFile.read1 in Eread. injection Eread as <- <-.
    destruct (Z.ltb_spec pos (Z.min (pos + 1) (Z.of_nat (length buf)))) as [Hlt | Hge].
    - split; [done | lia].
    - discriminate Ex. }
  destruct Hx as [-> ->].
  assert (2 <= pos).
  { destruct (Z.to_nat pos) as [| [| n]] eqn:En; [| | lia];
      subst buf; simpl in Ex; congruence. }
  apply IH. unfold EndOfFile.seek_cur. lia.
Qed.

(** From the last byte of a line back over the line end before it. *)
Lemma readNextEndLine_line (pre line suf : bytes) (c e : ascii) (fuel : nat) :
  EndOfFile.is_eol (Some e) = true -> EndOfFile.is_eol (Some c) = false ->
  Forall (fun c => EndOfFile.is_eol (Some c) = false) line ->
  (1 <= length pre)%nat -> (length line + 2 <= fuel)%nat ->
  EndOfFile.readNextEndLine fuel ((pre ++ [c]) ++ e :: line ++ suf)
    (Z.of_nat (length pre + 1 + length line)) []
  = Ok (line, Z.of_nat (length pre)).
Proof.
  intros He Hc Hline Hpre Hfuel.
  replace fuel with (length line + S (S (fuel - length line - 2)))%nat by lia.
  replace ((pre ++ [c]) ++ e :: line ++ suf)
    with (((pre ++ [c]) ++ [e]) ++ line ++ suf) by (by rewrite <- !app_assoc).
  replace (Z.of_nat (length pre + 1 + length line))
    with (Z.of_nat (length ((pre ++ [c]) ++ [e]) + length line) - 1)
    by (rewrite !length_app; simpl; lia).
  rewrite readNextEndLine_scan by (rewrite ?length_app; simpl; (done || lia)).
  replace (Z.of_nat (length ((pre ++ [c]) ++ [e])) - 1)
    with (Z.of_nat (length (pre ++ [c]))) by (rewrite !length_app; simpl; lia).
  replace (((pre ++ [c]) ++ [e]) ++ line ++ suf)
    with ((pre ++ [c]) ++ e :: line ++ suf) by (by rewrite <- !app_assoc).
  rewrite app_nil_r. by apply readNextEndLine_eol.
Qed.

Ltac list_len :=
  rewrite ?length_app; cbn [length b_ list_ascii_of_string app]; lia.

Lemma digit_no_eol (m : Z) :
  0 <= m < 10 -> EndOfFile.is_eol (Some (digit m)) = false.
Proof.
  intros Hm.
  assert (m = 0 \/ m = 1 \/ m = 2 \/ m = 3 \/ m = 4 \/ m = 5 \/ m = 6
          \/ m = 7 \/ m = 8 \/ m = 9) as Hcases by lia.
  repeat (destruct Hcases as [-> | Hcases]; [reflexivity|]). by subst.
Qed.

Lemma digits_no_eol (fuel : nat) :
  forall n, 0 <= n ->
    Forall (fun c => EndOfFile.is_eol (Some c) = false) (digits fuel n).
Proof.
  induction fuel as [| fuel IH]; intros n Hn; simpl; [constructor|].
  destruct (Z.ltb_spec n 10).
  - constructor; [apply digit_no_eol; lia | constructor].
  - apply Forall_app. split.
    + apply IH. apply Z.div_pos; lia.
    + constructor; [|constructor]. apply digit_no_eol. apply Z.mod_pos_bound. lia.
Qed.

Lemma str_int_no_eol (n : Z) :
  0 <= n ->
  Forall (fun c => EndOfFile.is_eol (Some c) = false) (str_int n)
  /\ exists text d, str_int n = text ++ [d].
Proof.
  intros Hn. unfold str_int. destruct (Z.ltb_spec n 0); [lia|].
  split; [by apply digits_no_eol|].
  simpl. destruct (n <? 10); [by exists [], (digit n)|].
  by eexists _, _.
Qed.

Section StartTheorems.
Context `{Primitives} `{ObjectLayer}.
Variable int_ : bytes -> result Z.

Lemma write_objects_appends (self : Writer.PdfFileWriter)
    (objects : list (option PdfObject)) :
  forall (i : nat) (stream stream' : bytes) (positions positions' : list Z),
    Writer.write_objects self objects i stream positions = Ok (stream', positions') ->
    exists body, stream' = stream ++ body.
Proof.
  induction objects as [| obj objects IH]; intros i stream stream' ps ps' Hw.
  - injection Hw as <- _. exists []. by rewrite app_nil_r.
  - cbn [Writer.write_objects] in Hw.
    apply bind_Ok in Hw as (key & Hkey & Hw).
    apply IH in Hw as (body & ->).
    eexists. by rewrite <- app_assoc.
Qed.

(** What [write] leaves in an empty stream ends with the line
    [startxref], the offset of the table and the end-of-file marker. *)
Lemma write_ends (self : Writer.PdfFileWriter) (out : bytes)
    (positions : list Z) (xref_location : Z) :
  Writer.write self [] = Ok (out, positions, xref_location) ->
  0 <= xref_location
  /\ exists middle,
       out = ("%"%char :: "P"%char :: middle) ++ [LF] ++ b_ "startxref" ++ [LF]
               ++ str_int xref_location ++ [LF] ++ b_ "%%EOF" ++ [LF].
Proof.
  unfold Writer.write. intros Hw.
  apply bind_Ok in Hw as ([stream ps] & Hobjects & Hw). cbv beta iota in Hw.
  injection Hw as <- _ <-. split; [lia|].
  apply write_objects_appends in Hobjects as (body & ->).
  exists (b_ "DF-1.3" ++ [LF] ++ body
            ++ Writer.xref_table (length (Writer._objects self)) ps
            ++ b_ "trailer" ++ [LF]
            ++ writeToStream (Writer.trailer_dict self) None).
  cbn [app b_ list_ascii_of_string]. rewrite <- !app_assoc.
  cbn [app]. reflexivity.
Qed.

Lemma read_startxref_of_end (A middle : bytes) (n : Z) (fuel : nat) :
  A = "%"%char :: "P"%char :: middle ->
  0 <= n -> int_ (str_int n) = Ok n ->
  (length (A ++ [LF] ++ b_ "startxref" ++ [LF]
             ++ str_int n ++ [LF] ++ b_ "%%EOF" ++ [LF]) < fuel)%nat ->
  EndOfFile.read_startxref int_ fuel
    (A ++ [LF] ++ b_ "startxref" ++ [LF]
       ++ str_int n ++ [LF] ++ b_ "%%EOF" ++ [LF])
  = Ok n.
Proof.
  intros HAeq Hn Hint Hfuel.
  destruct (str_int_no_eol n Hn) as [Hdigits (text & d & Htext)].
  assert (Hd : EndOfFile.is_eol (Some d) = false).
  { rewrite Htext in Hdigits. apply Forall_app in Hdigits as [_ Hd].
    by apply Forall_inv in Hd. }
  remember (A ++ [LF] ++ b_ "startxref" ++ [LF] ++ str_int n ++ [LF]
              ++ b_ "%%EOF" ++ [LF]) as out eqn:Hout.
  assert (Hlen : length out = (length A + 18 + length (str_int n))%nat).
  { subst out. list_len. }
  assert (HA : (2 <= length A)%nat) by (rewrite HAeq; list_len).
  assert (Hlt : (length text + 1 = length (str_int n))%nat)
    by (rewrite Htext; list_len).
  unfold EndOfFile.read_startxref.
  (* the empty line after the marker *)
  assert (H1 : EndOfFile.readNextEndLine fuel out
                 (EndOfFile.seek_end out (-1)) []
               = Ok ([], Z.of_nat (length A + 16 + length (str_int n)))).
  { unfold EndOfFile.seek_end. rewrite Hlen.
    replace out
      with (((A ++ [LF] ++ b_ "startxref" ++ [LF] ++ str_int n ++ [LF] ++ b_ "%%EO")
               ++ ["F"%char]) ++ LF :: [] ++ [])
      by (subst out; rewrite <- !app_assoc; reflexivity).
    replace (Z.max 0 (Z.of_nat (length A + 18 + length (str_int n)) + -1))
      with (Z.of_nat (length (A ++ [LF] ++ b_ "startxref" ++ [LF] ++ str_int n
                                ++ [LF] ++ b_ "%%EO") + 1 + length (@nil ascii)))
      by list_len.
    rewrite readNextEndLine_line; [|done | done | done | list_len | list_len].
    do 3 f_equal. list_len. }
  (* the marker *)
  assert (H2 : EndOfFile.readNextEndLine fuel out
                 (Z.of_nat (length A + 16 + length (str_int n))) []
               = Ok (b_ "%%EOF", Z.of_nat (length A + 11 + length text))).
  { replace out
      with (((A ++ [LF] ++ b_ "startxref" ++ [LF] ++ text) ++ [d])
              ++ LF :: b_ "%%EOF" ++ [LF])
      by (subst out; rewrite Htext, <- !app_assoc; reflexivity).
    replace (Z.of_nat (length A + 16 + length (str_int n)))
      with (Z.of_nat (length (A ++ [LF] ++ b_ "startxref" ++ [LF] ++ text)
                      + 1 + length (b_ "%%EOF")))
      by list_len.
    rewrite readNextEndLine_line;
      [| done | done | repeat constructor | list_len | list_len].
    do 3 f_equal. list_len. }
  (* the offset *)
  assert (H3 : EndOfFile.readNextEndLine fuel out
                 (Z.of_nat (length A + 11 + length text)) []
               = Ok (str_int n, Z.of_nat (length A + 9))).
  { replace out
      with (((A ++ [LF] ++ b_ "startxre") ++ ["f"%char])
              ++ LF :: str_int n ++ ([LF] ++ b_ "%%EOF" ++ [LF]))
      by (subst out; rewrite <- !app_assoc; reflexivity).
    replace (Z.of_nat (length A + 11 + length text))
      with (Z.of_nat (length (A ++ [LF] ++ b_ "startxre") + 1 + length (str_int n)))
      by list_len.
    rewrite readNextEndLine_line; [| done | done | done | list_len | list_len].
    do 3 f_equal. list_len. }
  (* the keyword *)
  assert (H4 : exists pos, EndOfFile.readNextEndLine fuel out
                             (Z.of_nat (length A + 9)) []
                           = Ok (b_ "startxref", pos)).
  { replace fuel with (length (b_ "startxref") + S (fuel - 10))%nat by list_len.
    replace out
      with ((A ++ [LF]) ++ b_ "startxref"
              ++ ([LF] ++ str_int n ++ [LF] ++ b_ "%%EOF" ++ [LF]))
      by (subst out; rewrite <- !app_assoc; reflexivity).
    replace (Z.of_nat (length A + 9))
      with (Z.of_nat (length (A ++ [LF]) + length (b_ "startxref")) - 1)
      by list_len.
    rewrite readNextEndLine_scan; [| repeat constructor | list_len].
    rewrite app_nil_r.
    replace (Z.of_nat (length (A ++ [LF])) - 1) with (Z.of_nat (length A))
      by list_len.
    cbn [EndOfFile.readNextEndLine].
    replace ((A ++ [LF]) ++ b_ "startxref"
               ++ [LF] ++ str_int n ++ [LF] ++ b_ "%%EOF" ++ [LF])
      with (A ++ LF :: (b_ "startxref" ++ [LF] ++ str_int n ++ [LF] ++ b_ "%%EOF" ++ [LF]))
      by (by rewrite <- !app_assoc).
    rewrite read1_at.
    change (EndOfFile.is_eol (Some LF)) with true. cbv beta iota.
    destruct (end_of_line_run_returns
                (A ++ LF :: (b_ "startxref" ++ [LF] ++ str_int n ++ [LF] ++ b_ "%%EOF" ++ [LF]))
                "%"%char "P"%char
                (middle ++ LF :: (b_ "startxref" ++ [LF] ++ str_int n ++ [LF] ++ b_ "%%EOF" ++ [LF])))
      with (fuel := (fuel - 10)%nat)
           (pos := EndOfFile.seek_cur (Z.of_nat (length A) + 1) (-2))
           (crlf := false)
      as [[pos crlf] Hrun]; [by rewrite HAeq | done | done | |].
    { unfold EndOfFile.seek_cur. lia. }
    rewrite Hrun, bind_ret. cbv beta iota. eauto. }
  destruct H4 as [pos4 H4].
  (* the loop [while not line] takes two turns *)
  assert (Hlast : EndOfFile.last_line fuel fuel out (EndOfFile.seek_end out (-1))
                  = Ok (b_ "%%EOF", Z.of_nat (length A + 11 + length text))).
  { destruct fuel as [| [| fuel']]; [lia | lia |].
    cbn [EndOfFile.last_line]. rewrite H1, bind_ret. cbv beta iota.
    rewrite bool_decide_eq_true_2 by done.
    rewrite H2, bind_ret. cbv beta iota.
    by rewrite bool_decide_eq_false_2 by done. }
  rewrite Hlast, bind_ret. cbv beta iota.
  rewrite bool_decide_eq_true_2 by done.
  change (negb true) with false. cbv iota.
  rewrite H3, bind_ret. cbv beta iota. rewrite Hint, bind_ret.
  rewrite H4, bind_ret. cbv beta iota.
  by rewrite bool_decide_eq_true_2 by done.
Qed.

(** X8.  The reader finds at the end of a written file the offset at which
    the writer put the cross-reference table: the marker, the offset
    and the keyword [startxref] are read backwards, whatever was
    written before them. *)
Theorem read_finds_written_startxref (self : Writer.PdfFileWriter)
    (out : bytes) (positions : list Z) (xref_location : Z) (fuel : nat) :
  Writer.write self [] = Ok (out, positions, xref_location) ->
  int_ (str_int xref_location) = Ok xref_location ->
  (length out < fuel)%nat ->
  EndOfFile.read_startxref int_ fuel out = Ok xref_location.
Proof.
  intros Hw Hint Hfuel.
  apply write_ends in Hw as (Hpos & middle & ->).
  by apply (read_startxref_of_end _ middle).
Qed.

End StartTheorems.

Lemma read_finds_written_startxref_witness :
  EndOfFile.read_startxref EndOfFile.decimal 400 EndOfFile.written = Ok 191.
Proof.
  apply (@read_finds_written_startxref Generic.primitives Examples.layer0
           EndOfFile.decimal Examples.writer0 EndOfFile.written [9; 62; 142] 191 400).
  - vm_compute. reflexivity.
  - vm_compute. reflexivity.
  - vm_compute. lia.
Defined.

(** X9.  A line that follows a carriage return and a line feed is read
    whole, and the position is left at the byte before the carriage
    return: the two bytes of the line end are stepped over together.
    The two bytes before the line end are no line ends themselves,
    and they are not the first bytes of the file. *)
Theorem readNextEndLine_crlf (pre line suf : bytes) (b c : ascii) (fuel : nat) :
  EndOfFile.is_eol (Some b) = false -> EndOfFile.is_eol (Some c) = false ->
  Forall (fun c => EndOfFile.is_eol (Some c) = false) line ->
  (1 <= length pre)%nat -> (length line + 3 <= fuel)%nat ->
  EndOfFile.readNextEndLine fuel
    ((pre ++ [b; c]) ++ CR :: LF :: line ++ suf)
    (Z.of_nat (length pre + 3 + length line)) []
  = Ok (line, Z.of_nat (length pre + 1)).
Proof.
  intros Hb Hc Hline Hpre Hfuel.
  replace fuel with (length line + S (S (S (fuel - length line - 3))))%nat by lia.
  replace ((pre ++ [b; c]) ++ CR :: LF :: line ++ suf)
    with (((pre ++ [b; c]) ++ [CR; LF]) ++ line ++ suf) by (by rewrite <- !app_assoc).
  replace (Z.of_nat (length pre + 3 + length line))
    with (Z.of_nat (length ((pre ++ [b; c]) ++ [CR; LF]) + length line) - 1)
    by list_len.
  rewrite readNextEndLine_scan by (done || list_len).
  rewrite app_nil_r.
  cbn [EndOfFile.readNextEndLine].
  replace (((pre ++ [b; c]) ++ [CR; LF]) ++ line ++ suf)
    with ((pre ++ [b; c; CR]) ++ LF :: line ++ suf) by (by rewrite <- !app_assoc).
  replace (Z.of_nat (length ((pre ++ [b; c]) ++ [CR; LF])) - 1)
    with (Z.of_nat (length (pre ++ [b; c; CR]))) by list_len.
  rewrite read1_at. change (EndOfFile.is_eol (Some LF)) with true. cbv beta iota.
  cbn [EndOfFile.end_of_line_run].
  replace (EndOfFile.seek_cur (Z.of_nat (length (pre ++ [b; c; CR])) + 1) (-2))
    with (Z.of_nat (length (pre ++ [b; c])))
    by (unfold EndOfFile.seek_cur; list_len).
  replace ((pre ++ [b; c; CR]) ++ LF :: line ++ suf)
    with ((pre ++ [b; c]) ++ CR :: LF :: line ++ suf) by (by rewrite <- !app_assoc).
  rewrite read1_at. change (EndOfFile.is_eol (Some CR)) with true. cbv beta iota.
  replace (EndOfFile.seek_cur
             (EndOfFile.seek_cur (Z.of_nat (length (pre ++ [b; c])) + 1) (-1)) (-2))
    with (Z.of_nat (length pre))
    by (unfold EndOfFile.seek_cur; list_len).
  replace ((pre ++ [b; c]) ++ CR :: LF :: line ++ suf)
    with (pre ++ b :: c :: CR :: LF :: line ++ suf) by (by rewrite <- !app_assoc).
  rewrite read1_at, Hb. cbv beta iota. rewrite bind_ret. cbv beta iota.
  do 2 f_equal. unfold EndOfFile.seek_cur. lia.
Qed.

Lemma readNextEndLine_crlf_witness :
  EndOfFile.readNextEndLine 10
    ((b_ "%" ++ ["3"%char; "3"%char]) ++ CR :: LF :: b_ "%%EOF" ++ [])
    (Z.of_nat (length (b_ "%") + 3 + length (b_ "%%EOF"))) []
  = Ok (b_ "%%EOF", Z.of_nat (length (b_ "%") + 1)).
Proof.
  apply (readNextEndLine_crlf (b_ "%") (b_ "%%EOF") [] "3"%char "3"%char 10);
    [reflexivity | reflexivity | repeat constructor | simpl; lia | simpl; lia].
Defined.

Section MarkerTheorems.
Variable int_ : bytes -> result Z.

(** X10.  A file whose last line is not the end-of-file marker is refused
    with [PdfReadError], before anything else is read: bytes after the
    marker are not stepped over. *)
Theorem read_startxref_no_marker (pre line : bytes) (c l e e' : ascii) (fuel : nat) :
  EndOfFile.is_eol (Some e) = true -> EndOfFile.is_eol (Some e') = true ->
  EndOfFile.is_eol (Some c) = false ->
  Forall (fun c => EndOfFile.is_eol (Some c) = false) (line ++ [l]) ->
  take 5 (line ++ [l]) <> b_ "%%EOF" ->
  (1 <= length pre)%nat -> (length line + 3 <= fuel)%nat ->
  EndOfFile.read_startxref int_ fuel
    ((pre ++ [c]) ++ e :: (line ++ [l]) ++ [e'])
  = Raise (PdfReadError "EOF marker not found").
Proof.
  intros He He' Hc Hline Hmarker Hpre Hfuel.
  assert (Hl : EndOfFile.is_eol (Some l) = false).
  { apply Forall_app in Hline as [_ Hl]. by apply Forall_inv in Hl. }
  unfold EndOfFile.read_startxref.
  set (out := (pre ++ [c]) ++ e :: (line ++ [l]) ++ [e']).
  assert (H1 : EndOfFile.readNextEndLine fuel out (EndOfFile.seek_end out (-1)) []
               = Ok ([], Z.of_nat (length pre + 2 + length line))).
  { subst out.
    replace ((pre ++ [c]) ++ e :: (line ++ [l]) ++ [e'])
      with (((pre ++ [c] ++ [e] ++ line) ++ [l]) ++ e' :: [] ++ [])
      by (by rewrite <- !app_assoc).
    replace (EndOfFile.seek_end _ (-1))
      with (Z.of_nat (length (pre ++ [c] ++ [e] ++ line) + 1 + length (@nil ascii)))
      by (unfold EndOfFile.seek_end; list_len).
    rewrite readNextEndLine_line; [| done | done | done | list_len | list_len].
    do 3 f_equal. list_len. }
  assert (H2 : EndOfFile.readNextEndLine fuel out
                 (Z.of_nat (length pre + 2 + length line)) []
               = Ok (line ++ [l], Z.of_nat (length pre))).
  { subst out.
    replace (Z.of_nat (length pre + 2 + length line))
      with (Z.of_nat (length pre + 1 + length (line ++ [l]))) by list_len.
    apply readNextEndLine_line; [done | done | done | done | list_len]. }
  assert (Hlast : EndOfFile.last_line fuel fuel out (EndOfFile.seek_end out (-1))
                  = Ok (line ++ [l], Z.of_nat (length pre))).
  { destruct fuel as [| [| fuel']]; [lia | lia |].
    cbn [EndOfFile.last_line]. rewrite H1, bind_ret. cbv beta iota.
    rewrite bool_decide_eq_true_2 by done.
    rewrite H2, bind_ret. cbv beta iota.
    rewrite bool_decide_eq_false_2; [done|]. by destruct line. }
  rewrite Hlast, bind_ret. cbv beta iota.
  by rewrite bool_decide_eq_false_2 by done.
Qed.

End MarkerTheorems.

Lemma read_startxref_no_marker_witness :
  EndOfFile.read_startxref EndOfFile.decimal 20
    ((b_ "%%EO" ++ ["F"%char]) ++ LF :: (b_ "junk" ++ ["!"%char]) ++ [LF])
  = Raise (PdfReadError "EOF marker not found").
Proof.
  apply (read_startxref_no_marker EndOfFile.decimal (b_ "%%EO") (b_ "junk")
           "F"%char "!"%char LF LF 20);
    [reflexivity | reflexivity | reflexivity | repeat constructor
     | discriminate | simpl; lia | simpl; lia].
Defined.

(** *** Rotation *)

Section RotationTheorems.
Variable decimal_plus : string -> Z -> result Z.

Lemma rotations_sum (angles : list Z) :
  forall (self : gmap string PdfObject) (r : Z),
    self !! "/Rotate" = Some (NumberObject r) ->
    Forall (fun angle => angle mod 90 = 0) angles ->
    Rotation.rotations decimal_plus self angles
    = Ok (<["/Rotate" := NumberObject (r + foldr Z.add 0 angles)]> self).
Proof.
  induction angles as [| angle angles IH]; intros self r Hr Hangles.
  - simpl. rewrite Z.add_0_r, insert_id by done. reflexivity.
  - apply Forall_cons in Hangles as [Hangle Hangles].
    cbn [Rotation.rotations]. unfold Rotation.rotateClockwise, Rotation._rotate.
    rewrite Hangle, Hr. simpl.
    rewrite (IH _ (r + angle)) by (by rewrite ?lookup_insert_eq).
    rewrite insert_insert_eq. do 3 f_equal. lia.
Qed.

(** X11.  Rotations add up and are never reduced modulo 360: after any
    number of calls of [rotateClockwise] by multiples of 90, [/Rotate]
    holds the sum of the old angle (0 when the page had none) and all
    the angles, and nothing else on the page has changed. *)
Theorem rotations_add_up (self : gmap string PdfObject) (angles : list Z) (r : Z) :
  self !! "/Rotate" = Some (NumberObject r) \/ (self !! "/Rotate" = None /\ r = 0) ->
  Forall (fun angle => angle mod 90 = 0) angles ->
  angles <> [] ->
  Rotation.rotations decimal_plus self angles
  = Ok (<["/Rotate" := NumberObject (r + foldr Z.add 0 angles)]> self).
Proof.
  intros [Hr | [Hnone ->]] Hangles Hne; [by apply rotations_sum|].
  destruct angles as [| angle angles]; [done|].
  apply Forall_cons in Hangles as [Hangle Hangles].
  cbn [Rotation.rotations]. unfold Rotation.rotateClockwise, Rotation._rotate.
  rewrite Hangle, Hnone. simpl.
  rewrite (rotations_sum _ _ angle) by (by rewrite ?lookup_insert_eq).
  by rewrite insert_insert_eq.
Qed.

(** X12.  Turning a page one way and back the other way by the same angle
    restores a page that had an integer [/Rotate]; a page that had no
    [/Rotate] is left with [/Rotate 0]. *)
Theorem rotate_there_and_back (self : gmap string PdfObject) (angle : Z) :
  angle mod 90 = 0 ->
  (forall r, self !! "/Rotate" = Some (NumberObject r) ->
             Rotation.rotateClockwise decimal_plus self angle
             ≫= (fun self => Rotation.rotateCounterClockwise decimal_plus self angle)
             = Ok self)
  /\ (self !! "/Rotate" = None ->
      Rotation.rotateClockwise decimal_plus self angle
      ≫= (fun self => Rotation.rotateCounterClockwise decimal_plus self angle)
      = Ok (<["/Rotate" := NumberObject 0]> self)).
Proof.
  intros Hangle. unfold Rotation.rotateClockwise, Rotation.rotateCounterClockwise,
    Rotation._rotate.
  rewrite Hangle. simpl. split.
  - intros r Hr. rewrite Hr. simpl. rewrite lookup_insert_eq. simpl.
    rewrite insert_insert_eq.
    replace (r + angle + - angle) with r by lia. by rewrite insert_id.
  - intros Hnone. rewrite Hnone. simpl. rewrite lookup_insert_eq. simpl.
    rewrite insert_insert_eq. do 3 f_equal. lia.
Qed.

End RotationTheorems.

Lemma rotations_add_up_witness :
  Rotation.rotations Rotation.no_decimals Examples.blank_page [90; 90; 90; 90]
  = Ok (<["/Rotate" := NumberObject (0 + foldr Z.add 0 [90; 90; 90; 90])]>
          Examples.blank_page).
Proof.
  apply (rotations_add_up Rotation.no_decimals Examples.blank_page [90; 90; 90; 90] 0).
  - right. split; [vm_compute; reflexivity | reflexivity].
  - repeat constructor.
  - discriminate.
Defined.

Lemma rotate_there_and_back_witness :
  (forall r, Examples.blank_page !! "/Rotate" = Some (NumberObject r) ->
             Rotation.rotateClockwise Rotation.no_decimals Examples.blank_page 270
             ≫= (fun self => Rotation.rotateCounterClockwise Rotation.no_decimals self 270)
             = Ok Examples.blank_page)
  /\ (Examples.blank_page !! "/Rotate" = None ->
      Rotation.rotateClockwise Rotation.no_decimals Examples.blank_page 270
      ≫= (fun self => Rotation.rotateCounterClockwise Rotation.no_decimals self 270)
      = Ok (<["/Rotate" := NumberObject 0]> Examples.blank_page)).
Proof.
  apply (rotate_there_and_back Rotation.no_decimals Examples.blank_page 270).
  reflexivity.
Defined.

(** *** Text extraction *)

Section TextTheorems.
Context `{Primitives} `{ObjectLayer} `{Numbers}.
Import ContentStreamOps.

Lemma createBlankPage_keys (self self' : Writer.PdfFileWriter)
    (width height : option number) (page : gmap string PdfObject) (key : string) :
  Writer.createBlankPage self width height = Ok (page, self') ->
  key <> "/Type"%string -> key <> "/Parent"%string ->
  key <> "/Resources"%string -> key <> "/MediaBox"%string ->
  page !! key = None.
Proof.
  unfold Writer.createBlankPage. intros Hpage Ht Hp Hr Hm.
  apply bind_Ok in Hpage as ([[w h] self1] & _ & Hpage). cbv beta iota in Hpage.
  apply bind_Ok in Hpage as (box & _ & Hpage).
  injection Hpage as <- _.
  by rewrite !lookup_insert_ne, lookup_empty by done.
Qed.

(** X13.  [extractText] of a page made by [createBlankPage] raises
    [KeyError]: the page has no [/Contents], and [extractText] reads
    the entry without asking whether it is there (where [getContents]
    gives [None]). *)
Theorem extractText_blank_page_raises (self self' : Writer.PdfFileWriter)
    (width height : option number) (page : gmap string PdfObject) (fuel : nat) :
  Writer.createBlankPage self width height = Ok (page, self') ->
  Text.extractText fuel page = Raise (KeyError "/Contents")
  /\ PageObject.getContents page = Ok None.
Proof.
  intros Hpage.
  assert (Hnone : page !! "/Contents" = None)
    by (by apply (createBlankPage_keys _ _ _ _ _ _ Hpage)).
  unfold Text.extractText, PageObject.getContents, dict_getitem, getitem.
  by rewrite Hnone.
Qed.

Lemma extract_operations_app (a b : list (Operation PdfObject)) :
  forall text,
    Text.extract_operations text (a ++ b)
    = Text.extract_operations text a ≫= fun text => Text.extract_operations text b.
Proof.
  induction a as [| operation a IH]; intros text; [done|].
  cbn [app Text.extract_operations].
  destruct (Text.extract_operation text operation); [apply IH | done | done].
Qed.

Lemma text_append_assoc (a b c : string) : (a +:+ (b +:+ c) = (a +:+ b) +:+ c)%string.
Proof.
  induction a as [| x a IH]; [done|].
  change (String x (a +:+ (b +:+ c)) = String x ((a +:+ b) +:+ c))%string.
  by f_equal.
Qed.

Lemma text_append_empty (a : string) : (a +:+ "" = a)%string.
Proof.
  induction a as [| x a IH]; [done|].
  change (String x (a +:+ "") = String x a)%string. by f_equal.
Qed.

Lemma extract_Tj_or_silent (operations : list (Operation PdfObject)) :
  Forall Text.Tj_or_silent operations ->
  forall text,
    Text.extract_operations text operations
    = Ok (text +:+ Text.shown_by_Tj operations).
Proof.
  induction 1 as [| operation operations Hop _ IH]; intros text.
  - simpl. by rewrite text_append_empty.
  - cbn [Text.extract_operations Text.shown_by_Tj foldr].
    destruct operation as [operands operator | settings image].
    + destruct Hop as [[-> (t & raw & rest & ->)] | (Ha & Hb & Hc & Hd & He)].
      * unfold Text.extract_operation.
        rewrite !bool_decide_eq_true_2 by done. simpl.
        rewrite IH. by rewrite text_append_assoc.
      * unfold Text.extract_operation.
        rewrite !bool_decide_eq_false_2 by done. simpl.
        rewrite IH. by destruct operands as [| [] ?].
    + simpl. by rewrite IH.
Qed.

(** X14.  On a page whose content stream shows text with [Tj] only, each
    time a text string, [extractText] gives the strings joined in the
    order of the stream; the other operators and the inline images
    add nothing. *)
Theorem extractText_joins_Tj (self : gmap string PdfObject)
    (operations : list (Operation PdfObject)) (fuel : nat) :
  self !! "/Contents" = Some (ContentStream operations) ->
  Forall Text.Tj_or_silent operations ->
  Text.extractText fuel self = Ok (Text.shown_by_Tj operations).
Proof.
  intros Hcontents Hops.
  unfold Text.extractText, dict_getitem, getitem. rewrite Hcontents. simpl.
  by rewrite extract_Tj_or_silent.
Qed.

(** X15.  Assigning its own data to a content stream doubles it: [_setData]
    reads the operations of the data and appends them to those the
    stream has, which it does not clear. *)
Theorem _setData_own_data_doubles (operations : list (Operation PdfObject))
    (fuel : nat) :
  Forall plain_operation operations ->
  (turns operations < fuel)%nat ->
  Text._setData fuel operations (_getData operations) = Ok (operations ++ operations)
  /\ _getData (operations ++ operations) = _getData operations ++ _getData operations.
Proof.
  intros Hplain Hfuel. unfold Text._setData.
  rewrite (parse_operations _ operations operations) by
    (by (apply Forall_Forall2_diag) || done).
  split; [done | apply _getData_app].
Qed.

End TextTheorems.

Lemma extractText_blank_page_raises_witness :
  @Text.extractText Examples.layer0 10 Examples.blank_page = Raise (KeyError "/Contents")
  /\ @PageObject.getContents Examples.layer0 Examples.blank_page = Ok None.
Proof.
  apply (@extractText_blank_page_raises Examples.layer0
           Generic.numbers Writer.__init__ Writer.__init__
           (Some (612, 0%nat)) (Some (792, 0%nat)) Examples.blank_page 10).
  vm_compute. reflexivity.
Defined.

Lemma extractText_joins_Tj_witness :
  @Text.extractText Examples.layer0 10 Text.page_hello
  = Ok (Text.shown_by_Tj
          [Op [] (b_ "BT");
           Op [TextStringObject "Hello" (b_ "Hello")] (b_ "Tj");
           Op [NumberObject 0; NumberObject 0] (b_ "m");
           InlineImage (DictionaryObject ∅) (b_ "xyz");
           Op [TextStringObject ", world" (b_ ", world")] (b_ "Tj");
           Op [] (b_ "ET")]).
Proof.
  apply (@extractText_joins_Tj Examples.layer0 Text.page_hello).
  - reflexivity.
  - repeat (constructor;
            [first [ exact I
                   | left; split; [reflexivity | by eexists _, _, _]
                   | right; split_and!; discriminate ] |]).
    constructor.
Defined.

(** The text of the example page. *)
Example page_hello_text :
  @Text.extractText Examples.layer0 10 Text.page_hello = Ok "Hello, world"%string.
Proof. vm_compute. reflexivity. Qed.

Lemma _setData_own_data_doubles_witness :
  @Text._setData Examples.layer_fonts 10
     [Op [NumberObject 0; NumberObject 0] (b_ "m");
      Op [NumberObject 10; NumberObject 10] (b_ "l");
      Op [] (b_ "S")]
     (@ContentStreamOps._getData Examples.layer_fonts
        [Op [NumberObject 0; NumberObject 0] (b_ "m");
         Op [NumberObject 10; NumberObject 10] (b_ "l");
         Op [] (b_ "S")])
  = Ok ([Op [NumberObject 0; NumberObject 0] (b_ "m");
         Op [NumberObject 10; NumberObject 10] (b_ "l");
         Op [] (b_ "S")]
          ++ [Op [NumberObject 0; NumberObject 0] (b_ "m");
              Op [NumberObject 10; NumberObject 10] (b_ "l");
              Op [] (b_ "S")])
  /\ @ContentStreamOps._getData Examples.layer_fonts
       ([Op [NumberObject 0; NumberObject 0] (b_ "m");
         Op [NumberObject 10; NumberObject 10] (b_ "l");
         Op [] (b_ "S")]
          ++ [Op [NumberObject 0; NumberObject 0] (b_ "m");
              Op [NumberObject 10; NumberObject 10] (b_ "l");
              Op [] (b_ "S")])
     = @ContentStreamOps._getData Examples.layer_fonts
         [Op [NumberObject 0; NumberObject 0] (b_ "m");
          Op [NumberObject 10; NumberObject 10] (b_ "l");
          Op [] (b_ "S")]
       ++ @ContentStreamOps._getData Examples.layer_fonts
            [Op [NumberObject 0; NumberObject 0] (b_ "m");
             Op [NumberObject 10; NumberObject 10] (b_ "l");
             Op [] (b_ "S")].
Proof.
  apply (@_setData_own_data_doubles Examples.layer_fonts
           [Op [NumberObject 0; NumberObject 0] (b_ "m");
            Op [NumberObject 10; NumberObject 10] (b_ "l");
            Op [] (b_ "S")] 10).
  - exact line_operations_plain.
  - simpl. lia.
Defined.

(** *** Page boxes *)

Section BoxTheorems.
Context `{ObjectLayer}.

Lemma RectangleObject__is_rectangle (arr r : PdfObject) :
  RectangleObject_ arr = Ok r -> exists a b c d, r = RectangleObject a b c d.
Proof.
  destruct arr as [| | | | | | | items | a b c d | | | |]; try discriminate.
  - destruct items as [| a [| b [| c [| d [| e items]]]]]; try discriminate.
    intros [= <-]. by eexists _, _, _, _.
  - intros [= <-]. by eexists _, _, _, _.
Qed.

(** X16.  Reading a box a second time gives the same rectangle and changes
    nothing: the first reading has stored on the page what it
    returned. *)
Theorem getRectangle_twice (self self' : gmap string PdfObject) (name : string)
    (defaults : list string) (r : PdfObject) :
  Rectangle.getRectangle self name defaults = Ok (r, self') ->
  Rectangle.getRectangle self' name defaults = Ok (r, self')
  /\ self' !! name = Some r.
Proof.
  unfold Rectangle.getRectangle at 1. intros Hget.
  assert (Hstored : exists a b c d,
             r = RectangleObject a b c d /\ self' !! name = Some r).
  { assert (Hfresh : forall found : result PdfObject,
               (retval ← found;
                retval ← RectangleObject_ retval;
                Ok (retval, <[name := retval]> self)) = Ok (r, self') ->
               exists a b c d,
                 r = RectangleObject a b c d /\ self' !! name = Some r).
    { intros found Hfound.
      apply bind_Ok in Hfound as (retval & Hretval & Hfound).
      apply bind_Ok in Hfound as (box & Hbox & Hfound).
      injection Hfound as <- <-.
      destruct (RectangleObject__is_rectangle _ _ Hbox) as (a & b & c & d & ->).
      eexists _, _, _, _. split; [reflexivity | by rewrite lookup_insert_eq]. }
    destruct (self !! name) as [found |] eqn:Ename; [|by apply (Hfresh _ Hget)].
    destruct found;
      try (by apply (Hfresh _ Hget)).
    injection Hget as <- <-. by eexists _, _, _, _. }
  destruct Hstored as (a & b & c & d & -> & Hstored).
  split; [|done]. unfold Rectangle.getRectangle. by rewrite Hstored.
Qed.

(** X17.  Reading [cropBox] on a page that has a media box and no crop box
    returns the media box and stores it as [/CropBox]: from then on
    the crop box no longer follows the media box, and [del] finds an
    entry to delete, where before it raised [KeyError]. *)
Theorem cropBox_reading_stores (self : gmap string PdfObject)
    (a b c d box2 : PdfObject) :
  self !! "/CropBox" = None ->
  self !! "/MediaBox" = Some (RectangleObject a b c d) ->
  Rectangle.is_RectangleObject box2 = true ->
  let stored := <["/CropBox" := RectangleObject a b c d]> self in
  Boxes.cropBox self = Ok (RectangleObject a b c d, stored)
  /\ Boxes.cropBox (Rectangle.set_mediaBox self box2)
     = Ok (box2, <["/CropBox" := box2]> (Rectangle.set_mediaBox self box2))
  /\ Boxes.cropBox (Rectangle.set_mediaBox stored box2)
     = Ok (RectangleObject a b c d, Rectangle.set_mediaBox stored box2)
  /\ Boxes.deleteRectangle self "/CropBox" = Raise (KeyError "/CropBox")
  /\ Boxes.deleteRectangle stored "/CropBox" = Ok self.
Proof.
  intros Hcrop Hmedia Hbox2 stored. subst stored.
  unfold Boxes.cropBox, Rectangle.getRectangle, Rectangle.set_mediaBox,
    Boxes.deleteRectangle.
  rewrite Hcrop. cbn [Rectangle.first_default]. rewrite Hmedia.
  split_and!.
  - reflexivity.
  - rewrite lookup_insert_ne, Hcrop by done. cbn [Rectangle.first_default].
    rewrite lookup_insert_eq.
    destruct box2; try discriminate. reflexivity.
  - rewrite lookup_insert_ne, lookup_insert_eq by done. reflexivity.
  - reflexivity.
  - rewrite lookup_insert_eq. f_equal. by apply delete_insert_id.
Qed.

End BoxTheorems.

Lemma getRectangle_twice_witness :
  @Rectangle.getRectangle Examples.layer0
     (<["/TrimBox" := RectangleObject (NumberObject 10) (NumberObject 20)
                        (NumberObject 110) (NumberObject 220)]> Examples.page_10_20)
     "/TrimBox" ["/CropBox"; "/MediaBox"]%string
  = Ok (RectangleObject (NumberObject 10) (NumberObject 20)
          (NumberObject 110) (NumberObject 220),
        <["/TrimBox" := RectangleObject (NumberObject 10) (NumberObject 20)
                          (NumberObject 110) (NumberObject 220)]> Examples.page_10_20)
  /\ (<["/TrimBox" := RectangleObject (NumberObject 10) (NumberObject 20)
                        (NumberObject 110) (NumberObject 220)]> Examples.page_10_20)
       !! "/TrimBox"
     = Some (RectangleObject (NumberObject 10) (NumberObject 20)
               (NumberObject 110) (NumberObject 220)).
Proof.
  apply (@getRectangle_twice Examples.layer0 Examples.page_10_20).
  vm_compute. reflexivity.
Defined.

Lemma cropBox_reading_stores_witness :
  @Boxes.cropBox Examples.layer0 Examples.page_10_20
  = Ok (RectangleObject (NumberObject 10) (NumberObject 20)
          (NumberObject 110) (NumberObject 220), Boxes.page_read)
  /\ @Boxes.cropBox Examples.layer0
       (Rectangle.set_mediaBox Examples.page_10_20 Text.letter_box)
     = Ok (Text.letter_box,
           <["/CropBox" := Text.letter_box]>
             (Rectangle.set_mediaBox Examples.page_10_20 Text.letter_box))
  /\ @Boxes.cropBox Examples.layer0 (Rectangle.set_mediaBox Boxes.page_read Text.letter_box)
     = Ok (RectangleObject (NumberObject 10) (NumberObject 20)
             (NumberObject 110) (NumberObject 220),
           Rectangle.set_mediaBox Boxes.page_read Text.letter_box)
  /\ Boxes.deleteRectangle Examples.page_10_20 "/CropBox" = Raise (KeyError "/CropBox")
  /\ Boxes.deleteRectangle Boxes.page_read "/CropBox" = Ok Examples.page_10_20.
Proof.
  apply (@cropBox_reading_stores Examples.layer0 Examples.page_10_20
           (NumberObject 10) (NumberObject 20) (NumberObject 110) (NumberObject 220)
           Text.letter_box);
    reflexivity.
Defined.

(** *** Loops of the tokenizer that do not end *)

Section LoopTheorems.
Context `{ObjectLayer}.
Import ContentStreamOps.

Lemma skip_comment_no_line_end (comment : bytes) :
  Forall (fun c => c <> CR /\ c <> LF) comment ->
  skip_comment comment = OutOfFuel.
Proof.
  induction 1 as [| c comment [Hcr Hlf] _ IH]; [done|].
  simpl. by rewrite !bool_decide_eq_false_2 by done.
Qed.

Lemma parse_comment_never_returns (data comment : bytes) :
  Forall (fun c => c <> CR /\ c <> LF) comment ->
  forall (fuel : nat) (operands : list PdfObject),
    parseContentStream fuel data ("%"%char :: comment) operands = OutOfFuel.
Proof.
  intros Hcomment [| fuel] operands; [done|].
  cbn [parseContentStream]. simpl readNonWhitespace. simpl.
  by rewrite (skip_comment_no_line_end comment).
Qed.

(** Operations that can be read back, followed by something on which
    the loop never ends: the loop never ends. *)
Lemma parse_never_returns_after (data rest : bytes)
    (operations operations' : list (Operation PdfObject)) :
  Forall2 operation_reads_back operations operations' ->
  (forall fuel, parseContentStream fuel data rest [] = OutOfFuel) ->
  forall fuel : nat,
    parseContentStream fuel data (_getData operations ++ rest) [] = OutOfFuel.
Proof.
  intros Hops Hrest.
  induction Hops as [| operation operation' operations operations' Hop _ IH];
    intros fuel; [apply Hrest|].
  destruct operation as [operands operator|]; [|done].
  destruct operation' as [operands' operator'|]; [|done].
  destruct Hop as [Hoperands (blank & -> & Hblank & Hplain)].
  unfold _getData. cbn [map concat]. fold (_getData operations).
  rewrite <- app_assoc.
  generalize (@nil PdfObject) as before.
  revert fuel.
  induction Hoperands as [| op op' operands operands' Hread _ IHo]; intros fuel before.
  - destruct fuel as [| fuel]; [done|].
    cbn [write_operation map concat]. rewrite app_nil_l, <- !app_assoc.
    cbn [app]. rewrite parse_operator by done. by rewrite IH.
  - destruct fuel as [| fuel]; [done|].
    cbn [write_operation map concat] in *. rewrite <- !app_assoc in *.
    cbn [app] in *. rewrite (parse_operand _ _ _ op op') by done.
    rewrite parse_blank1 by done. apply IHo.
Qed.

(** X18.  A content stream that ends in a comment without a line end after
    it is never read to its end: at the end of the stream the loop
    that skips the comment keeps reading the empty string.  Whatever
    the fuel, the loop is still running when it is spent. *)
Theorem comment_at_end_never_returns (data comment : bytes)
    (operations : list (Operation PdfObject)) (fuel : nat) :
  Forall plain_operation operations ->
  Forall (fun c => c <> CR /\ c <> LF) comment ->
  parseContentStream fuel data (_getData operations ++ "%"%char :: comment) []
  = OutOfFuel.
Proof.
  intros Hplain Hcomment.
  apply (parse_never_returns_after data _ operations operations).
  - by apply Forall_Forall2_diag.
  - intros fuel'. by apply parse_comment_never_returns.
Qed.

Lemma read_image_data_no_end (image : bytes) :
  occurrences (b_ "EI") image = 0%nat ->
  read_image_data image = OutOfFuel.
Proof.
  induction image as [| tok image IH]; [done|].
  intros Hocc. cbn [occurrences] in Hocc.
  assert (Himage : occurrences (b_ "EI") image = 0%nat) by lia.
  cbn [read_image_data]. rewrite (IH Himage).
  destruct (bool_decide (tok = "E"%char)) eqn:Etok; [|done].
  destruct image as [| next image]; [done|].
  destruct (bool_decide (next = "I"%char)) eqn:Enext; [|done].
  apply bool_decide_eq_true_1 in Etok, Enext. subst tok next.
  simpl in Hocc. discriminate Hocc.
Qed.

Lemma parse_BI (fuel : nat) (data stream : bytes) :
  (forall c, isalpha c = true -> c ∉ delimiterCharacters) ->
  parseContentStream (S fuel) data ("B"%char :: "I"%char :: SP :: stream) []
  = ('(ii, stream) ← _readInlineImage fuel data (SP :: stream);
     operations ← parseContentStream fuel data stream [];
     Ok (ii :: operations)).
Proof.
  intros Hdelim.
  assert (Hbi : read_operator ("B"%char :: "I"%char :: SP :: stream)
                = (b_ "BI", SP :: stream)).
  { cbn [read_operator].
    rewrite !(bool_decide_eq_false_2 (_ ∈ delimiterCharacters))
      by (by apply Hdelim).
    reflexivity. }
  cbn [parseContentStream].
  replace (readNonWhitespace ("B"%char :: "I"%char :: SP :: stream))
    with (Some "B"%char, "I"%char :: SP :: stream) by reflexivity.
  cbv beta iota.
  replace (isalpha "B" || bool_decide ("B"%char = "'"%char)
           || bool_decide ("B"%char = DQUOTE)) with true by reflexivity.
  cbv iota. rewrite Hbi. cbv beta iota.
  rewrite (bool_decide_eq_true_2 (b_ "BI" = b_ "BI")) by done.
  rewrite (bool_decide_eq_true_2 (@nil PdfObject = [])) by done.
  reflexivity.
Qed.

Lemma _readInlineImage_no_settings (fuel : nat) (data image : bytes) :
  _readInlineImage (S fuel) data (SP :: "I"%char :: "D"%char :: SP :: image)
  = ('(image, stream) ← read_image_data image;
     let '(_, stream) := peekNonWhitespace data stream in
     Ok (InlineImage (DictionaryObject ∅) image, stream)).
Proof.
  unfold _readInlineImage. cbn [read_settings].
  replace (peekNonWhitespace data (SP :: "I"%char :: "D"%char :: SP :: image))
    with (Some "I"%char, "I"%char :: "D"%char :: SP :: image) by reflexivity.
  cbv beta iota.
  rewrite (bool_decide_eq_true_2 (Some "I"%char = Some "I"%char)) by done.
  rewrite bind_ret. cbv beta iota.
  replace (take 3 ("I"%char :: "D"%char :: SP :: image))
    with ["I"%char; "D"%char; SP] by reflexivity.
  replace (drop 3 ("I"%char :: "D"%char :: SP :: image)) with image by reflexivity.
  replace (negb (bool_decide (take 2 ["I"%char; "D"%char; SP] = b_ "ID")))
    with false by reflexivity.
  reflexivity.
Qed.

(** X19.  An inline image without [EI] after its data is never read to its
    end either: the loop that gathers the image bytes keeps appending
    the empty string. *)
Theorem inline_image_without_end_never_returns (data image : bytes)
    (operations : list (Operation PdfObject)) (fuel : nat) :
  (forall c, isalpha c = true -> c ∉ delimiterCharacters) ->
  Forall plain_operation operations ->
  occurrences (b_ "EI") image = 0%nat ->
  parseContentStream fuel data (_getData operations ++ b_ "BI ID " ++ image) []
  = OutOfFuel.
Proof.
  intros Hdelim Hplain Himage.
  apply (parse_never_returns_after data _ operations operations);
    [by apply Forall_Forall2_diag|].
  intros [| fuel']; [done|].
  change (b_ "BI ID " ++ image)
    with ("B"%char :: "I"%char :: SP :: "I"%char :: "D"%char :: SP :: image).
  rewrite parse_BI by done.
  destruct fuel' as [| fuel'']; [done|].
  rewrite _readInlineImage_no_settings.
  by rewrite read_image_data_no_end.
Qed.

Lemma read_image_data_to_end (image rest : bytes) :
  occurrences (b_ "EI") image = 0%nat ->
  read_image_data (image ++ b_ "EI" ++ rest) = Ok (image, rest).
Proof.
  induction image as [| tok image IH]; [done|].
  intros Hocc. cbn [occurrences] in Hocc.
  assert (Himage : occurrences (b_ "EI") image = 0%nat) by lia.
  cbn [app read_image_data]. rewrite (IH Himage), bind_ret.
  destruct (bool_decide (tok = "E"%char)) eqn:Etok; [|done].
  destruct image as [| next image]; [done|].
  cbn [app]. destruct (bool_decide (next = "I"%char)) eqn:Enext; [|done].
  apply bool_decide_eq_true_1 in Etok, Enext. subst tok next.
  simpl in Hocc. discriminate Hocc.
Qed.

(** X20.  The data of an inline image is what stands before the first [EI]:
    image bytes that hold an [E] followed by an [I] are cut there,
    and the rest of the image is taken for operators. *)
Theorem read_image_data_stops_at_first_EI (image rest : bytes) :
  occurrences (b_ "EI") image = 0%nat ->
  read_image_data (image ++ b_ "EI" ++ rest) = Ok (image, rest).
Proof. apply read_image_data_to_end. Qed.

End LoopTheorems.

Lemma comment_at_end_never_returns_witness :
  @ContentStreamOps.parseContentStream Examples.layer_fonts 1000 []
     (@ContentStreamOps._getData Examples.layer_fonts
        [Op [NumberObject 0; NumberObject 0] (b_ "m");
         Op [NumberObject 10; NumberObject 10] (b_ "l");
         Op [] (b_ "S")]
      ++ "%"%char :: b_ "the end") []
  = OutOfFuel.
Proof.
  apply (@comment_at_end_never_returns Examples.layer_fonts [] (b_ "the end")
           [Op [NumberObject 0; NumberObject 0] (b_ "m");
            Op [NumberObject 10; NumberObject 10] (b_ "l");
            Op [] (b_ "S")] 1000).
  - exact line_operations_plain.
  - repeat (constructor; [split; discriminate|]). constructor.
Defined.

Lemma inline_image_without_end_never_returns_witness :
  @ContentStreamOps.parseContentStream Examples.layer_fonts 1000 []
     (@ContentStreamOps._getData Examples.layer_fonts
        [Op [NumberObject 0; NumberObject 0] (b_ "m");
         Op [NumberObject 10; NumberObject 10] (b_ "l");
         Op [] (b_ "S")]
      ++ b_ "BI ID " ++ b_ "xEyIz") []
  = OutOfFuel.
Proof.
  apply (@inline_image_without_end_never_returns Examples.layer_fonts []
           (b_ "xEyIz")
           [Op [NumberObject 0; NumberObject 0] (b_ "m");
            Op [NumberObject 10; NumberObject 10] (b_ "l");
            Op [] (b_ "S")] 1000).
  - exact letters_not_delimiters.
  - exact line_operations_plain.
  - reflexivity.
Defined.

Lemma read_image_data_stops_at_first_EI_witness :
  ContentStreamOps.read_image_data (b_ "abE" ++ b_ "EI" ++ b_ "cdEI Q")
  = Ok (b_ "abE", b_ "cdEI Q").
Proof.
  apply (read_image_data_stops_at_first_EI (b_ "abE") (b_ "cdEI Q")).
  reflexivity.
Defined.

(** *** The writer: owned objects *)

(** X21.  The reference [_addObject] returns resolves to the object added,
    and the references handed out before resolve as they did: ids are
    given in order and never reused. *)
Theorem _addObject_then_getObject (self : Writer.PdfFileWriter) (obj : PdfObject) :
  let '(self', ref) := Writer._addObject self obj in
  Writer.getObject self' ref = Ok (Some obj)
  /\ ref = IndirectObject (Z.of_nat (length (Writer._objects self)) + 1) 0
  /\ forall (i : nat) (old : option PdfObject) (generation : Z),
       Writer._objects self !! i = Some old ->
       Writer.getObject self' (IndirectObject (Z.of_nat i + 1) generation) = Ok old
       /\ Writer.getObject self (IndirectObject (Z.of_nat i + 1) generation) = Ok old.
Proof.
  unfold Writer._addObject, Writer.getObject, Writer.with_objects.
  cbn [Writer._objects]. split_and!.
  - rewrite length_app. simpl length.
    replace (Z.of_nat (length (Writer._objects self) + 1) - 1)
      with (Z.of_nat (length (Writer._objects self))) by lia.
    apply list_index_app_last.
  - rewrite length_app. simpl length. do 2 f_equal. lia.
  - intros i old generation Hi.
    replace (Z.of_nat i + 1 - 1) with (Z.of_nat i) by lia.
    split; apply list_index_inside; [|done].
    by apply lookup_app_l_Some.
Qed.

(** X22.  [getObject] takes the id less one as a Python index: an id above
    the number of objects raises [IndexError], and the id 0, which no
    object has, resolves to the object added last. *)
Theorem getObject_out_of_range (self : Writer.PdfFileWriter)
    (objects : list (option PdfObject)) (last : option PdfObject)
    (idnum generation : Z) :
  Writer._objects self = objects ++ [last] ->
  Z.of_nat (length objects) + 1 < idnum ->
  Writer.getObject self (IndirectObject idnum generation) = Raise IndexError
  /\ Writer.getObject self (IndirectObject 0 generation) = Ok last.
Proof.
  intros Hobjects Hid. unfold Writer.getObject. rewrite Hobjects. split.
  - apply list_index_beyond. rewrite length_app. simpl. lia.
  - unfold list_index. rewrite length_app. simpl length.
    change (0 - 1 <? 0) with true. cbv iota.
    replace (0 - 1 + Z.of_nat (length objects + 1)) with (Z.of_nat (length objects))
      by lia.
    replace ((Z.of_nat (length objects) <? 0)
             || (Z.of_nat (length objects + 1) <=? Z.of_nat (length objects)))
      with false
      by (symmetry; apply orb_false_iff; split; [lia | apply Z.leb_gt; lia]).
    rewrite Nat2Z.id, lookup_app_r by lia. by rewrite Nat.sub_diag.
Qed.

Lemma getObject_out_of_range_witness :
  Writer.getObject Examples.writer0 (IndirectObject 7 0) = Raise IndexError
  /\ Writer.getObject Examples.writer0 (IndirectObject 0 0)
     = Ok (Some (DictionaryObject
                   (<["/Type" := NameObject "/Catalog"]>
                      (<["/Pages" := Writer._pages]> ∅)))).
Proof.
  apply (getObject_out_of_range Examples.writer0
           (take 2 (Writer._objects Examples.writer0))).
  - reflexivity.
  - simpl. lia.
Defined.

Lemma getObject_of_last (objects : list (option PdfObject)) (obj : option PdfObject)
    (ID : option PdfObject) (key : bytes) :
  Writer.getObject
    {| Writer._objects := objects ++ [obj]; Writer._ID := ID;
       Writer._encrypt := Some (Z.of_nat (length (objects ++ [obj])));
       Writer._encrypt_key := key |}
    (IndirectObject (Z.of_nat (length (objects ++ [obj]))) 0)
  = Ok obj.
Proof.
  unfold Writer.getObject. cbn [Writer._objects].
  rewrite length_app. simpl length.
  replace (Z.of_nat (length objects + 1) - 1) with (Z.of_nat (length objects)) by lia.
  apply list_index_app_last.
Qed.

(** *** The writer encrypts, the reader decrypts *)

Section EncryptTheorems.
Context `{Primitives}.
Variable _alg33 : bytes -> bytes -> Z -> Z -> bytes.

(** X23.  A file encrypted by the writer opens with its user password: on
    the encryption dictionary and the identifier that [encrypt]
    makes, with 40 or with 128 bits, [decrypt] of the reader returns 1
    and stores the very key the writer encrypts with.  The writer
    hands [False] to algorithm 35, the reader the default
    [BooleanObject(False)] of a dictionary without
    [/EncryptMetadata]: both are the boolean [false] of
    [Primitives]. *)
Theorem encrypt_then_decrypt (self : Writer.PdfFileWriter) (user_pwd : bytes)
    (owner_pwd : option bytes) (use_128bit : bool) (now random : bytes) :
  let writer := WriterSecurity.encrypt _alg33 self user_pwd owner_pwd
                  use_128bit now random in
  exists (idnum : Z) (d : gmap string PdfObject) (ID : PdfObject)
         (reader : Reader.PdfFileReader),
    Writer._encrypt writer = Some idnum
    /\ Writer.getObject writer (IndirectObject idnum 0) = Ok (Some (DictionaryObject d))
    /\ Writer._ID writer = Some ID
    /\ WriterSecurity.reader_of d ID = Some reader
    /\ Reader.decrypt reader user_pwd
       = (Ok 1, Reader.set_decryption_key reader (Writer._encrypt_key writer)).
Proof.
  unfold WriterSecurity.encrypt.
  destruct use_128bit.
  - change (128 / 8) with 16. change (3 =? 2) with false. change (2 =? 2) with true.
    change (16 * 8) with 128.
    cbv beta iota zeta.
    remember (_alg33 (default user_pwd owner_pwd) user_pwd 3 16) as O eqn:HO.
    remember (md5 now) as ID_1 eqn:HID.
    destruct (_alg35 _ _ _ _ _ _ _) as [U key] eqn:Ealg.
    eexists _, _, _,
      {| Reader.Encrypt :=
           Some {| Reader.Filter := NameObject "/Standard"; Reader.V := 2;
                   Reader.R := 3; Reader.Length := Some 128;
                   Reader.O := O; Reader.U := U; Reader.P := -1;
                   Reader.EncryptMetadata := None |};
         Reader.id1_entry := ID_1;
         Reader._decryption_key := None;
         Reader._override_encryption := false |}.
    cbn [Writer._encrypt Writer._ID Writer._encrypt_key].
    split; [reflexivity|]. split; [apply getObject_of_last|].
    split; [reflexivity|]. split.
    { unfold WriterSecurity.reader_of, WriterSecurity.as_EncryptDict.
      repeat (rewrite lookup_insert_eq || rewrite lookup_insert_ne by done
              || rewrite lookup_empty).
      reflexivity. }
    unfold Reader.decrypt, Reader._decrypt, Reader._authenticateUserPassword,
      Reader.trailer_Encrypt, Reader.set_override, Reader.getLength.
    cbn. change (128 `div` 8) with 16. rewrite Ealg.
    rewrite bool_decide_eq_true_2 by done. reflexivity.
  - change (40 / 8) with 5. change (2 =? 2) with true. change (1 =? 2) with false.
    cbv beta iota zeta.
    remember (_alg33 (default user_pwd owner_pwd) user_pwd 2 5) as O eqn:HO.
    remember (md5 now) as ID_1 eqn:HID.
    destruct (_alg34 _ _ _ _) as [U key] eqn:Ealg.
    eexists _, _, _,
      {| Reader.Encrypt :=
           Some {| Reader.Filter := NameObject "/Standard"; Reader.V := 1;
                   Reader.R := 2; Reader.Length := None;
                   Reader.O := O; Reader.U := U; Reader.P := -1;
                   Reader.EncryptMetadata := None |};
         Reader.id1_entry := ID_1;
         Reader._decryption_key := None;
         Reader._override_encryption := false |}.
    cbn [Writer._encrypt Writer._ID Writer._encrypt_key].
    split; [reflexivity|]. split; [apply getObject_of_last|].
    split; [reflexivity|]. split.
    { unfold WriterSecurity.reader_of, WriterSecurity.as_EncryptDict.
      repeat (rewrite lookup_insert_eq || rewrite lookup_insert_ne by done
              || rewrite lookup_empty).
      reflexivity. }
    unfold Reader.decrypt, Reader._decrypt, Reader._authenticateUserPassword,
      Reader.trailer_Encrypt, Reader.set_override.
    cbn. rewrite Ealg.
    rewrite bool_decide_eq_true_2 by done. reflexivity.
Qed.

End EncryptTheorems.

(** *** The writer: where pages go *)

Lemma list_insert_at_index {A} (l : list A) (index : Z) (x : A) :
  0 <= index ->
  list_index (list_insert_at l index x) (Z.min index (Z.of_nat (length l))) = Ok x.
Proof.
  intros Hindex. unfold list_insert_at.
  destruct (Z.ltb_spec index 0); [lia|].
  set (i := Z.min index (Z.of_nat (length l))).
  assert (Hi : length (take (Z.to_nat i) l) = Z.to_nat i)
    by (rewrite length_take; lia).
  replace i with (Z.of_nat (Z.to_nat i)) at 3 by lia.
  apply list_index_inside.
  rewrite lookup_app_r by lia. by rewrite Hi, Nat.sub_diag.
Qed.

Section PlaceTheorems.
Context `{Primitives} `{ObjectLayer} `{Numbers}.

(** What [_addPage] leaves: the page, with its parent set, is the last
    owned object, and the root holds the kids after [action]. *)
Lemma _addPage_result (self : Writer.PdfFileWriter)
    (root : gmap string PdfObject) (others : list (option PdfObject))
    (kids : list PdfObject) (page : gmap string PdfObject)
    (action : list PdfObject -> PdfObject -> list PdfObject) :
  Writer._objects self = Some (DictionaryObject root) :: others ->
  root !! "/Kids" = Some (ArrayObject kids) ->
  root !! "/Count" = Some (NumberObject (Z.of_nat (length kids))) ->
  page !! "/Type" = Some (NameObject "/Page") ->
  Writer._addPage self page action
  = Ok (Writer.with_objects self
          (Some (DictionaryObject
                   (<["/Count" := NumberObject (Z.of_nat (length kids) + 1)]>
                      (<["/Kids" :=
                           ArrayObject
                             (action kids
                                (IndirectObject
                                   (Z.of_nat (length (Writer._objects self)) + 1) 0))]>
                         root)))
             :: others ++ [Some (DictionaryObject (<["/Parent" := Writer._pages]> page))])).
Proof.
  intros Hobjs Hkids Hcount Htype.
  unfold Writer._addPage, dict_getitem, getitem. rewrite Htype.
  cbn [mbind result_bind getObject eq_str]. simpl negb. cbv iota.
  unfold Writer._addObject, Writer.pages_root, Writer.getObject, Writer._pages,
    Writer.with_objects.
  cbn [Writer._objects]. rewrite Hobjs.
  change (1 - 1) with 0. rewrite <- app_comm_cons, list_index_head.
  cbn [mbind result_bind as_dict]. unfold getitem. rewrite Hkids.
  cbn [mbind result_bind Writer.as_array].
  rewrite lookup_insert_ne, Hcount by done.
  cbn [mbind result_bind getObject Writer.as_int Writer._ID Writer._encrypt
       Writer._encrypt_key Writer._objects].
  replace (Z.of_nat (length (Some (DictionaryObject root)
                               :: others
                               ++ [Some (DictionaryObject
                                           (<["/Parent" := IndirectObject 1 0]> page))])))
    with (Z.of_nat (length (Some (DictionaryObject root) :: others)) + 1)
    by (simpl length; rewrite length_app; simpl length; lia).
  reflexivity.
Qed.

(** X24.  [insertPage(page, index)] puts the page at [index], or last when
    [index] is beyond the pages: [getPage] finds there the page that
    was handed in, with [/Parent] set to the pages root, and the
    number of pages is one more. *)
Theorem insertPage_then_getPage (self : Writer.PdfFileWriter)
    (kids : list PdfObject) (page : gmap string PdfObject) (index : Z) :
  Writer.page_tree self kids ->
  page !! "/Type" = Some (NameObject "/Page") ->
  0 <= index ->
  exists self',
    Writer.insertPage self page index = Ok self'
    /\ Writer.getPage self' (Z.min index (Z.of_nat (length kids)))
       = Ok (Z.of_nat (length (Writer._objects self)) + 1,
             <["/Parent" := Writer._pages]> page)
    /\ Writer.getNumPages self' = Ok (Z.of_nat (length kids) + 1).
Proof.
  intros (root & others & Hobjs & Hkids & Hcount & Hrefs) Htype Hindex.
  eexists. split.
  { unfold Writer.insertPage. by apply (_addPage_result self root others kids). }
  unfold Writer.getPage, Writer.getNumPages, Writer.pages_root, Writer.getObject,
    Writer._pages, Writer.with_objects.
  cbn [Writer._objects]. change (1 - 1) with 0. rewrite list_index_head.
  cbn [mbind result_bind as_dict]. unfold dict_getitem, getitem.
  rewrite lookup_insert_eq. rewrite lookup_insert_ne, lookup_insert_eq by done.
  cbn [mbind result_bind getObject Writer.as_array Writer.as_int].
  split; [|reflexivity].
  rewrite list_insert_at_index by done.
  cbn [mbind result_bind].
  replace (Z.of_nat (length (Writer._objects self)) + 1 - 1)
    with (Z.of_nat (length (Some (DictionaryObject
                   (<["/Count" := NumberObject (Z.of_nat (length kids) + 1)]>
                      (<["/Kids" :=
                           ArrayObject
                             (list_insert_at kids index
                                (IndirectObject
                                   (Z.of_nat (length (Writer._objects self)) + 1) 0))]>
                         root))) :: others)))
    by (rewrite Hobjs; simpl length; lia).
  rewrite app_comm_cons, list_index_app_last.
  reflexivity.
Qed.

(** X25.  Without a width, [insertBlankPage] looks for the page at [index]
    whether or not there is one: beyond the pages it raises
    [IndexError], and never [PageSizeNotDefinedError]; the test of the
    number of pages only guards the case of a width without a height.
    On a writer without pages [addBlankPage] raises
    [PageSizeNotDefinedError]. *)
Theorem insertBlankPage_without_width (self : Writer.PdfFileWriter)
    (kids : list PdfObject) (height : option number) (index : Z) :
  Writer.page_tree self kids ->
  Z.of_nat (length kids) <= index ->
  Writer.insertBlankPage self None height index = Raise IndexError
  /\ (kids = [] ->
      Writer.addBlankPage self None height = Raise PageSizeNotDefinedError).
Proof.
  intros Ht Hindex.
  destruct (page_tree_root self kids Ht) as (root & Hroot & Hkids & Hcount).
  split.
  - unfold Writer.insertBlankPage. cbn [mbind result_bind].
    unfold Writer.page_size, Writer.getPage. rewrite Hroot.
    cbn [mbind result_bind]. unfold dict_getitem, getitem. rewrite Hkids.
    cbn [mbind result_bind getObject Writer.as_array].
    by rewrite list_index_beyond.
  - intros ->. unfold Writer.addBlankPage, Writer.createBlankPage.
    rewrite (page_tree_getNumPages self [] Ht). reflexivity.
Qed.

End PlaceTheorems.

Lemma insertPage_then_getPage_witness :
  exists self',
    Writer.insertPage Examples.writer_four Examples.foreign_page 2 = Ok self'
    /\ Writer.getPage self' (Z.min 2 (Z.of_nat (length
         [IndirectObject 5 0; IndirectObject 7 0;
          IndirectObject 4 0; IndirectObject 6 0])))
       = Ok (Z.of_nat (length (Writer._objects Examples.writer_four)) + 1,
             <["/Parent" := Writer._pages]> Examples.foreign_page)
    /\ Writer.getNumPages self'
       = Ok (Z.of_nat (length [IndirectObject 5 0; IndirectObject 7 0;
                               IndirectObject 4 0; IndirectObject 6 0]) + 1).
Proof.
  apply (@insertPage_then_getPage Examples.layer0 Examples.writer_four
           [IndirectObject 5 0; IndirectObject 7 0;
            IndirectObject 4 0; IndirectObject 6 0]
           Examples.foreign_page 2).
  - eexists _, _. split_and!; [vm_compute; reflexivity | vm_compute; reflexivity
                               | vm_compute; reflexivity |].
    repeat (constructor; [eexists; split; [reflexivity | vm_compute; split; congruence]|]).
    constructor.
  - reflexivity.
  - lia.
Defined.

Lemma insertBlankPage_without_width_witness :
  Writer.insertBlankPage Examples.writer0 None None 0 = Raise IndexError
  /\ (@nil PdfObject = [] ->
      Writer.addBlankPage Examples.writer0 None None = Raise PageSizeNotDefinedError).
Proof.
  apply (@insertBlankPage_without_width Examples.layer0 Generic.numbers
           Examples.writer0 [] None 0).
  - eexists _, _. split_and!; [reflexivity | reflexivity | reflexivity | constructor].
  - simpl. lia.
Defined.

(** *** The page tree *)

Section PageTreeReaderTheorems.
Context `{ObjectLayer}.

(** A page keeps its own entries; what it lacks comes from what was
    handed down. *)
Lemma inherited_lookup (inherit pages : gmap string PdfObject) (key : string) :
  PageTree.inherited inherit pages !! key
  = match pages !! key with
    | Some value => Some value
    | None => inherit !! key
    end.
Proof. apply (merge_classic_lookup inherit pages key). Qed.




(** X27.  What a node of pages puts into [inherit] stays there when the
    node is left: the dictionary is one object for the whole tree.  A
    page that comes after a node of pages, under the same parent,
    gets the [/Rotate] of that node though the node is not among its
    ancestors. *)
Theorem flatten_attribute_leaks_to_sibling (root node page : gmap string PdfObject)
    (rotate : PdfObject) (i1 g1 i2 g2 : Z) (fuel : nat) :
  root !! "/Type" = Some (NameObject "/Pages") ->
  root !! "/Kids" = Some (ArrayObject [IndirectObject i1 g1; IndirectObject i2 g2]) ->
  (forall attr, attr ∈ PageTree.inheritablePageAttributes -> root !! attr = None) ->
  resolve i1 g1 = Ok (DictionaryObject node) ->
  node !! "/Type" = Some (NameObject "/Pages") ->
  node !! "/Kids" = Some (ArrayObject []) ->
  node !! "/Rotate" = Some rotate ->
  (forall i g, rotate <> IndirectObject i g) ->
  node !! "/Resources" = None -> node !! "/MediaBox" = None ->
  node !! "/CropBox" = None ->
  resolve i2 g2 = Ok (DictionaryObject page) ->
  page !! "/Type" = Some (NameObject "/Page") ->
  page !! "/Rotate" = None ->
  (3 <= fuel)%nat ->
  exists flat,
    PageTree._flatten fuel (DictionaryObject root) ∅ None []
    = Ok ({[ "/Rotate" := rotate ]}, [(flat, Some (IndirectObject i2 g2))])
    /\ flat !! "/Rotate" = Some rotate.
Proof.
  intros Hrtype Hrkids Hrattrs Hnode Hntype Hnkids Hrotate Hdirect
    Hn1 Hn2 Hn3 Hpage Hptype Hprotate Hfuel.
  destruct fuel as [| [| [| fuel]]]; [lia | lia | lia |].
  exists (PageTree.inherited {[ "/Rotate" := rotate ]} page). split.
  - cbn [PageTree._flatten PageTree.entries_of mbind result_bind].
    unfold dict_getitem, getitem. rewrite Hrtype.
    cbn [mbind result_bind getObject eq_str]. simpl String.eqb. cbv iota.
    assert (Hg0 : PageTree.gather root PageTree.inheritablePageAttributes ∅ = Ok ∅).
    { unfold PageTree.inheritablePageAttributes. cbn [PageTree.gather].
      rewrite !Hrattrs by (unfold PageTree.inheritablePageAttributes; set_solver).
      reflexivity. }
    rewrite Hg0. cbn [mbind result_bind].
    unfold dict_getitem, getitem. rewrite Hrkids.
    cbn [mbind result_bind getObject PageTree.iterate PageTree.kids_loop].
    rewrite Hnode. cbn [mbind result_bind].
    (* the node of pages *)
    cbn [PageTree._flatten PageTree.entries_of mbind result_bind].
    unfold dict_getitem, getitem. rewrite Hntype.
    cbn [mbind result_bind getObject eq_str]. simpl String.eqb. cbv iota.
    assert (Hg1 : PageTree.gather node PageTree.inheritablePageAttributes ∅
                  = Ok {[ "/Rotate" := rotate ]}).
    { unfold PageTree.inheritablePageAttributes. cbn [PageTree.gather].
      rewrite Hn1, Hn2, Hn3, Hrotate. unfold dict_getitem, getitem.
      rewrite Hrotate. cbn [mbind result_bind].
      destruct rotate; try reflexivity. by destruct (Hdirect idnum generation). }
    rewrite Hg1. cbn [mbind result_bind].
    unfold dict_getitem, getitem. rewrite Hnkids.
    cbn [mbind result_bind getObject PageTree.iterate PageTree.kids_loop].
    (* the page after it *)
    rewrite Hpage. cbn [mbind result_bind PageTree.entries_of].
    unfold dict_getitem, getitem. rewrite Hptype. reflexivity.
  - rewrite inherited_lookup, Hprotate. apply lookup_singleton_eq.
Qed.

End PageTreeReaderTheorems.

Lemma flatten_attribute_leaks_to_sibling_witness :
  exists flat,
    @PageTree._flatten PageTree.leaky_layer 5
       (DictionaryObject
          (<["/Type" := NameObject "/Pages"]>
             (<["/Kids" := ArrayObject [IndirectObject 2 0; IndirectObject 3 0]]> ∅)))
       ∅ None []
    = Ok ({[ "/Rotate" := NumberObject 90 ]}, [(flat, Some (IndirectObject 3 0))])
    /\ flat !! "/Rotate" = Some (NumberObject 90).
Proof.
  apply (@flatten_attribute_leaks_to_sibling PageTree.leaky_layer
           (<["/Type" := NameObject "/Pages"]>
              (<["/Kids" := ArrayObject [IndirectObject 2 0; IndirectObject 3 0]]> ∅))
           (<["/Type" := NameObject "/Pages"]>
              (<["/Rotate" := NumberObject 90]>
                 (<["/Kids" := ArrayObject []]> ∅)))
           (<["/Type" := NameObject "/Page"]>
              (<["/MediaBox" := Text.letter_box]> ∅))
           (NumberObject 90) 2 0 3 0 5); try reflexivity; try discriminate.
  - intros attr Hattr.
    apply (bool_decide_eq_true_2 (attr ∈ PageTree.inheritablePageAttributes)) in Hattr.
    unfold PageTree.inheritablePageAttributes in Hattr.
    rewrite !bool_decide_eq_true in Hattr.
    repeat (apply elem_of_cons in Hattr as [-> | Hattr]; [reflexivity|]).
    by apply elem_of_nil in Hattr.
  - lia.
Defined.


(** *** Destinations (destination.py, reader.py) *)

Ltac destination_cases Hdest :=
  unfold Destination.__init__ in Hdest;
  repeat match type of Hdest with
         | (if ?c then _ else _) = _ => destruct c eqn:?
         | match ?args with _ => _ end = _ => destruct args
         end;
  try discriminate Hdest;
  injection Hdest as <-.

(** X28.  A destination that was built gives back, through its
    properties [title], [page] and [typ], the three values it was
    built from, whatever the fit type and its operands. *)
Theorem destination_reads_back (title page typ : PdfObject)
    (args : list PdfObject) (dest : Destination.t) :
  Destination.__init__ title page typ args = Ok dest ->
  Outline.title dest = Some title
  /\ Outline.page dest = Some page
  /\ Outline.typ dest = Some typ.
Proof.
  intros Hdest. unfold Outline.title, Outline.page, Outline.typ.
  destination_cases Hdest; split_and!; by simplify_map_eq.
Qed.

Lemma destination_reads_back_witness :
  Destination.__init__ (TextStringObject "Chapter 1" (b_ "Chapter 1")) (IndirectObject 3 0)
    (NameObject "/FitH") [NumberObject 700]
  = Ok (<["/Top" := NumberObject 700]>
          (<["/Type" := NameObject "/FitH"]>
             (<["/Page" := IndirectObject 3 0]>
                (<["/Title" := TextStringObject "Chapter 1" (b_ "Chapter 1")]> ∅))))
  /\ Outline.title (<["/Top" := NumberObject 700]>
          (<["/Type" := NameObject "/FitH"]>
             (<["/Page" := IndirectObject 3 0]>
                (<["/Title" := TextStringObject "Chapter 1" (b_ "Chapter 1")]> ∅))))
     = Some (TextStringObject "Chapter 1" (b_ "Chapter 1"))
  /\ Outline.page (<["/Top" := NumberObject 700]>
          (<["/Type" := NameObject "/FitH"]>
             (<["/Page" := IndirectObject 3 0]>
                (<["/Title" := TextStringObject "Chapter 1" (b_ "Chapter 1")]> ∅))))
     = Some (IndirectObject 3 0)
  /\ Outline.typ (<["/Top" := NumberObject 700]>
          (<["/Type" := NameObject "/FitH"]>
             (<["/Page" := IndirectObject 3 0]>
                (<["/Title" := TextStringObject "Chapter 1" (b_ "Chapter 1")]> ∅))))
     = Some (NameObject "/FitH").
Proof.
  split; [reflexivity|].
  apply (destination_reads_back (TextStringObject "Chapter 1" (b_ "Chapter 1"))
           (IndirectObject 3 0) (NameObject "/FitH") [NumberObject 700]).
  reflexivity.
Defined.

(** X29.  Of the destinations that can be built, only those of type
    [/XYZ] have a zoom factor and only those of type [/FitR] have a
    bottom and a right coordinate: for every other type the
    properties [zoom], [bottom] and [right] are [None]. *)
Theorem destination_zoom_only_XYZ (title page typ : PdfObject)
    (args : list PdfObject) (dest : Destination.t) :
  Destination.__init__ title page typ args = Ok dest ->
  (Outline.zoom dest = None <-> eq_str typ "/XYZ" = false)
  /\ (Outline.bottom dest = None <-> eq_str typ "/FitR" = false)
  /\ (Outline.right dest = None <-> eq_str typ "/FitR" = false).
Proof.
  intros Hdest. unfold Outline.zoom, Outline.bottom, Outline.right.
  assert (Hone : eq_str typ "/XYZ" = true -> eq_str typ "/FitR" = false).
  { destruct typ; cbn [eq_str]; try done.
    - intros ->%String.eqb_eq. reflexivity.
    - destruct (decide (_ = b_ "/XYZ")) as [->|]; [|done]. reflexivity.
    - intros ->%String.eqb_eq. reflexivity. }
  destination_cases Hdest;
    split_and!; split; intros Hx; simplify_map_eq;
    first [congruence | by apply Hone].
Qed.

Lemma destination_zoom_only_XYZ_witness :
  Destination.__init__ (TextStringObject "Chapter 1" (b_ "Chapter 1")) (IndirectObject 3 0)
    (NameObject "/FitH") [NumberObject 700]
  = Ok (<["/Top" := NumberObject 700]>
          (<["/Type" := NameObject "/FitH"]>
             (<["/Page" := IndirectObject 3 0]>
                (<["/Title" := TextStringObject "Chapter 1" (b_ "Chapter 1")]> ∅))))
  /\ (Outline.zoom (<["/Top" := NumberObject 700]>
          (<["/Type" := NameObject "/FitH"]>
             (<["/Page" := IndirectObject 3 0]>
                (<["/Title" := TextStringObject "Chapter 1" (b_ "Chapter 1")]> ∅)))) = None
      <-> eq_str (NameObject "/FitH") "/XYZ" = false)
  /\ (Outline.bottom (<["/Top" := NumberObject 700]>
          (<["/Type" := NameObject "/FitH"]>
             (<["/Page" := IndirectObject 3 0]>
                (<["/Title" := TextStringObject "Chapter 1" (b_ "Chapter 1")]> ∅)))) = None
      <-> eq_str (NameObject "/FitH") "/FitR" = false)
  /\ (Outline.right (<["/Top" := NumberObject 700]>
          (<["/Type" := NameObject "/FitH"]>
             (<["/Page" := IndirectObject 3 0]>
                (<["/Title" := TextStringObject "Chapter 1" (b_ "Chapter 1")]> ∅)))) = None
      <-> eq_str (NameObject "/FitH") "/FitR" = false).
Proof.
  split; [reflexivity|].
  apply (destination_zoom_only_XYZ (TextStringObject "Chapter 1" (b_ "Chapter 1"))
           (IndirectObject 3 0) (NameObject "/FitH") [NumberObject 700]).
  reflexivity.
Defined.

(** X30.  [_buildDestination] on the array of a [/XYZ] destination:
    when it returns a destination, the array had exactly five
    elements, and the destination's [left], [top] and [zoom] are the
    third, fourth and fifth of them. *)
Theorem _buildDestination_XYZ (title : PdfObject) (array : list PdfObject)
    (dest : Destination.t) :
  array !! 1%nat = Some (NameObject "/XYZ") ->
  Outline._buildDestination title array = Ok dest ->
  length array = 5%nat
  /\ Outline.page dest = array !! 0%nat
  /\ Outline.left dest = array !! 2%nat
  /\ Outline.top dest = array !! 3%nat
  /\ Outline.zoom dest = array !! 4%nat.
Proof.
  intros Htyp Hdest. unfold Outline._buildDestination in Hdest.
  destruct array as [|page [|typ rest]]; try discriminate Htyp.
  injection Htyp as ->. cbn [take drop] in Hdest.
  unfold Destination.__init__ in Hdest.
  replace (eq_str (NameObject "/XYZ") "/XYZ") with true in Hdest by reflexivity.
  destruct rest as [|a_left [|a_top [|a_zoom [|? ?]]]]; try discriminate Hdest.
  injection Hdest as <-.
  unfold Outline.page, Outline.left, Outline.top, Outline.zoom.
  split_and!; by simplify_map_eq.
Qed.

Lemma _buildDestination_XYZ_witness :
  exists dest,
    Outline._buildDestination (TextStringObject "Chapter 1" (b_ "Chapter 1"))
      [IndirectObject 3 0; NameObject "/XYZ"; NumberObject 0;
       NumberObject 792; NullObject] = Ok dest
    /\ Outline.page dest = Some (IndirectObject 3 0)
    /\ Outline.left dest = Some (NumberObject 0)
    /\ Outline.top dest = Some (NumberObject 792)
    /\ Outline.zoom dest = Some NullObject.
Proof.
  eexists. split; [reflexivity|].
  apply (_buildDestination_XYZ (TextStringObject "Chapter 1" (b_ "Chapter 1"))
           [IndirectObject 3 0; NameObject "/XYZ"; NumberObject 0;
            NumberObject 792; NullObject]).
  - reflexivity.
  - reflexivity.
Defined.

